(** * Verification of the noobai-XL notebooks (Vim2 and Noobai-XL-1.1_Generator)

    The two notebooks are orchestration code around three external
    libraries (torch, diffusers, PIL).  The development below embeds the
    notebooks' own Python code as monadic Rocq programs over an explicit
    world (environment, object store, globals, random streams, event
    trace).  The external libraries are an interface: their opaque
    computations (loading weights, denoising, resampling) are operations of
    the class [Library]; whatever a theorem needs to know about them is a
    hypothesis of that theorem.  The shell cells ([!pip install ...]) and
    the imports have no counterpart here. *)

From Stdlib Require Import ZArith String List.
From Stdlib Require Import Floats.SpecFloat.
From stdpp Require Import base option list gmap strings.

Local Open Scope Z_scope.
Local Open Scope string_scope.

(** ** Python values: exceptions, numbers *)

Inductive exn :=
| NameError (name : string)
| KeyError (key : string)
| ValueError (msg : string)
| OverflowError (msg : string)
| RuntimeError (msg : string)
| LibraryError (msg : string).

Inductive result (A : Type) :=
| Ok (a : A)
| Raise (e : exn).
Arguments Ok {A} a.
Arguments Raise {A} e.

Definition result_bind {A B} (r : result A) (k : A -> result B) : result B :=
  match r with
  | Ok a => k a
  | Raise e => Raise e
  end.

Definition succeeds {A} (r : result A) : bool :=
  match r with
  | Ok _ => true
  | Raise _ => false
  end.

(** Two runs end alike: both return, and the same value, or both raise. *)
Definition same_outcome {A} (r1 r2 : result A) : Prop :=
  match r1, r2 with
  | Ok a, Ok b => a = b
  | Raise _, Raise _ => True
  | _, _ => False
  end.

(** A Python number is an unbounded [int] or a binary64 [float]. *)
Inductive number :=
| PyInt (z : Z)
| PyFloat (f : spec_float).

Definition prec : Z := 53.
Definition emax : Z := 1024.

(** [float(z)]: round to nearest even, [OverflowError] beyond the range. *)
Definition float_of_int (z : Z) : result spec_float :=
  match binary_normalize prec emax z 0 false with
  | S754_infinity _ => Raise (OverflowError "int too large to convert to float")
  | f => Ok f
  end.

(** [a * b] on numbers; a mixed product converts the int operand first. *)
Definition py_mul (a b : number) : result number :=
  match a, b with
  | PyInt x, PyInt y => Ok (PyInt (x * y))
  | PyInt x, PyFloat g =>
      result_bind (float_of_int x) (fun f => Ok (PyFloat (SFmul prec emax f g)))
  | PyFloat f, PyInt y =>
      result_bind (float_of_int y) (fun g => Ok (PyFloat (SFmul prec emax f g)))
  | PyFloat f, PyFloat g => Ok (PyFloat (SFmul prec emax f g))
  end.

(** [int(n)]: identity on ints, truncation toward zero on floats. *)
Definition py_int (n : number) : result Z :=
  match n with
  | PyInt z => Ok z
  | PyFloat (S754_zero _) => Ok 0
  | PyFloat (S754_finite s m e) =>
      Ok (cond_Zopp s (if (0 <=? e)%Z then Z.pos m * 2 ^ e else Z.pos m / 2 ^ (- e)))
  | PyFloat (S754_infinity _) =>
      Raise (OverflowError "cannot convert float infinity to integer")
  | PyFloat S754_nan => Raise (ValueError "cannot convert float NaN to integer")
  end.

(** The expression [int(dim * scale)] of both notebooks. *)
Definition scaled_dim (dim : Z) (scale : number) : result Z :=
  result_bind (py_mul (PyInt dim) scale) py_int.

(** The float nearest to [n / d]. *)
Definition float_of_ratio (n d : Z) : spec_float :=
  SFdiv prec emax (binary_normalize prec emax n 0 false)
    (binary_normalize prec emax d 0 false).

(** The float literal [2.0]. *)
Definition float_two : spec_float := binary_normalize prec emax 2 0 false.

(** ** Seeds

    [random.seed] takes every integer.  [numpy.random.seed] takes 0 to
    2^32 - 1 and raises [ValueError] on any other integer.  torch's
    [manual_seed], of a generator, of the default stream or of the CUDA
    streams, takes -2^63 to 2^64 - 1 and raises [RuntimeError] on any
    other. *)
Definition numpy_seed (seed : Z) : Prop := (0 <= seed < 2 ^ 32)%Z.

Definition torch_seed (seed : Z) : Prop := (- 2 ^ 63 <= seed < 2 ^ 64)%Z.

#[export] Instance numpy_seed_dec seed : Decision (numpy_seed seed).
Proof. unfold numpy_seed. apply _. Defined.

#[export] Instance torch_seed_dec seed : Decision (torch_seed seed).
Proof. unfold torch_seed. apply _. Defined.

Definition numpy_refusal : exn :=
  ValueError "Seed must be between 0 and 2**32 - 1".

Definition torch_refusal : exn :=
  RuntimeError "Overflow when unpacking long".

(** ** The external libraries *)

(** Values the libraries own and the notebooks only pass around. *)
Class Opaque := {
  Weights : Type;       (* parameters of a loaded model *)
  SchedConfig : Type;   (* a scheduler configuration *)
  Stream : Type;        (* state of a random number stream *)
  stream_seed : Z -> Stream   (* the stream right after seeding it *)
}.

Section Objects.
Context `{Opaque}.

(** [SomeScheduler.from_config(cfg)]: a scheduler is known by its class and
    by the configuration it was made from.  The notebooks read [.config]
    only off the scheduler a loaded pipeline comes with, never off one they
    made. *)
Record Scheduler := from_config {
  sched_class : string;
  sched_config : SchedConfig
}.

Record Tokenizer := { model_max_length : Z }.

(** The attributes of a pipeline object that the notebooks read or assign. *)
Record Pipeline := {
  pipe_class : string;
  weights : Weights;
  device : string;
  tokenizer : Tokenizer;
  tokenizer_2 : Tokenizer;
  scheduler : Scheduler
}.

Definition with_device (p : Pipeline) (d : string) : Pipeline :=
  {| pipe_class := pipe_class p; weights := weights p; device := d;
     tokenizer := tokenizer p; tokenizer_2 := tokenizer_2 p;
     scheduler := scheduler p |}.

Definition with_tokenizer (p : Pipeline) (t : Tokenizer) : Pipeline :=
  {| pipe_class := pipe_class p; weights := weights p; device := device p;
     tokenizer := t; tokenizer_2 := tokenizer_2 p;
     scheduler := scheduler p |}.

Definition with_tokenizer_2 (p : Pipeline) (t : Tokenizer) : Pipeline :=
  {| pipe_class := pipe_class p; weights := weights p; device := device p;
     tokenizer := tokenizer p; tokenizer_2 := t;
     scheduler := scheduler p |}.

Definition with_scheduler (p : Pipeline) (s : Scheduler) : Pipeline :=
  {| pipe_class := pipe_class p; weights := weights p; device := device p;
     tokenizer := tokenizer p; tokenizer_2 := tokenizer_2 p;
     scheduler := s |}.

(** Two pipeline values that differ at most in the scheduler. *)
Definition same_but_scheduler (p p' : Pipeline) : Prop :=
  pipe_class p' = pipe_class p /\ weights p' = weights p
  /\ device p' = device p /\ tokenizer p' = tokenizer p
  /\ tokenizer_2 p' = tokenizer_2 p.

(** Both tokenizers of a pipeline accept a million tokens. *)
Definition limits_lifted (p : Pipeline) : Prop :=
  model_max_length (tokenizer p) = 1000000
  /\ model_max_length (tokenizer_2 p) = 1000000.

(** [torch.Generator(device).manual_seed(seed)]. *)
Record Generator := {
  gen_device : string;
  gen_stream : Stream
}.

(** The process-wide random streams that [set_seed] touches. *)
Record RngState := {
  py_random : Stream;
  np_random : Stream;
  torch_cpu : Stream;
  torch_cuda : Stream
}.

(** Keyword arguments of [from_pretrained]. *)
Record LoadOpts := {
  torch_dtype : option string;
  variant : option string;
  use_safetensors : option bool
}.

Definition no_opts : LoadOpts :=
  {| torch_dtype := None; variant := None; use_safetensors := None |}.

Definition fp16_opts : LoadOpts :=
  {| torch_dtype := Some "float16"; variant := Some "fp16";
     use_safetensors := Some true |}.

(** Arguments of a pipeline invocation [pipe(...)]; an argument the call
    site leaves out has the library's default, [None]. *)
Record CallArgs := {
  prompt : string;
  negative_prompt : option string;
  num_inference_steps : Z;
  guidance_scale : number;
  generator : option Generator;
  width : Z;
  height : Z
}.

(** The size a pipeline invocation asks for, as (width, height). *)
Definition requested_size (args : CallArgs) : Z * Z :=
  (width args, height args).

Inductive resample := LANCZOS.
End Objects.

(** The opaque computations. *)
Class Library `{Opaque} := {
  Image : Type;
  (* [image.size], as (width, height) *)
  img_size : Image -> Z * Z;
  (* [Class.from_pretrained(model_id, ...)] for a class name, a model id
     and keyword options *)
  lib_from_pretrained : string -> string -> LoadOpts -> result Pipeline;
  (* [pipe(...).images[0]], which may draw from the process-wide streams *)
  lib_call : Pipeline -> CallArgs -> RngState -> result Image * RngState;
  (* [image.resize(size, filter)] *)
  lib_resize : Image -> Z * Z -> resample -> result Image
}.

(** ** The world and the notebook monad *)

Section Runtime.
Context `{Library}.

(** A printed line: literal text and formatted numbers. *)
Inductive piece :=
| Lit (s : string)
| Num (n : number).

(** What a run does that is visible outside the notebook's own code:
    output, calls into the libraries, and attribute assignments on
    pipeline objects. *)
Inductive event :=
| EvPrint (msg : list piece)
| EvCudaQuery
| EvFromPretrained (cls model_id : string) (opts : LoadOpts)
| EvTo (ref : nat) (dev : string)
| EvSetMaxLength (ref : nat) (attr : string) (n : Z)
| EvSetScheduler (ref : nat) (s : Scheduler)
| EvSeed (target : string) (seed : Z)
| EvCall (p : Pipeline) (args : CallArgs) (res : result Image)
| EvResize (img : Image) (size : Z * Z) (filter : resample)
| EvShow (img : Image)
| EvSave (img : Image) (path : string).

Record World := {
  cuda_available : bool;                          (* the runtime has a GPU *)
  gpu_name : string;
  store : list Pipeline;                          (* pipeline objects, by reference *)
  g_SCHEDULERS : option (gmap string Scheduler);  (* global [SCHEDULERS] *)
  g_pipe : option nat;                            (* global [pipe] *)
  rng : RngState;
  trace : list event                              (* oldest first *)
}.

Definition with_store (w : World) (s : list Pipeline) : World :=
  {| cuda_available := cuda_available w; gpu_name := gpu_name w; store := s;
     g_SCHEDULERS := g_SCHEDULERS w; g_pipe := g_pipe w; rng := rng w;
     trace := trace w |}.

Definition with_SCHEDULERS (w : World) (d : gmap string Scheduler) : World :=
  {| cuda_available := cuda_available w; gpu_name := gpu_name w;
     store := store w; g_SCHEDULERS := Some d; g_pipe := g_pipe w;
     rng := rng w; trace := trace w |}.

Definition with_pipe (w : World) (r : nat) : World :=
  {| cuda_available := cuda_available w; gpu_name := gpu_name w;
     store := store w; g_SCHEDULERS := g_SCHEDULERS w; g_pipe := Some r;
     rng := rng w; trace := trace w |}.

Definition with_rng (w : World) (g : RngState) : World :=
  {| cuda_available := cuda_available w; gpu_name := gpu_name w;
     store := store w; g_SCHEDULERS := g_SCHEDULERS w; g_pipe := g_pipe w;
     rng := g; trace := trace w |}.

Definition with_trace (w : World) (t : list event) : World :=
  {| cuda_available := cuda_available w; gpu_name := gpu_name w;
     store := store w; g_SCHEDULERS := g_SCHEDULERS w; g_pipe := g_pipe w;
     rng := rng w; trace := t |}.

(** The world after a run that left the globals alone: new store, new
    streams, and the events [t] appended. *)
Definition evolve (w : World) (s : list Pipeline) (g : RngState)
    (t : list event) : World :=
  with_trace (with_rng (with_store w s) g) (trace w ++ t).

(** A computation returns or raises, and leaves a world either way. *)
Definition M (A : Type) : Type := World -> result A * World.

#[export] Instance M_ret : MRet M := fun A a w => (Ok a, w).

#[export] Instance M_bind : MBind M := fun A B k m w =>
  match m w with
  | (Ok a, w') => k a w'
  | (Raise e, w') => (Raise e, w')
  end.

Definition raise {A} (e : exn) : M A := fun w => (Raise e, w).

Definition lift {A} (r : result A) : M A := fun w => (r, w).

Definition read_world {A} (f : World -> A) : M A := fun w => (Ok (f w), w).

Definition update_world (f : World -> World) : M unit :=
  fun w => (Ok tt, f w).

Definition emit (ev : event) : M unit :=
  update_world (fun w => with_trace w (trace w ++ [ev])).

Definition print (msg : list piece) : M unit := emit (EvPrint msg).

(** *** Globals *)

Definition global_pipe : M nat :=
  fun w => match g_pipe w with
           | Some r => (Ok r, w)
           | None => (Raise (NameError "pipe"), w)
           end.

Definition global_SCHEDULERS : M (gmap string Scheduler) :=
  fun w => match g_SCHEDULERS w with
           | Some d => (Ok d, w)
           | None => (Raise (NameError "SCHEDULERS"), w)
           end.

Definition set_global_pipe (r : nat) : M unit :=
  update_world (fun w => with_pipe w r).

Definition set_global_SCHEDULERS (d : gmap string Scheduler) : M unit :=
  update_world (fun w => with_SCHEDULERS w d).

(** [d[k]] *)
Definition subscript {V} (d : gmap string V) (k : string) : M V :=
  match d !! k with
  | Some v => mret v
  | None => raise (KeyError k)
  end.

(** *** Pipeline objects *)

Definition alloc (p : Pipeline) : M nat :=
  fun w => (Ok (length (store w)), with_store w (store w ++ [p])).

Definition deref (r : nat) : M Pipeline :=
  fun w => match store w !! r with
           | Some p => (Ok p, w)
           | None => (Raise (RuntimeError "no such object"), w)
           end.

(** In-place update of the object behind a reference. *)
Definition modify (r : nat) (f : Pipeline -> Pipeline) : M unit :=
  p ← deref r;
  update_world (fun w => with_store w (<[r := f p]> (store w))).

Definition from_pretrained (cls model_id : string) (opts : LoadOpts) : M nat :=
  emit (EvFromPretrained cls model_id opts);;
  p ← lift (lib_from_pretrained cls model_id opts);
  alloc p.

(** *** torch *)

Definition cuda_is_available : M bool :=
  emit EvCudaQuery;;
  read_world cuda_available.

Definition cuda_get_device_name : M string :=
  fun w => if cuda_available w then (Ok (gpu_name w), w)
           else (Raise (RuntimeError "no CUDA device"), w).

(** torch accepts work on "cpu" always and on "cuda" when a GPU is there. *)
Definition device_usable (w : World) (dev : string) : bool :=
  if String.eqb dev "cpu" then true
  else if String.eqb dev "cuda" then cuda_available w
  else false.

Definition require_device (dev : string) : M unit :=
  fun w => if device_usable w dev then (Ok tt, w)
           else (Raise (RuntimeError "device not available"), w).

(** [pipe.to(dev)]: moves the object and returns it. *)
Definition pipe_to (r : nat) (dev : string) : M nat :=
  emit (EvTo r dev);;
  require_device dev;;
  modify r (fun p => with_device p dev);;
  mret r.

(** A library call that checks an argument before it does anything. *)
Definition accept (ok : bool) (refusal : exn) : M unit :=
  if ok then mret tt else raise refusal.

(** [torch.Generator(dev).manual_seed(seed)]: the generator is made on the
    device first, then seeded.  A seeding is recorded when it is done. *)
Definition Generator_manual_seed (dev : string) (seed : Z) : M Generator :=
  require_device dev;;
  accept (bool_decide (torch_seed seed)) torch_refusal;;
  emit (EvSeed ("torch.Generator:" ++ dev) seed);;
  mret {| gen_device := dev; gen_stream := stream_seed seed |}.

Definition reseed (target : string) (seed : Z)
    (set : RngState -> Stream -> RngState) : M unit :=
  emit (EvSeed target seed);;
  update_world (fun w => with_rng w (set (rng w) (stream_seed seed))).

Definition random_seed (seed : Z) : M unit :=
  reseed "random" seed (fun g s =>
    {| py_random := s; np_random := np_random g;
       torch_cpu := torch_cpu g; torch_cuda := torch_cuda g |}).

Definition np_random_seed (seed : Z) : M unit :=
  accept (bool_decide (numpy_seed seed)) numpy_refusal;;
  reseed "numpy.random" seed (fun g s =>
    {| py_random := py_random g; np_random := s;
       torch_cpu := torch_cpu g; torch_cuda := torch_cuda g |}).

Definition torch_manual_seed (seed : Z) : M unit :=
  accept (bool_decide (torch_seed seed)) torch_refusal;;
  reseed "torch" seed (fun g s =>
    {| py_random := py_random g; np_random := np_random g;
       torch_cpu := s; torch_cuda := torch_cuda g |}).

Definition torch_cuda_manual_seed_all (seed : Z) : M unit :=
  accept (bool_decide (torch_seed seed)) torch_refusal;;
  reseed "torch.cuda" seed (fun g s =>
    {| py_random := py_random g; np_random := np_random g;
       torch_cpu := torch_cpu g; torch_cuda := s |}).

(** *** diffusers and PIL *)

(** [pipe(...).images[0]] on the object behind [r]; the call and what it
    gave back are recorded when it returns or raises. *)
Definition run_call (p : Pipeline) (args : CallArgs) : M Image :=
  fun w =>
    let '(res, g) := lib_call p args (rng w) in
    (res, with_trace (with_rng w g) (trace w ++ [EvCall p args res])).

Definition call_pipe (r : nat) (args : CallArgs) : M Image :=
  p ← deref r;
  run_call p args.

(** [image.resize(size, filter)] *)
Definition image_resize (img : Image) (size : Z * Z) (filter : resample)
    : M Image :=
  emit (EvResize img size filter);;
  lift (lib_resize img size filter).

Definition image_show (img : Image) : M unit := emit (EvShow img).

Definition image_save (img : Image) (path : string) : M unit :=
  emit (EvSave img path).

(** Python truthiness of an optional string. *)
Definition truthy (s : option string) : bool :=
  match s with
  | Some (String _ _) => true
  | _ => false
  end.

Definition newline : string := String (Ascii.ascii_of_nat 10) EmptyString.

(** The value of [image.resize((int(width * scale), int(height * scale)),
    Image.LANCZOS)], which both notebooks write out. *)
Definition simple_upscale (image : Image) (width height : Z)
    (scale : number) : result Image :=
  result_bind (scaled_dim width scale) (fun new_width =>
  result_bind (scaled_dim height scale) (fun new_height =>
  lib_resize image (new_width, new_height) LANCZOS)).
End Runtime.

(** ** Vim2.ipynb *)

Module Vim2.
Section Code.
Context `{Library}.

Definition check_cuda : M unit :=
  avail ← cuda_is_available;
  if negb avail then
    print [Lit "WARNING: CUDA is not available. Please switch to a GPU runtime for best performance."]
  else
    name ← cuda_get_device_name;
    print [Lit ("CUDA is available. GPU name: " ++ name)].

Definition MODEL_ID : string := "Laxhar/noobai-XL-1.1".

(** The dictionary literal of [create_scheduler_dict], keys inserted in
    the order they are written. *)
Definition scheduler_table (default_scheduler_config : SchedConfig)
    : gmap string Scheduler :=
  <["ddim" := from_config "DDIMScheduler" default_scheduler_config]>
  (<["dpm" := from_config "DPMSolverMultistepScheduler" default_scheduler_config]>
  (<["euler_ancestral" :=
       from_config "EulerAncestralDiscreteScheduler" default_scheduler_config]>
  (<["euler" := from_config "EulerDiscreteScheduler" default_scheduler_config]>
   ∅))).

(** The temporary pipeline is only read for its scheduler configuration.
    [del temp_pipe] drops the local name; the store, which keeps every
    object ever allocated and says nothing of which are still alive, is
    left as it is. *)
Definition create_scheduler_dict : M (gmap string Scheduler) :=
  temp_pipe ← from_pretrained "StableDiffusionXLPipeline" MODEL_ID fp16_opts;
  p ← deref temp_pipe;
  let default_scheduler_config := sched_config (scheduler p) in
  let schedulers := scheduler_table default_scheduler_config in
  mret schedulers.

(** [pipeline.scheduler = s] *)
Definition assign_scheduler (pipeline : nat) (s : Scheduler) : M unit :=
  emit (EvSetScheduler pipeline s);;
  modify pipeline (fun p => with_scheduler p s).

Definition set_scheduler (pipeline : nat) (scheduler_name : string) : M unit :=
  SCHEDULERS ← global_SCHEDULERS;
  if bool_decide (scheduler_name ∈ dom SCHEDULERS) then
    s ← subscript SCHEDULERS scheduler_name;
    assign_scheduler pipeline s
  else
    print [Lit ("Unknown scheduler '" ++ scheduler_name ++ "'. Defaulting to 'euler'.")];;
    s ← subscript SCHEDULERS "euler";
    assign_scheduler pipeline s.

(** [pipeline.<attr>.model_max_length = n], for the tokenizer that [set]
    replaces. *)
Definition assign_max_length (pipeline : nat) (attr : string) (n : Z)
    (set : Pipeline -> Tokenizer -> Pipeline) : M unit :=
  emit (EvSetMaxLength pipeline attr n);;
  modify pipeline (fun p => set p {| model_max_length := n |}).

Definition load_pipeline (model_id scheduler_choice : string) : M nat :=
  print [Lit ("Loading pipeline for model: " ++ model_id)];;
  loaded ← from_pretrained "StableDiffusionXLPipeline" model_id fp16_opts;
  pipe ← pipe_to loaded "cuda";
  assign_max_length pipe "tokenizer" 1000000 with_tokenizer;;
  assign_max_length pipe "tokenizer_2" 1000000 with_tokenizer_2;;
  set_scheduler pipe scheduler_choice;;
  print [Lit "Pipeline loaded successfully!"];;
  mret pipe.

Definition upscaler : Type := Image -> number -> M Image.

Definition generate_image
    (prompt : string) (negative_prompt : option string)
    (scheduler_name : string) (num_inference_steps seed : Z)
    (guidance_scale : number) (width height : Z)
    (hires_fix : bool) (hires_scale : number)
    (upscaler_func : option upscaler) : M Image :=
  print [Lit (newline ++ "--- Generating Image ---" ++ newline ++ "Prompt: " ++ prompt)];;
  (if truthy negative_prompt then
     print [Lit ("Negative Prompt: " ++ default "" negative_prompt)]
   else mret tt);;
  pipe ← global_pipe;
  set_scheduler pipe scheduler_name;;
  generator ← Generator_manual_seed "cuda" seed;
  image ← call_pipe pipe
    {| prompt := prompt; negative_prompt := negative_prompt;
       num_inference_steps := num_inference_steps;
       guidance_scale := guidance_scale; generator := Some generator;
       width := width; height := height |};
  image ← (if hires_fix then
             print [Lit "Applying hires fix with scale factor: ";
                    Num hires_scale; Lit "x"];;
             match upscaler_func with
             | Some f => f image hires_scale
             | None =>
                 new_width ← lift (scaled_dim width hires_scale);
                 new_height ← lift (scaled_dim height hires_scale);
                 image_resize image (new_width, new_height) LANCZOS
             end
           else mret image);
  print [Lit "Image generation complete!"];;
  mret image.

Definition example_upscaler_func : upscaler := fun image scale_factor =>
  print [Lit "Using custom upscaler (placeholder)."];;
  new_width ← lift (scaled_dim (img_size image).1 scale_factor);
  new_height ← lift (scaled_dim (img_size image).2 scale_factor);
  image_resize image (new_width, new_height) LANCZOS.

(** What an upscaler may print and call while it works. *)
Definition upscale_event (ev : event) : bool :=
  match ev with
  | EvPrint _ | EvResize _ _ _ => true
  | _ => false
  end.

(** An upscaler in the sense of the docstring: its result depends on the
    image and the factor only, and all it does to the world is print and
    resize. *)
Record upscaler_ok (f : upscaler) : Prop := {
  up_result : forall img s w1 w2, (f img s w1).1 = (f img s w2).1;
  up_world : forall img s w, exists t,
    (f img s w).2 = with_trace w (trace w ++ t)
    /\ forallb upscale_event t = true
}.

Definition upscaler_opt_ok (u : option upscaler) : Prop :=
  match u with
  | Some f => upscaler_ok f
  | None => True
  end.

(** The arguments [generate_image] hands to the pipeline. *)
Definition forwarded (prompt : string) (negative_prompt : option string)
    (num_inference_steps : Z) (guidance_scale : number)
    (g : Generator) (width height : Z) : CallArgs :=
  {| prompt := prompt; negative_prompt := negative_prompt;
     num_inference_steps := num_inference_steps;
     guidance_scale := guidance_scale; generator := Some g;
     width := width; height := height |}.

(** The world after a successful [setup]: both globals are defined, the
    pipeline object exists, the scheduler table is the one
    [create_scheduler_dict] builds, and there is a GPU. *)
Record ready (w : World) (r : nat) (p : Pipeline) (cfg : SchedConfig)
    : Prop := {
  ready_cuda : cuda_available w = true;
  ready_table : g_SCHEDULERS w = Some (scheduler_table cfg);
  ready_pipe : g_pipe w = Some r;
  ready_obj : store w !! r = Some p
}.

(** The scheduler that [set_scheduler] picks from a table, if any. *)
Definition pick (d : gmap string Scheduler) (scheduler_name : string)
    : option Scheduler :=
  match d !! scheduler_name with
  | Some s => Some s
  | None => d !! "euler"
  end.

(** What [generate_image] needs to get as far as the pipeline call: both
    globals, a scheduler to pick, the pipeline object, a GPU for the
    generator, and a seed the generator takes. *)
Definition reach (w : World) (scheduler_name : string) (seed : Z)
    : option (nat * Pipeline * Scheduler) :=
  r ← g_pipe w;
  d ← g_SCHEDULERS w;
  s ← pick d scheduler_name;
  p ← store w !! r;
  if cuda_available w && bool_decide (torch_seed seed) then Some (r, p, s)
  else None.

(** The exception of a [generate_image] that has everything but the
    generator: there is no GPU to make it on, or torch refuses the seed. *)
Definition generator_refusal (w : World) : exn :=
  if cuda_available w then torch_refusal
  else RuntimeError "device not available".

(** What [generate_image] can have recorded when it stops before the
    pipeline call. *)
Definition early_event (ev : event) : bool :=
  match ev with
  | EvPrint _ | EvSetScheduler _ _ => true
  | _ => false
  end.

Definition unknown_warning (scheduler_name : string) : event :=
  EvPrint [Lit ("Unknown scheduler '" ++ scheduler_name ++ "'. Defaulting to 'euler'.")].

(** What [generate_image] prints before it touches the pipeline. *)
Definition banner (prompt : string) (negative_prompt : option string)
    : list event :=
  EvPrint [Lit (newline ++ "--- Generating Image ---" ++ newline ++ "Prompt: " ++ prompt)]
  :: (if truthy negative_prompt then
        [EvPrint [Lit ("Negative Prompt: " ++ default "" negative_prompt)]]
      else []).

(** The events of [set_scheduler] when it assigns [s] from table [d]. *)
Definition selection (d : gmap string Scheduler) (r : nat)
    (scheduler_name : string) (s : Scheduler) : list event :=
  (if bool_decide (scheduler_name ∈ dom d) then []
   else [unknown_warning scheduler_name])
  ++ [EvSetScheduler r s].

Definition cuda_generator (seed : Z) : Generator :=
  {| gen_device := "cuda"; gen_stream := stream_seed seed |}.

(** The last block of [generate_image]: what happens to the image the
    pipeline returned. *)
Definition finish (width height : Z) (hires_fix : bool)
    (hires_scale : number) (upscaler_func : option upscaler)
    (image : Image) : M Image :=
  image ← (if hires_fix then
             print [Lit "Applying hires fix with scale factor: ";
                    Num hires_scale; Lit "x"];;
             match upscaler_func with
             | Some f => f image hires_scale
             | None =>
                 new_width ← lift (scaled_dim width hires_scale);
                 new_height ← lift (scaled_dim height hires_scale);
                 image_resize image (new_width, new_height) LANCZOS
             end
           else mret image);
  print [Lit "Image generation complete!"];;
  mret image.

(** The value [finish] returns. *)
Definition upscaled (width height : Z) (hires_fix : bool)
    (hires_scale : number) (upscaler_func : option upscaler)
    (image : Image) (w : World) : result Image :=
  if hires_fix then
    match upscaler_func with
    | Some f => (f image hires_scale w).1
    | None => simple_upscale image width height hires_scale
    end
  else Ok image.

(** The scheduler that [set_scheduler] picks for a name from the table of
    [create_scheduler_dict]. *)
Definition chosen (cfg : SchedConfig) (scheduler_name : string) : Scheduler :=
  default (from_config "EulerDiscreteScheduler" cfg)
          (scheduler_table cfg !! scheduler_name).

Definition documented_names : list string :=
  ["euler"; "euler_ancestral"; "dpm"; "ddim"].

(** The pipeline object [load_pipeline] leaves behind, from the freshly
    loaded [p0] and the scheduler [s] it selects. *)
Definition loaded (p0 : Pipeline) (s : Scheduler) : Pipeline :=
  with_scheduler
    (with_tokenizer_2
       (with_tokenizer (with_device p0 "cuda") {| model_max_length := 1000000 |})
       {| model_max_length := 1000000 |})
    s.

(** The events of a [load_pipeline] that runs to its end, on the object
    it allocates at [r]. *)
Definition load_events (model_id : string) (d : gmap string Scheduler)
    (r : nat) (scheduler_choice : string) (s : Scheduler) : list event :=
  [EvPrint [Lit ("Loading pipeline for model: " ++ model_id)];
   EvFromPretrained "StableDiffusionXLPipeline" model_id fp16_opts;
   EvTo r "cuda";
   EvSetMaxLength r "tokenizer" 1000000;
   EvSetMaxLength r "tokenizer_2" 1000000]
  ++ selection d r scheduler_choice s
  ++ [EvPrint [Lit "Pipeline loaded successfully!"]].

(** Events of setting up: everything but invoking the pipeline, resizing,
    showing and saving. *)
Definition setup_event (ev : event) : bool :=
  match ev with
  | EvCall _ _ _ | EvResize _ _ _ | EvShow _ | EvSave _ _ => false
  | _ => true
  end.

(** The notebook's top-level statements, in cell order. *)
Definition setup : M unit :=
  check_cuda;;
  SCHEDULERS ← create_scheduler_dict;
  set_global_SCHEDULERS SCHEDULERS;;
  pipe ← load_pipeline MODEL_ID "euler";
  set_global_pipe pipe;;
  print [Lit "Setup complete. You can now use the generate_image function to create images."].
End Code.
End Vim2.

(** ** Noobai-XL-1.1_Generator.ipynb *)

Module Noobai.
Section Code.
Context `{Library}.

Definition set_seed (seed : Z) : M unit :=
  random_seed seed;;
  np_random_seed seed;;
  torch_manual_seed seed;;
  avail ← cuda_is_available;
  if (avail : bool) then torch_cuda_manual_seed_all seed else mret tt.

Definition generate_image (prompt : string) (steps seed : Z)
    (guidance_scale : number) (height width : Z) : M Image :=
  set_seed seed;;
  pipe ← global_pipe;
  call_pipe pipe
    {| prompt := prompt; negative_prompt := None;
       num_inference_steps := steps; guidance_scale := guidance_scale;
       generator := None; width := width; height := height |}.

Definition hires_fix (image : Image) (scale : number) : M Image :=
  let '(width, height) := img_size image in
  new_width ← lift (scaled_dim width scale);
  new_height ← lift (scaled_dim height scale);
  image_resize image (new_width, new_height) LANCZOS.

(** Cell 3: choose the device, load the model, move it there. *)
Definition load_model : M string :=
  let model_id := "Laxhar/noobai-XL-1.1" in
  avail ← cuda_is_available;
  let device := if (avail : bool) then "cuda" else "cpu" in
  loaded ← from_pretrained "StableDiffusionPipeline" model_id no_opts;
  set_global_pipe loaded;;
  pipe ← pipe_to loaded device;
  set_global_pipe pipe;;
  print [Lit ("Model loaded on " ++ device)];;
  mret device.

(** Cell 7, on the inputs of cell 6. *)
Definition generate_and_display (prompt : string) (steps seed : Z)
    (guidance_scale : number) (height width : Z)
    (apply_hires : bool) (scale : number) : M Image :=
  image ← generate_image prompt steps seed guidance_scale height width;
  image ← (if apply_hires then hires_fix image scale else mret image);
  image_show image;;
  mret image.

(** Cell 8. *)
Definition save_image (image : Image) : M unit :=
  let image_path := "generated_image.png" in
  image_save image image_path;;
  print [Lit ("Image saved to " ++ image_path)].

(** The streams after a [set_seed] that returned. *)
Definition seeded (w : World) (seed : Z) : RngState :=
  {| py_random := stream_seed seed; np_random := stream_seed seed;
     torch_cpu := stream_seed seed;
     torch_cuda := if cuda_available w then stream_seed seed
                   else torch_cuda (rng w) |}.

(** The events of a [set_seed] that returned. *)
Definition seed_events (w : World) (seed : Z) : list event :=
  [EvSeed "random" seed; EvSeed "numpy.random" seed; EvSeed "torch" seed;
   EvCudaQuery]
  ++ (if cuda_available w then [EvSeed "torch.cuda" seed] else []).

(** The streams after a [set_seed] that numpy stopped: [random] is
    reseeded, nothing else. *)
Definition half_seeded (w : World) (seed : Z) : RngState :=
  {| py_random := stream_seed seed; np_random := np_random (rng w);
     torch_cpu := torch_cpu (rng w); torch_cuda := torch_cuda (rng w) |}.

(** What [set_seed] can record. *)
Definition seed_event (ev : event) : bool :=
  match ev with
  | EvSeed _ _ | EvCudaQuery => true
  | _ => false
  end.

(** What [generate_image] needs to get as far as the pipeline call: a seed
    that numpy takes, the global [pipe] and the object behind it. *)
Definition reach (w : World) (seed : Z) : option (nat * Pipeline) :=
  if bool_decide (numpy_seed seed) then
    r ← g_pipe w; p ← store w !! r; Some (r, p)
  else None.

(** The arguments [generate_image] hands to the pipeline. *)
Definition forwarded (prompt : string) (steps : Z) (guidance_scale : number)
    (height width : Z) : CallArgs :=
  {| prompt := prompt; negative_prompt := None;
     num_inference_steps := steps; guidance_scale := guidance_scale;
     generator := None; width := width; height := height |}.

(** The stream a pipeline draws from when it is given no generator: the
    one of the device it is on. *)
Definition device_stream (p : Pipeline) (g : RngState) : Stream :=
  if String.eqb (device p) "cuda" then torch_cuda g else torch_cpu g.

(** The whole notebook, in cell order. *)
Definition notebook (prompt : string) (steps seed : Z)
    (guidance_scale : number) (height width : Z)
    (apply_hires : bool) (scale : number) : M Image :=
  load_model;;
  image ← generate_and_display prompt steps seed guidance_scale height width
            apply_hires scale;
  save_image image;;
  mret image.
End Code.
End Noobai.

(** ** Observations on traces *)

Section Observations.
Context `{Library}.

(** The pipeline invocations of a trace, oldest first. *)
Definition calls (t : list event)
    : list (Pipeline * CallArgs * result Image) :=
  omap (fun ev => match ev with
                  | EvCall p a res => Some (p, a, res)
                  | _ => None
                  end) t.

(** The resize requests of a trace, oldest first. *)
Definition resizes (t : list event) : list (Image * (Z * Z)) :=
  omap (fun ev => match ev with
                  | EvResize img size _ => Some (img, size)
                  | _ => None
                  end) t.

(** The stages of the spec's linear pipeline. *)
Inductive stage :=
| StDevice     (* configure device *)
| StLoad       (* load pretrained weights *)
| StSampler    (* select a sampler *)
| StDenoise    (* run the denoising steps *)
| StResize     (* resize the result *)
| StOutput.    (* save or display *)

#[export] Instance stage_eq_dec : EqDecision stage.
Proof. solve_decision. Defined.

(** Which stage an event belongs to; printing and seeding belong to none. *)
Definition stage_of (ev : event) : option stage :=
  match ev with
  | EvCudaQuery | EvTo _ _ => Some StDevice
  | EvFromPretrained _ _ _ => Some StLoad
  | EvSetScheduler _ _ => Some StSampler
  | EvCall _ _ _ => Some StDenoise
  | EvResize _ _ _ => Some StResize
  | EvShow _ | EvSave _ _ => Some StOutput
  | EvPrint _ | EvSetMaxLength _ _ _ | EvSeed _ _ => None
  end.

(** The stages in the order in which a run first enters them. *)
Fixpoint entered (seen l : list stage) : list stage :=
  match l with
  | [] => []
  | a :: l' =>
      if bool_decide (a ∈ seen) then entered seen l'
      else a :: entered (a :: seen) l'
  end.

Definition stages (t : list event) : list stage :=
  entered [] (omap stage_of t).

(** A run follows the linear pipeline when it enters the six stages of the
    spec, in the spec's order, the resize being optional. *)
Definition follows_linear_pipeline (t : list event) : bool :=
  bool_decide (stages t = [StDevice; StLoad; StSampler; StDenoise; StResize; StOutput])
  || bool_decide (stages t = [StDevice; StLoad; StSampler; StDenoise; StOutput]).

(** The staged events of a trace, each with its stage, oldest first. *)
Definition staged (t : list event) : list stage := omap stage_of t.

(** The device of the pipeline behind the global [pipe], if there is one. *)
Definition pipeline_device (w : World) : option string :=
  r ← g_pipe w; p ← store w !! r; Some (device p).

(** The device the spec expects the pipeline on. *)
Definition expected_device (cuda : bool) : string :=
  if cuda then "cuda" else "cpu".

(** The events of a run: what [w'] has recorded beyond [w]. *)
Definition events_since (w w' : World) : list event :=
  drop (length (trace w)) (trace w').

(** The model loads of a trace, oldest first. *)
Definition loads (t : list event) : list (string * string * LoadOpts) :=
  omap (fun ev => match ev with
                  | EvFromPretrained cls model_id opts =>
                      Some (cls, model_id, opts)
                  | _ => None
                  end) t.

(** The images shown and the images saved in a trace, oldest first. *)
Definition shows (t : list event) : list Image :=
  omap (fun ev => match ev with
                  | EvShow img => Some img
                  | _ => None
                  end) t.

Definition saves (t : list event) : list (Image * string) :=
  omap (fun ev => match ev with
                  | EvSave img path => Some (img, path)
                  | _ => None
                  end) t.

(** Nothing but the trace differs between two worlds. *)
Definition same_state (w w' : World) : Prop :=
  cuda_available w' = cuda_available w /\ store w' = store w
  /\ g_SCHEDULERS w' = g_SCHEDULERS w /\ g_pipe w' = g_pipe w
  /\ rng w' = rng w.

(** A scale factor that is a float but not a number: NaN or an infinity. *)
Definition not_finite (scale : number) : bool :=
  match scale with
  | PyFloat S754_nan | PyFloat (S754_infinity _) => true
  | _ => false
  end.
End Observations.

(** ** A symbolic library

    Every opaque value is the term that produced it: weights are the model
    id, an image is the record of the call or resize it came from.  The
    instance follows what diffusers and PIL do with sizes, token limits and
    random sources. *)

Module Sym.
#[export] Instance opaque : Opaque :=
  {| Weights := string;
     SchedConfig := string;
     Stream := Z * nat;                 (* seed, draws so far *)
     stream_seed := fun seed => (seed, 0%nat) |}.

Inductive image :=
| Generated (p : Pipeline) (args : CallArgs) (noise : Z * nat)
| Resized (src : image) (size : Z * Z).

(** The width and height of the model's own sample size, which a pipeline
    call takes where it is given 0 (or nothing). *)
Definition default_size : Z := 1024.

Definition effective (dim : Z) : Z :=
  if (dim =? 0)%Z then default_size else dim.

(** The positions of the model's text encoders. *)
Definition encoder_positions : Z := 77.

Definition size (img : image) : Z * Z :=
  match img with
  | Generated _ args _ => (effective (width args), effective (height args))
  | Resized _ sz => sz
  end.

Definition load (cls model_id : string) (opts : LoadOpts) : result Pipeline :=
  Ok {| pipe_class := cls; weights := model_id; device := "cpu";
        tokenizer := {| model_max_length := encoder_positions |};
        tokenizer_2 := {| model_max_length := encoder_positions |};
        scheduler := from_config "EulerDiscreteScheduler" model_id |}.

Definition draw (s : Z * nat) : Z * nat := (s.1, S s.2).

(** A pipeline call, in the order diffusers goes through it.  A width or
    height of 0 stands for the default size; the size must be divisible by
    8.  The prompt is padded to the tokenizers' [model_max_length], and the
    text encoders take no more than their own positions.  The latents need a
    positive size.  Noise comes from the explicit generator when there is
    one, else from the stream of the pipeline's device, which the call
    advances. *)
Definition call (p : Pipeline) (args : CallArgs) (g : RngState)
    : result image * RngState :=
  let w := effective (width args) in
  let h := effective (height args) in
  if negb ((w mod 8 =? 0)%Z && (h mod 8 =? 0)%Z)
  then (Raise (ValueError "height and width have to be divisible by 8"), g)
  else if negb ((model_max_length (tokenizer p) <=? encoder_positions)%Z
                && (model_max_length (tokenizer_2 p)
                    <=? encoder_positions)%Z)
  then (Raise (RuntimeError "sequence longer than the encoder's positions"),
        g)
  else if negb ((0 <? w)%Z && (0 <? h)%Z)
  then (Raise (RuntimeError "negative dimension"), g)
  else
    match generator args with
    | Some gen => (Ok (Generated p args (gen_stream gen)), g)
    | None =>
        if String.eqb (device p) "cuda" then
          (Ok (Generated p args (torch_cuda g)),
           {| py_random := py_random g; np_random := np_random g;
              torch_cpu := torch_cpu g; torch_cuda := draw (torch_cuda g) |})
        else
          (Ok (Generated p args (torch_cpu g)),
           {| py_random := py_random g; np_random := np_random g;
              torch_cpu := draw (torch_cpu g); torch_cuda := torch_cuda g |})
    end.

Definition resize (img : image) (sz : Z * Z) (filter : resample)
    : result image :=
  if ((0 <? sz.1)%Z && (0 <? sz.2)%Z)%bool then Ok (Resized img sz)
  else Raise (ValueError "height and width must be > 0").

#[export] Instance library : Library :=
  {| Image := image; img_size := size; lib_from_pretrained := load;
     lib_call := call; lib_resize := resize |}.

(** A fresh kernel: nothing loaded, nothing defined, nothing printed. *)
Definition boot (cuda : bool) : World :=
  {| cuda_available := cuda; gpu_name := "Tesla T4"; store := [];
     g_SCHEDULERS := None; g_pipe := None;
     rng := {| py_random := (0, 0%nat); np_random := (0, 0%nat);
               torch_cpu := (0, 0%nat); torch_cuda := (0, 0%nat) |};
     trace := [] |}.

(** The world of a GPU runtime after Vim2's setup cells, and the pipeline
    object they leave behind the global [pipe].  Its token limits are
    lifted, so on this library, as on diffusers, a call of it raises. *)
Definition vim2_world : World := (Vim2.setup (boot true)).2.

Definition vim2_pipeline : Pipeline :=
  Vim2.loaded
    {| pipe_class := "StableDiffusionXLPipeline";
       weights := "Laxhar/noobai-XL-1.1"; device := "cpu";
       tokenizer := {| model_max_length := 77 |};
       tokenizer_2 := {| model_max_length := 77 |};
       scheduler := from_config "EulerDiscreteScheduler" "Laxhar/noobai-XL-1.1" |}
    (from_config "EulerDiscreteScheduler" "Laxhar/noobai-XL-1.1").

(** The same runtime after the user has put the token limits back to the
    model's own, [pipe.tokenizer.model_max_length = 77] and the same for
    [tokenizer_2]: a world in which a call of the pipeline can return. *)
Definition restore_limits : M unit :=
  pipe ← global_pipe;
  Vim2.assign_max_length pipe "tokenizer" 77 with_tokenizer;;
  Vim2.assign_max_length pipe "tokenizer_2" 77 with_tokenizer_2.

Definition vim2_world_restored : World := (restore_limits vim2_world).2.

Definition vim2_pipeline_restored : Pipeline :=
  with_tokenizer_2
    (with_tokenizer vim2_pipeline {| model_max_length := 77 |})
    {| model_max_length := 77 |}.

(** That runtime one generation later, with another sampler and seed. *)
Definition vim2_world_later : World :=
  (Vim2.generate_image "a lighthouse in a storm" None "ddim" 20 7
     (PyInt 6) 512 512 false (PyInt 2) None vim2_world_restored).2.

(** A runtime that had a GPU while Vim2 was set up and has lost it. *)
Definition vim2_world_without_gpu : World :=
  {| cuda_available := false; gpu_name := gpu_name vim2_world;
     store := store vim2_world; g_SCHEDULERS := g_SCHEDULERS vim2_world;
     g_pipe := g_pipe vim2_world; rng := rng vim2_world;
     trace := trace vim2_world |}.

(** The world of a CPU-only runtime after Noobai's model cell, the
    pipeline behind its global [pipe], and the world one generation
    later. *)
Definition noobai_world : World := (Noobai.load_model (boot false)).2.

Definition noobai_pipeline : Pipeline :=
  {| pipe_class := "StableDiffusionPipeline";
     weights := "Laxhar/noobai-XL-1.1"; device := "cpu";
     tokenizer := {| model_max_length := 77 |};
     tokenizer_2 := {| model_max_length := 77 |};
     scheduler := from_config "EulerDiscreteScheduler" "Laxhar/noobai-XL-1.1" |}.

Definition noobai_world_later : World :=
  (Noobai.generate_image "a lighthouse in a storm" 20 7 (PyInt 6) 512 512
     noobai_world).2.
End Sym.


(** * Proofs *)

(** ** Running the monad *)

Ltac unfold_prims :=
  unfold subscript, global_pipe, global_SCHEDULERS, set_global_pipe,
    set_global_SCHEDULERS, alloc, modify, deref, from_pretrained,
    cuda_is_available, cuda_get_device_name, require_device, pipe_to,
    Generator_manual_seed, reseed, call_pipe, run_call, image_resize,
    image_show, image_save, print, emit, lift, raise, read_world,
    update_world, mbind, M_bind, mret, M_ret in *.

Ltac unfold_world :=
  unfold evolve, with_trace, with_rng, with_store, with_pipe,
    with_SCHEDULERS in *.

Section RunLemmas.
Context `{Library}.

Lemma evolve_id w : evolve w (store w) (rng w) [] = w.
Proof. destruct w. unfold_world. simpl. by rewrite app_nil_r. Qed.

Lemma evolve_evolve w s g t s' g' t' :
  evolve (evolve w s g t) s' g' t' = evolve w s' g' (t ++ t').
Proof. unfold_world. simpl. by rewrite app_assoc. Qed.

Lemma set_scheduler_run w r p d s name :
  g_SCHEDULERS w = Some d ->
  Vim2.pick d name = Some s ->
  store w !! r = Some p ->
  Vim2.set_scheduler r name w =
    (Ok tt, evolve w (<[r := with_scheduler p s]> (store w)) (rng w)
              (Vim2.selection d r name s)).
Proof.
  intros Hd Hs Hp.
  unfold Vim2.set_scheduler, Vim2.assign_scheduler, Vim2.pick,
    Vim2.selection in *.
  unfold_prims. rewrite Hd.
  case_bool_decide as Hin.
  - apply elem_of_dom in Hin as [s' Hs']. rewrite Hs' in Hs. simplify_eq.
    rewrite Hs'. simpl. rewrite Hp. reflexivity.
  - apply not_elem_of_dom in Hin. rewrite Hin in Hs.
    simpl. rewrite Hs. simpl. rewrite Hp. unfold_world. simpl.
    by rewrite <- app_assoc.
Qed.

Lemma set_scheduler_stops w r name :
  (d ← g_SCHEDULERS w; s ← Vim2.pick d name; p ← store w !! r; Some (p, s))
    = None ->
  exists e t,
    Vim2.set_scheduler r name w = (Raise e, evolve w (store w) (rng w) t)
    /\ forallb Vim2.early_event t = true.
Proof.
  intros Hnone.
  unfold Vim2.set_scheduler, Vim2.assign_scheduler, Vim2.pick in *.
  unfold_prims.
  destruct (g_SCHEDULERS w) as [d|] eqn:Hd; simpl in *.
  2:{ exists (NameError "SCHEDULERS"), []. by rewrite evolve_id. }
  case_bool_decide as Hin.
  - apply elem_of_dom in Hin as [s' Hs']. rewrite Hs' in *. simpl in *.
    destruct (store w !! r) eqn:Hp; [done|].
    eexists _, [_]. split; reflexivity.
  - apply not_elem_of_dom in Hin. rewrite Hin in *. simpl in *.
    destruct (d !! "euler") eqn:He; simpl in *.
    + destruct (store w !! r) eqn:Hp; [done|].
      eexists _, [Vim2.unknown_warning name; EvSetScheduler r s].
      split; [|reflexivity].
      unfold_world. simpl. by rewrite <- app_assoc.
    + eexists _, [_]. split; reflexivity.
Qed.

Lemma reach_Some w name seed r p s :
  Vim2.reach w name seed = Some (r, p, s) ->
  cuda_available w = true /\ g_pipe w = Some r /\ store w !! r = Some p
  /\ exists d, g_SCHEDULERS w = Some d /\ Vim2.pick d name = Some s.
Proof.
  unfold Vim2.reach. intros Hr.
  destruct (g_pipe w) as [r'|]; simpl in Hr; [|done].
  destruct (g_SCHEDULERS w) as [d|]; simpl in Hr; [|done].
  destruct (Vim2.pick d name) as [s'|] eqn:Hs; simpl in Hr; [|done].
  destruct (store w !! r') as [p'|] eqn:Hp; simpl in Hr; [|done].
  destruct (cuda_available w); simpl in Hr; [|done].
  destruct (bool_decide (torch_seed seed)); simpl in Hr; [|done].
  simplify_eq. do 3 (split; [done|]). by exists d.
Qed.

Lemma reach_seed w name seed r p s :
  Vim2.reach w name seed = Some (r, p, s) -> torch_seed seed.
Proof.
  unfold Vim2.reach. intros Hr.
  destruct (g_pipe w) as [r'|]; simpl in Hr; [|done].
  destruct (g_SCHEDULERS w) as [d|]; simpl in Hr; [|done].
  destruct (Vim2.pick d name) as [s'|] eqn:Hs; simpl in Hr; [|done].
  destruct (store w !! r') as [p'|] eqn:Hp; simpl in Hr; [|done].
  destruct (cuda_available w); simpl in Hr; [|done].
  by case_bool_decide.
Qed.


Lemma bind_run {A B} (m : M A) (k : A -> M B) w :
  (m ≫= k) w = match m w with
               | (Ok a, w') => k a w'
               | (Raise e, w') => (Raise e, w')
               end.
Proof. reflexivity. Qed.

Lemma ret_run {A} (a : A) w : (mret a : M A) w = (Ok a, w).
Proof. reflexivity. Qed.

Lemma emit_run ev w : emit ev w = (Ok tt, evolve w (store w) (rng w) [ev]).
Proof. reflexivity. Qed.

Lemma print_run msg w :
  print msg w = (Ok tt, evolve w (store w) (rng w) [EvPrint msg]).
Proof. reflexivity. Qed.

Lemma lift_run {A} (r : result A) w : lift r w = (r, w).
Proof. reflexivity. Qed.

Lemma cuda_evolve w s g t : cuda_available (evolve w s g t) = cuda_available w.
Proof. reflexivity. Qed.

Lemma table_evolve w s g t : g_SCHEDULERS (evolve w s g t) = g_SCHEDULERS w.
Proof. reflexivity. Qed.

Lemma pipe_evolve w s g t : g_pipe (evolve w s g t) = g_pipe w.
Proof. reflexivity. Qed.

Lemma store_evolve w s g t : store (evolve w s g t) = s.
Proof. reflexivity. Qed.

Lemma rng_evolve w s g t : rng (evolve w s g t) = g.
Proof. reflexivity. Qed.

Lemma trace_evolve w s g t : trace (evolve w s g t) = (trace w ++ t)%list.
Proof. reflexivity. Qed.

Lemma global_pipe_run w r : g_pipe w = Some r -> global_pipe w = (Ok r, w).
Proof. unfold global_pipe. by intros ->. Qed.

Lemma deref_run w r p : store w !! r = Some p -> deref r w = (Ok p, w).
Proof. unfold deref. by intros ->. Qed.

Lemma accept_run ok refusal w :
  accept ok refusal w = if ok then (Ok tt, w) else (Raise refusal, w).
Proof. by destruct ok. Qed.

Lemma Generator_manual_seed_run w seed :
  cuda_available w = true ->
  torch_seed seed ->
  Generator_manual_seed "cuda" seed w =
    (Ok (Vim2.cuda_generator seed),
     evolve w (store w) (rng w) [EvSeed "torch.Generator:cuda" seed]).
Proof.
  intros Hc Hseed. unfold Generator_manual_seed, require_device, device_usable.
  rewrite !bind_run. change (String.eqb "cuda" "cpu") with false.
  change (String.eqb "cuda" "cuda") with true. cbv iota. rewrite Hc.
  rewrite bind_run, accept_run, bool_decide_eq_true_2 by done.
  reflexivity.
Qed.

Lemma Generator_manual_seed_refuses w seed :
  cuda_available w = true ->
  ~ torch_seed seed ->
  Generator_manual_seed "cuda" seed w = (Raise torch_refusal, w).
Proof.
  intros Hc Hseed. unfold Generator_manual_seed, require_device, device_usable.
  rewrite !bind_run. change (String.eqb "cuda" "cpu") with false.
  change (String.eqb "cuda" "cuda") with true. cbv iota. rewrite Hc.
  rewrite bind_run, accept_run, bool_decide_eq_false_2 by done.
  reflexivity.
Qed.

Lemma Generator_manual_seed_stops w seed :
  cuda_available w = false ->
  Generator_manual_seed "cuda" seed w =
    (Raise (RuntimeError "device not available"), w).
Proof.
  intros Hc. unfold Generator_manual_seed, require_device, device_usable.
  rewrite !bind_run. change (String.eqb "cuda" "cpu") with false.
  change (String.eqb "cuda" "cuda") with true. cbv iota. rewrite Hc.
  reflexivity.
Qed.

Lemma call_pipe_run w r p args :
  store w !! r = Some p ->
  call_pipe r args w =
    ((lib_call p args (rng w)).1,
     evolve w (store w) (lib_call p args (rng w)).2
       [EvCall p args (lib_call p args (rng w)).1]).
Proof.
  intros Hp. unfold call_pipe. rewrite bind_run, (deref_run _ _ _ Hp).
  unfold run_call. by destruct (lib_call p args (rng w)).
Qed.

Lemma generate_image_reaches w prompt neg name steps seed gs width height
    hf hs up r p s d :
  Vim2.reach w name seed = Some (r, p, s) ->
  g_SCHEDULERS w = Some d ->
  Vim2.generate_image prompt neg name steps seed gs width height hf hs up w =
    let p' := with_scheduler p s in
    let args := Vim2.forwarded prompt neg steps gs (Vim2.cuda_generator seed)
                  width height in
    let out := lib_call p' args (rng w) in
    let w1 := evolve w (<[r := p']> (store w)) out.2
                (Vim2.banner prompt neg ++ Vim2.selection d r name s
                 ++ [EvSeed "torch.Generator:cuda" seed; EvCall p' args out.1]) in
    match out.1 with
    | Ok image => Vim2.finish width height hf hs up image w1
    | Raise e => (Raise e, w1)
    end.
Proof.
  intros Hreach Hd. pose proof (reach_seed _ _ _ _ _ _ Hreach) as Hseed.
  destruct (reach_Some _ _ _ _ _ _ Hreach)
    as (Hcuda & Hpipe & Hobj & d' & Hd' & Hpick).
  assert (d' = d) as -> by congruence.
  unfold Vim2.generate_image, Vim2.banner.
  rewrite bind_run, print_run, bind_run.
  destruct (truthy neg);
    rewrite ?print_run, ?ret_run, ?evolve_evolve, ?store_evolve, ?rng_evolve;
    (rewrite bind_run, (global_pipe_run _ r) by exact Hpipe);
    (rewrite bind_run, (set_scheduler_run _ r p d s) by assumption);
    rewrite ?evolve_evolve, ?store_evolve, ?rng_evolve;
    (rewrite bind_run, Generator_manual_seed_run by assumption);
    rewrite ?evolve_evolve, ?store_evolve, ?rng_evolve;
    (rewrite bind_run, (call_pipe_run _ r (with_scheduler p s))
       by (rewrite store_evolve; apply list_lookup_insert_eq;
           by eapply lookup_lt_Some));
    rewrite ?evolve_evolve, ?store_evolve, ?rng_evolve;
    cbv zeta; unfold Vim2.forwarded, Vim2.finish;
    rewrite <- !app_assoc; reflexivity.
Qed.

Lemma early_selection_aux d r name s :
  forallb Vim2.early_event (Vim2.selection d r name s) = true.
Proof. unfold Vim2.selection. by case_bool_decide. Qed.

Lemma banner_step prompt neg w :
  (if truthy neg
   then print [Lit ("Negative Prompt: " ++ default "" neg)]
   else mret tt)
    (evolve w (store w) (rng w)
       [EvPrint [Lit (newline ++ "--- Generating Image ---" ++ newline
                      ++ "Prompt: " ++ prompt)]])
  = (Ok tt, evolve w (store w) (rng w) (Vim2.banner prompt neg)).
Proof.
  unfold Vim2.banner. destruct (truthy neg);
    rewrite ?print_run, ?ret_run, ?evolve_evolve; reflexivity.
Qed.

Lemma early_banner prompt neg :
  forallb Vim2.early_event (Vim2.banner prompt neg) = true.
Proof. unfold Vim2.banner. by destruct (truthy neg). Qed.

Lemma generate_image_no_generator w prompt neg name steps seed gs width
    height hf hs up r p d s :
  g_pipe w = Some r -> store w !! r = Some p ->
  g_SCHEDULERS w = Some d -> Vim2.pick d name = Some s ->
  cuda_available w && bool_decide (torch_seed seed) = false ->
  Vim2.generate_image prompt neg name steps seed gs width height hf hs up w
  = (Raise (Vim2.generator_refusal w),
     evolve w (<[r := with_scheduler p s]> (store w)) (rng w)
       (Vim2.banner prompt neg ++ Vim2.selection d r name s)).
Proof.
  intros Hpipe Hobj Hd Hpick Hno.
  unfold Vim2.generate_image, Vim2.generator_refusal.
  rewrite bind_run, print_run, bind_run, banner_step, bind_run.
  rewrite (global_pipe_run _ r) by exact Hpipe. rewrite bind_run.
  rewrite (set_scheduler_run _ r p d s) by assumption.
  rewrite ?evolve_evolve, ?store_evolve, ?rng_evolve, bind_run.
  destruct (cuda_available w) eqn:Hc.
  - rewrite Generator_manual_seed_refuses; [done|done|].
    simpl in Hno. by apply (bool_decide_eq_false_1 (torch_seed seed)).
  - by rewrite Generator_manual_seed_stops.
Qed.

Lemma generate_image_stops w prompt neg name steps seed gs width height :
  Vim2.reach w name seed = None ->
  exists e s' t,
    (forallb Vim2.early_event t = true
     /\ (s' = store w
         \/ exists r p s, g_pipe w = Some r /\ store w !! r = Some p
              /\ s' = <[r := with_scheduler p s]> (store w)))
    /\ forall hf hs up,
         Vim2.generate_image prompt neg name steps seed gs width height
           hf hs up w
         = (Raise e, evolve w s' (rng w) t).
Proof.
  intros Hreach. pose proof (early_banner prompt neg) as Ht0.
  unfold Vim2.reach in Hreach.
  destruct (g_pipe w) as [r|] eqn:Hpipe; simpl in Hreach.
  2:{ eexists _, _, _. split; [split; [exact Ht0|by left]|]. intros hf hs up.
      unfold Vim2.generate_image.
      rewrite bind_run, print_run, bind_run, banner_step, bind_run.
      unfold global_pipe. rewrite pipe_evolve, Hpipe. reflexivity. }
  destruct (d ← g_SCHEDULERS w; s ← Vim2.pick d name; p ← store w !! r;
            Some (p, s)) as [[p s]|] eqn:Hsel.
  - destruct (g_SCHEDULERS w) as [d|] eqn:Hd; simpl in Hsel, Hreach; [|done].
    destruct (Vim2.pick d name) as [s1|] eqn:Hs; simpl in Hsel, Hreach; [|done].
    destruct (store w !! r) as [p1|] eqn:Hp; simpl in Hsel, Hreach; [|done].
    simplify_eq.
    destruct (cuda_available w && bool_decide (torch_seed seed)) eqn:Hc;
      [done|].
    exists (Vim2.generator_refusal w),
      (<[r := with_scheduler p s]> (store w)),
      (Vim2.banner prompt neg ++ Vim2.selection d r name s)%list.
    split.
    { split; [by rewrite forallb_app, Ht0, early_selection_aux|].
      right. by exists r, p, s. }
    intros hf hs up. by apply generate_image_no_generator.
  - destruct (set_scheduler_stops
                (evolve w (store w) (rng w) (Vim2.banner prompt neg)) r name)
      as (e & t & Hrun & Ht); [exact Hsel|].
    exists e, (store w), (Vim2.banner prompt neg ++ t)%list.
    split. { split; [by rewrite forallb_app, Ht0, Ht | by left]. }
    intros hf hs up. unfold Vim2.generate_image.
    rewrite bind_run, print_run, bind_run, banner_step, bind_run.
    rewrite (global_pipe_run _ r) by exact Hpipe. rewrite bind_run.
    rewrite Hrun, ?evolve_evolve, ?store_evolve, ?rng_evolve.
    reflexivity.
Qed.

Lemma example_upscaler_result image s w :
  (Vim2.example_upscaler_func image s w).1
    = simple_upscale image (img_size image).1 (img_size image).2 s.
Proof.
  unfold Vim2.example_upscaler_func, simple_upscale, image_resize.
  rewrite bind_run, print_run, bind_run, lift_run.
  destruct (scaled_dim (img_size image).1 s) as [nw|]; [|reflexivity].
  rewrite bind_run, lift_run.
  destruct (scaled_dim (img_size image).2 s) as [nh|]; [|reflexivity].
  rewrite bind_run, emit_run, lift_run. reflexivity.
Qed.

Lemma example_upscaler_ok : Vim2.upscaler_ok Vim2.example_upscaler_func.
Proof.
  split.
  - intros. by rewrite !example_upscaler_result.
  - intros image s w.
    unfold Vim2.example_upscaler_func, image_resize.
    rewrite bind_run, print_run, bind_run, lift_run.
    destruct (scaled_dim (img_size image).1 s) as [nw|].
    2:{ by eexists [_]. }
    rewrite bind_run, lift_run.
    destruct (scaled_dim (img_size image).2 s) as [nh|].
    2:{ by eexists [_]. }
    rewrite bind_run, emit_run, lift_run, evolve_evolve.
    by eexists [_; _].
Qed.

Lemma finish_run w width height hf hs up image :
  Vim2.upscaler_opt_ok up ->
  exists t,
    Vim2.finish width height hf hs up image w
      = (Vim2.upscaled width height hf hs up image w,
         evolve w (store w) (rng w) t)
    /\ forallb Vim2.upscale_event t = true
    /\ (hf = false -> resizes t = [])
    /\ (up = None -> hf = true ->
        resizes t = match scaled_dim width hs, scaled_dim height hs with
                    | Ok nw, Ok nh => [(image, (nw, nh))]
                    | _, _ => []
                    end).
Proof.
  intros Hup. unfold Vim2.finish, Vim2.upscaled.
  destruct hf.
  - rewrite !bind_run, print_run.
    destruct up as [f|]; simpl in Hup.
    + destruct (Vim2.up_world f Hup image hs
                  (evolve w (store w) (rng w)
                     [EvPrint [Lit "Applying hires fix with scale factor: ";
                               Num hs; Lit "x"]])) as (t & Hw & Ht).
      rewrite (Vim2.up_result f Hup image hs w
                 (evolve w (store w) (rng w)
                     [EvPrint [Lit "Applying hires fix with scale factor: ";
                               Num hs; Lit "x"]])).
      destruct (f image hs _) as [[img|e] w1] eqn:Hf; simpl in Hw; subst w1.
      * rewrite bind_run, print_run, ret_run.
        eexists. split; [|split; [|done]].
        -- f_equal. unfold_world. simpl. rewrite <- !app_assoc. reflexivity.
        -- simpl. rewrite forallb_app, Ht. reflexivity.
      * eexists. split; [|split; [|done]].
        -- f_equal. unfold_world. simpl. rewrite <- !app_assoc. reflexivity.
        -- simpl. exact Ht.
    + unfold simple_upscale, image_resize, result_bind.
      rewrite bind_run, lift_run.
      destruct (scaled_dim width hs) as [nw|] eqn:Hnw; cbv beta iota.
      2:{ eexists [_]. by repeat split. }
      rewrite bind_run, lift_run.
      destruct (scaled_dim height hs) as [nh|] eqn:Hnh; cbv beta iota.
      2:{ eexists [_]. by repeat split. }
      rewrite bind_run, emit_run, lift_run, evolve_evolve.
      rewrite ?store_evolve, ?rng_evolve.
      destruct (lib_resize image (nw, nh) LANCZOS) as [img|e].
      * rewrite bind_run, print_run, ret_run, evolve_evolve.
        rewrite ?store_evolve, ?rng_evolve.
        eexists. split; [reflexivity|]. by repeat split.
      * eexists. split; [reflexivity|]. by repeat split.
  - rewrite bind_run, ret_run, bind_run, print_run, ret_run.
    eexists [_]. by repeat split.
Qed.

Lemma events_since_evolve w s g t : events_since w (evolve w s g t) = t.
Proof. unfold events_since. rewrite trace_evolve. apply drop_app_length. Qed.

Lemma calls_app t1 t2 : calls (t1 ++ t2) = (calls t1 ++ calls t2)%list.
Proof. apply omap_app. Qed.

Lemma resizes_app t1 t2 : resizes (t1 ++ t2) = (resizes t1 ++ resizes t2)%list.
Proof. apply omap_app. Qed.

Lemma staged_app t1 t2 : staged (t1 ++ t2) = (staged t1 ++ staged t2)%list.
Proof. apply omap_app. Qed.

(** ** Noobai: running the code *)

Lemma reseed_run target seed set w :
  reseed target seed set w =
    (Ok tt, evolve w (store w) (set (rng w) (stream_seed seed))
              [EvSeed target seed]).
Proof. reflexivity. Qed.

Lemma numpy_torch_seed seed : numpy_seed seed -> torch_seed seed.
Proof. unfold numpy_seed, torch_seed. lia. Qed.

Lemma set_seed_run w seed :
  numpy_seed seed ->
  Noobai.set_seed seed w =
    (Ok tt, evolve w (store w) (Noobai.seeded w seed) (Noobai.seed_events w seed)).
Proof.
  intros Hseed. pose proof (numpy_torch_seed _ Hseed) as Htorch.
  unfold Noobai.set_seed, random_seed, np_random_seed, torch_manual_seed,
    torch_cuda_manual_seed_all, cuda_is_available, Noobai.seeded,
    Noobai.seed_events.
  rewrite !(bool_decide_eq_true_2 (numpy_seed seed)) by done.
  rewrite !(bool_decide_eq_true_2 (torch_seed seed)) by done.
  rewrite bind_run, reseed_run, bind_run, bind_run, accept_run, reseed_run,
    evolve_evolve, ?store_evolve, ?rng_evolve.
  rewrite bind_run, bind_run, accept_run, reseed_run, evolve_evolve,
    ?store_evolve, ?rng_evolve.
  rewrite !bind_run, emit_run, evolve_evolve, ?store_evolve, ?rng_evolve.
  unfold read_world. rewrite cuda_evolve.
  destruct (cuda_available w).
  - rewrite bind_run, accept_run, reseed_run, evolve_evolve, ?store_evolve,
      ?rng_evolve. reflexivity.
  - rewrite ret_run. reflexivity.
Qed.

Lemma set_seed_stops w seed :
  ~ numpy_seed seed ->
  Noobai.set_seed seed w =
    (Raise numpy_refusal,
     evolve w (store w) (Noobai.half_seeded w seed) [EvSeed "random" seed]).
Proof.
  intros Hseed. unfold Noobai.set_seed, random_seed, np_random_seed.
  rewrite (bool_decide_eq_false_2 (numpy_seed seed)) by done.
  rewrite bind_run, reseed_run, bind_run, bind_run, accept_run.
  reflexivity.
Qed.

Lemma seed_events_only w seed :
  forallb Noobai.seed_event (Noobai.seed_events w seed) = true.
Proof. unfold Noobai.seed_events. by destruct (cuda_available w). Qed.

(** Whatever the seed, [set_seed] touches the streams and nothing else, and
    records seedings and a device query and nothing else. *)
Lemma set_seed_any w seed :
  exists res g t,
    Noobai.set_seed seed w = (res, evolve w (store w) g t)
    /\ forallb Noobai.seed_event t = true
    /\ (numpy_seed seed ->
        res = Ok tt /\ g = Noobai.seeded w seed
        /\ t = Noobai.seed_events w seed)
    /\ (~ numpy_seed seed -> res = Raise numpy_refusal).
Proof.
  destruct (decide (numpy_seed seed)) as [Hseed|Hseed].
  - rewrite set_seed_run by done. eexists _, _, _.
    split; [reflexivity|]. split; [apply seed_events_only|]. by split.
  - rewrite set_seed_stops by done. eexists _, _, _.
    split; [reflexivity|]. split; [done|]. by split.
Qed.

Lemma noobai_reach_Some w seed r p :
  Noobai.reach w seed = Some (r, p) ->
  numpy_seed seed /\ g_pipe w = Some r /\ store w !! r = Some p.
Proof.
  unfold Noobai.reach. case_bool_decide; [|done].
  destruct (g_pipe w) as [r'|]; simpl; [|done].
  destruct (store w !! r') as [p'|] eqn:Hp; simpl; [|done].
  by intros [= <- <-].
Qed.

Lemma noobai_reach_ready w seed r p :
  numpy_seed seed -> g_pipe w = Some r -> store w !! r = Some p ->
  Noobai.reach w seed = Some (r, p).
Proof.
  intros Hseed Hpipe Hobj. unfold Noobai.reach.
  rewrite bool_decide_eq_true_2, Hpipe by done. simpl. by rewrite Hobj.
Qed.

Lemma noobai_generate_image_run w r p prompt steps seed gs height width :
  Noobai.reach w seed = Some (r, p) ->
  Noobai.generate_image prompt steps seed gs height width w =
    let args := Noobai.forwarded prompt steps gs height width in
    let out := lib_call p args (Noobai.seeded w seed) in
    (out.1, evolve w (store w) out.2
              (Noobai.seed_events w seed ++ [EvCall p args out.1])).
Proof.
  intros (Hseed & Hpipe & Hobj)%noobai_reach_Some. unfold Noobai.generate_image.
  rewrite bind_run, set_seed_run, bind_run, (global_pipe_run _ r) by done.
  rewrite (call_pipe_run _ r p) by exact Hobj.
  rewrite evolve_evolve, ?store_evolve, ?rng_evolve. reflexivity.
Qed.

Lemma noobai_generate_image_stops w prompt steps seed gs height width :
  Noobai.reach w seed = None ->
  exists e g t,
    Noobai.generate_image prompt steps seed gs height width w =
      (Raise e, evolve w (store w) g t)
    /\ forallb Noobai.seed_event t = true
    /\ (numpy_seed seed ->
        g = Noobai.seeded w seed /\ t = Noobai.seed_events w seed)
    /\ (~ numpy_seed seed -> e = numpy_refusal)
    /\ (numpy_seed seed -> g_pipe w = None -> e = NameError "pipe").
Proof.
  intros Hnone. unfold Noobai.generate_image. rewrite bind_run.
  destruct (decide (numpy_seed seed)) as [Hseed|Hseed].
  - rewrite set_seed_run, bind_run by done.
    unfold Noobai.reach in Hnone. rewrite bool_decide_eq_true_2 in Hnone by done.
    destruct (g_pipe w) as [r|] eqn:Hpipe; simpl in Hnone.
    + rewrite (global_pipe_run _ r) by exact Hpipe.
      destruct (store w !! r) eqn:Hobj; [done|].
      unfold call_pipe, deref. rewrite bind_run, store_evolve, Hobj.
      eexists _, _, _. split; [reflexivity|].
      split; [apply seed_events_only|]. by repeat split.
    + unfold global_pipe. rewrite pipe_evolve, Hpipe.
      eexists _, _, _. split; [reflexivity|].
      split; [apply seed_events_only|]. by repeat split.
  - rewrite set_seed_stops by done.
    eexists _, _, _. split; [reflexivity|]. by repeat split.
Qed.

Lemma calls_seed t : forallb Noobai.seed_event t = true -> calls t = [].
Proof.
  induction t as [|ev t IH]; [done|]. simpl. intros [Hev Ht]%andb_true_iff.
  destruct ev; try done; by apply IH.
Qed.

Lemma resizes_seed t : forallb Noobai.seed_event t = true -> resizes t = [].
Proof.
  induction t as [|ev t IH]; [done|]. simpl. intros [Hev Ht]%andb_true_iff.
  destruct ev; try done; by apply IH.
Qed.

Lemma hires_fix_run w image scale :
  exists t,
    Noobai.hires_fix image scale w =
      (simple_upscale image (img_size image).1 (img_size image).2 scale,
       evolve w (store w) (rng w) t)
    /\ ((t = [] /\ succeeds (simple_upscale image (img_size image).1
                                (img_size image).2 scale) = false)
        \/ exists sz, t = [EvResize image sz LANCZOS]).
Proof.
  unfold Noobai.hires_fix, simple_upscale, image_resize, result_bind.
  destruct (img_size image) as [width height]. cbv beta iota.
  rewrite bind_run, lift_run. change ((width, height).1) with width.
  change ((width, height).2) with height.
  destruct (scaled_dim width scale) as [nw|]; cbv beta iota.
  2:{ exists []. rewrite evolve_id. auto. }
  rewrite bind_run, lift_run.
  destruct (scaled_dim height scale) as [nh|]; cbv beta iota.
  2:{ exists []. rewrite evolve_id. auto. }
  rewrite bind_run, emit_run, lift_run.
  eexists. split; [by destruct (lib_resize image (nw, nh) LANCZOS)|].
  right. by eexists.
Qed.

(** ** Vim2: the two ways [generate_image] can go *)

Lemma upscaled_world width height hf hs up image w1 w2 :
  Vim2.upscaler_opt_ok up ->
  Vim2.upscaled width height hf hs up image w1
    = Vim2.upscaled width height hf hs up image w2.
Proof.
  intros Hup. unfold Vim2.upscaled. destruct hf; [|done].
  destruct up as [f|]; [|done]. apply (Vim2.up_result f Hup).
Qed.

Lemma generate_image_done w prompt neg name steps seed gs width height
    hf hs up r p s :
  Vim2.upscaler_opt_ok up ->
  Vim2.reach w name seed = Some (r, p, s) ->
  let p' := with_scheduler p s in
  let args := Vim2.forwarded prompt neg steps gs (Vim2.cuda_generator seed)
                width height in
  let out := lib_call p' args (rng w) in
  exists d t,
    g_SCHEDULERS w = Some d /\ Vim2.pick d name = Some s
    /\ Vim2.generate_image prompt neg name steps seed gs width height hf hs up w
        = (result_bind out.1 (fun image =>
             Vim2.upscaled width height hf hs up image w),
           evolve w (<[r := p']> (store w)) out.2
             (Vim2.banner prompt neg ++ Vim2.selection d r name s
              ++ [EvSeed "torch.Generator:cuda" seed; EvCall p' args out.1]
              ++ t))
    /\ forallb Vim2.upscale_event t = true
    /\ (hf = false -> resizes t = [])
    /\ (up = None -> hf = true ->
        resizes t = match out.1, scaled_dim width hs, scaled_dim height hs with
                    | Ok image, Ok nw, Ok nh => [(image, (nw, nh))]
                    | _, _, _ => []
                    end).
Proof.
  intros Hup Hreach p' args out.
  destruct (reach_Some _ _ _ _ _ _ Hreach) as (_ & _ & _ & d & Hd & Hpick).
  exists d. rewrite (generate_image_reaches _ _ _ _ _ _ _ _ _ _ _ _ r p s d)
    by assumption.
  cbv zeta. fold p' args out.
  destruct out.1 as [image|e] eqn:Hres.
  - destruct (finish_run
                (evolve w (<[r := p']> (store w)) out.2
                   (Vim2.banner prompt neg ++ Vim2.selection d r name s
                    ++ [EvSeed "torch.Generator:cuda" seed;
                        EvCall p' args (Ok image)]))
                width height hf hs up image Hup)
      as (t & Hrun & Ht & Hno & Hnone).
    exists t. rewrite Hrun, evolve_evolve, store_evolve, rng_evolve.
    split; [done|]. split; [done|]. split.
    { simpl. rewrite <- !app_assoc.
      by rewrite (upscaled_world _ _ _ _ _ _ _ w Hup). }
    split; [done|]. split; [done|]. exact Hnone.
  - exists []. split; [done|]. split; [done|]. split; [done|].
    split; [done|]. by split.
Qed.

Lemma calls_early t : forallb Vim2.early_event t = true -> calls t = [].
Proof.
  induction t as [|ev t IH]; [done|]. simpl. intros [Hev Ht]%andb_true_iff.
  destruct ev; try done; by apply IH.
Qed.

Lemma calls_upscale t : forallb Vim2.upscale_event t = true -> calls t = [].
Proof.
  induction t as [|ev t IH]; [done|]. simpl. intros [Hev Ht]%andb_true_iff.
  destruct ev; try done; by apply IH.
Qed.

Lemma resizes_early t : forallb Vim2.early_event t = true -> resizes t = [].
Proof.
  induction t as [|ev t IH]; [done|]. simpl. intros [Hev Ht]%andb_true_iff.
  destruct ev; try done; by apply IH.
Qed.

Lemma early_selection d r name s :
  forallb Vim2.early_event (Vim2.selection d r name s) = true.
Proof. apply early_selection_aux. Qed.

Lemma calls_run prompt neg d r name s seed p args res t :
  forallb Vim2.upscale_event t = true ->
  calls (Vim2.banner prompt neg ++ Vim2.selection d r name s
         ++ [EvSeed "torch.Generator:cuda" seed; EvCall p args res] ++ t)
    = [(p, args, res)].
Proof.
  intros Ht. rewrite !calls_app, (calls_early _ (early_banner _ _)),
    (calls_early _ (early_selection _ _ _ _)), (calls_upscale _ Ht).
  reflexivity.
Qed.

Lemma resizes_run prompt neg d r name s seed p args res t :
  resizes (Vim2.banner prompt neg ++ Vim2.selection d r name s
           ++ [EvSeed "torch.Generator:cuda" seed; EvCall p args res] ++ t)
    = resizes t.
Proof.
  rewrite !resizes_app, (resizes_early _ (early_banner _ _)),
    (resizes_early _ (early_selection _ _ _ _)).
  reflexivity.
Qed.
End RunLemmas.

(** * The claims *)

Section Claims.
Context `{Library}.

(** C1: the pipeline invocation that [generate_image] makes carries the
    supplied prompt, negative prompt, number of inference steps, guidance
    scale, width and height exactly as they were passed in.  In Vim2 a call
    that has what it needs to get to the pipeline (both globals, the object
    behind [pipe], a GPU and a seed torch takes) invokes the pipeline with
    the selected scheduler exactly once, on these arguments and the
    generator seeded from [seed]; any other call raises before and invokes
    nothing.  The same holds of the Noobai generator, which needs a seed
    numpy takes and the object behind [pipe], has no negative prompt and
    passes neither one nor a generator. *)
Theorem generate_image_forwards_parameters
    w prompt negative_prompt scheduler_name num_inference_steps seed
    guidance_scale width height hires_fix hires_scale upscaler_func :
  Vim2.upscaler_opt_ok upscaler_func ->
  (let out := Vim2.generate_image prompt negative_prompt scheduler_name
                num_inference_steps seed guidance_scale width height
                hires_fix hires_scale upscaler_func w in
   let sent := calls (events_since w out.2) in
   let args := {| prompt := prompt; negative_prompt := negative_prompt;
                  num_inference_steps := num_inference_steps;
                  guidance_scale := guidance_scale;
                  generator := Some (Vim2.cuda_generator seed);
                  width := width; height := height |} in
   match Vim2.reach w scheduler_name seed with
   | Some (r, p, s) =>
       sent = [(with_scheduler p s, args,
                (lib_call (with_scheduler p s) args (rng w)).1)]
   | None => sent = [] /\ succeeds out.1 = false
   end)
  /\ (let out := Noobai.generate_image prompt num_inference_steps seed
                   guidance_scale height width w in
      let sent := calls (events_since w out.2) in
      let args := {| prompt := prompt; negative_prompt := None;
                     num_inference_steps := num_inference_steps;
                     guidance_scale := guidance_scale;
                     generator := None;
                     width := width; height := height |} in
      match Noobai.reach w seed with
      | Some (r, p) =>
          sent = [(p, args, (lib_call p args (Noobai.seeded w seed)).1)]
      | None => sent = [] /\ succeeds out.1 = false
      end).
Proof.
  intros Hup. split; cbv zeta.
  - destruct (Vim2.reach w scheduler_name seed) as [[[r p] s]|] eqn:Hreach.
    + destruct (generate_image_done w prompt negative_prompt scheduler_name
                  num_inference_steps seed guidance_scale width height
                  hires_fix hires_scale upscaler_func r p s Hup Hreach)
        as (d & t & _ & _ & -> & Ht & _).
      cbn [snd]. rewrite events_since_evolve.
      by apply calls_run.
    + destruct (generate_image_stops w prompt negative_prompt scheduler_name
                  num_inference_steps seed guidance_scale width height Hreach)
        as (e & s' & t & [Ht _] & ->).
      cbn [fst snd]. rewrite events_since_evolve.
      split; [by apply calls_early | done].
  - destruct (Noobai.reach w seed) as [[r p]|] eqn:Hreach.
    + rewrite (noobai_generate_image_run w r p) by assumption.
      cbn [snd]. rewrite events_since_evolve, calls_app.
      by rewrite (calls_seed _ (seed_events_only w seed)).
    + destruct (noobai_generate_image_stops w prompt num_inference_steps seed
                  guidance_scale height width Hreach)
        as (e & g & t & -> & Ht & _).
      cbn [fst snd]. rewrite events_since_evolve.
      split; [by apply calls_seed | done].
Qed.

Lemma table_lookup cfg name :
  Vim2.scheduler_table cfg !! name =
    if String.eqb name "ddim" then Some (from_config "DDIMScheduler" cfg)
    else if String.eqb name "dpm" then
      Some (from_config "DPMSolverMultistepScheduler" cfg)
    else if String.eqb name "euler_ancestral" then
      Some (from_config "EulerAncestralDiscreteScheduler" cfg)
    else if String.eqb name "euler" then
      Some (from_config "EulerDiscreteScheduler" cfg)
    else None.
Proof.
  unfold Vim2.scheduler_table.
  repeat match goal with
         | |- context [String.eqb name ?k] =>
             destruct (String.eqb_spec name k) as [->|?];
             [by simplify_map_eq | rewrite lookup_insert_ne by done]
         end.
  apply lookup_empty.
Qed.

Lemma documented_dom cfg name :
  name ∈ Vim2.documented_names <-> name ∈ dom (Vim2.scheduler_table cfg).
Proof.
  rewrite elem_of_dom, table_lookup. unfold Vim2.documented_names.
  rewrite !elem_of_cons, elem_of_nil.
  repeat match goal with
         | |- context [String.eqb name ?k] =>
             destruct (String.eqb_spec name k) as [->|?]
         end.
  1-4: split; [intros _; by eexists | intros _; tauto].
  split; [intros [?|[?|[?|[?|[]]]]]; congruence | intros [? ?]; discriminate].
Qed.

Lemma pick_table cfg name :
  Vim2.pick (Vim2.scheduler_table cfg) name = Some (Vim2.chosen cfg name).
Proof.
  unfold Vim2.pick, Vim2.chosen.
  destruct (Vim2.scheduler_table cfg !! name); [done|].
  by rewrite table_lookup.
Qed.

Lemma chosen_documented cfg name :
  name ∈ Vim2.documented_names ->
  Vim2.scheduler_table cfg !! name = Some (Vim2.chosen cfg name).
Proof.
  intros [s Hs]%(documented_dom cfg)%elem_of_dom.
  unfold Vim2.chosen. by rewrite Hs.
Qed.

Lemma chosen_unknown cfg name :
  name ∉ Vim2.documented_names ->
  Vim2.chosen cfg name = from_config "EulerDiscreteScheduler" cfg.
Proof.
  intros Hn. unfold Vim2.chosen.
  destruct (Vim2.scheduler_table cfg !! name) eqn:Hs; [|done].
  destruct Hn. apply (documented_dom cfg), elem_of_dom. eauto.
Qed.

Lemma reach_ready w r p cfg name seed :
  Vim2.ready w r p cfg ->
  torch_seed seed ->
  Vim2.reach w name seed = Some (r, p, Vim2.chosen cfg name).
Proof.
  intros [Hc Ht Hp Ho] Hseed. unfold Vim2.reach.
  rewrite Hp, Ht. simpl. rewrite pick_table. simpl. rewrite Ho. simpl.
  by rewrite Hc, bool_decide_eq_true_2.
Qed.

Lemma same_but_scheduler_with p s : same_but_scheduler p (with_scheduler p s).
Proof. by repeat split. Qed.

(** C2: for each of the four documented names, [set_scheduler] assigns to
    the pipeline exactly the scheduler stored under that name in
    [SCHEDULERS], and touches nothing else: the other attributes of that
    pipeline, the other objects, both globals and the random streams stay
    as they were.  Hence [generate_image] with that name leaves the global
    pipeline with that scheduler and its other attributes unchanged,
    however the call ends; on a GPU and with a seed torch takes, it invokes
    the pipeline so. *)
Theorem set_scheduler_selects_documented
    w r p cfg scheduler_name :
  scheduler_name ∈ Vim2.documented_names ->
  g_SCHEDULERS w = Some (Vim2.scheduler_table cfg) ->
  store w !! r = Some p ->
  exists s,
    Vim2.scheduler_table cfg !! scheduler_name = Some s
    /\ (let out := Vim2.set_scheduler r scheduler_name w in
        out.1 = Ok tt
        /\ (exists p', store out.2 !! r = Some p' /\ scheduler p' = s
                       /\ same_but_scheduler p p')
        /\ (forall r', r' <> r -> store out.2 !! r' = store w !! r')
        /\ g_pipe out.2 = g_pipe w
        /\ g_SCHEDULERS out.2 = g_SCHEDULERS w
        /\ rng out.2 = rng w
        /\ events_since w out.2 = [EvSetScheduler r s])
    /\ (forall prompt negative_prompt num_inference_steps seed guidance_scale
               width height hires_fix hires_scale upscaler_func,
          Vim2.upscaler_opt_ok upscaler_func ->
          g_pipe w = Some r ->
          let out := Vim2.generate_image prompt negative_prompt scheduler_name
                       num_inference_steps seed guidance_scale width height
                       hires_fix hires_scale upscaler_func w in
          (exists p', store out.2 !! r = Some p'
                      /\ scheduler p' = s /\ same_but_scheduler p p')
          /\ (cuda_available w = true ->
              torch_seed seed ->
              exists p' args res,
                calls (events_since w out.2) = [(p', args, res)]
                /\ store out.2 !! r = Some p'
                /\ scheduler p' = s /\ same_but_scheduler p p')).
Proof.
  intros Hname Htable Hobj. exists (Vim2.chosen cfg scheduler_name).
  pose proof (chosen_documented cfg _ Hname) as Hs.
  assert (r < length (store w))%nat as Hlt by by eapply lookup_lt_Some.
  split; [done|]. split.
  - cbv zeta.
    rewrite (set_scheduler_run w r p (Vim2.scheduler_table cfg)
               (Vim2.chosen cfg scheduler_name));
      [|done|apply pick_table|done].
    cbn [fst snd]. rewrite store_evolve, events_since_evolve.
    split; [done|]. split.
    { eexists. split; [by apply list_lookup_insert_eq|].
      split; [done|]. apply same_but_scheduler_with. }
    split. { intros r' Hr'. by apply list_lookup_insert_ne. }
    do 3 (split; [done|]).
    unfold Vim2.selection. rewrite bool_decide_eq_true_2; [done|].
    by apply documented_dom.
  - intros prompt negative_prompt num_inference_steps seed guidance_scale
      width height hires_fix hires_scale upscaler_func Hup Hpipe.
    cbv zeta.
    destruct (cuda_available w && bool_decide (torch_seed seed)) eqn:Hgo.
    + apply andb_true_iff in Hgo as [Hcuda Hseed].
      apply bool_decide_eq_true_1 in Hseed.
      assert (Vim2.ready w r p cfg) as Hready by done.
      destruct (generate_image_done w prompt negative_prompt scheduler_name
                  num_inference_steps seed guidance_scale width height
                  hires_fix hires_scale upscaler_func r p _ Hup
                  (reach_ready _ _ _ _ scheduler_name seed Hready Hseed))
        as (d & t & _ & _ & -> & Ht & _).
      cbn [snd]. rewrite events_since_evolve, store_evolve.
      split.
      { eexists. split; [by apply list_lookup_insert_eq|].
        split; [done|]. apply same_but_scheduler_with. }
      intros _ _. eexists _, _, _. split; [by apply calls_run|].
      split; [by apply list_lookup_insert_eq|].
      split; [done|]. apply same_but_scheduler_with.
    + rewrite (generate_image_no_generator w prompt negative_prompt
                 scheduler_name _ _ _ _ _ _ _ _ r p
                 (Vim2.scheduler_table cfg) (Vim2.chosen cfg scheduler_name));
        [|done|done|done|apply pick_table|done].
      cbn [snd]. rewrite store_evolve. split.
      { eexists. split; [by apply list_lookup_insert_eq|].
        split; [done|]. apply same_but_scheduler_with. }
      intros Hcuda Hseed.
      rewrite Hcuda, bool_decide_eq_true_2 in Hgo by done. done.
Qed.


Lemma result_bind_Ok {A} (r : result A) : result_bind r Ok = r.
Proof. by destruct r. Qed.

Lemma generate_image_no_hires w prompt neg name steps seed gs width height
    hs up :
  Vim2.generate_image prompt neg name steps seed gs width height false hs up w
  = Vim2.generate_image prompt neg name steps seed gs width height false hs
      None w.
Proof. reflexivity. Qed.

(** C3: with [hires_fix=False] (Vim2) or [apply_hires=False] (Noobai) no
    resize is requested, and what the caller gets is exactly what the
    pipeline invocation gave back: the same image when it returned one, the
    same exception when it raised.  In Noobai that image is also the one
    shown. *)
Theorem no_hires_returns_pipeline_output
    w prompt negative_prompt scheduler_name num_inference_steps seed
    guidance_scale width height hires_scale upscaler_func :
  (let out := Vim2.generate_image prompt negative_prompt scheduler_name
                num_inference_steps seed guidance_scale width height
                false hires_scale upscaler_func w in
   let new := events_since w out.2 in
   resizes new = []
   /\ ((exists p a, calls new = [(p, a, out.1)])
       \/ (calls new = [] /\ succeeds out.1 = false)))
  /\ (let out := Noobai.generate_and_display prompt num_inference_steps seed
                   guidance_scale height width false hires_scale w in
      let new := events_since w out.2 in
      resizes new = []
      /\ ((exists p a, calls new = [(p, a, out.1)])
          \/ (calls new = [] /\ succeeds out.1 = false))
      /\ (forall img, out.1 = Ok img -> last new = Some (EvShow img))).
Proof.
  split; cbv zeta.
  - rewrite generate_image_no_hires.
    destruct (Vim2.reach w scheduler_name seed) as [[[r p] s]|] eqn:Hreach.
    + destruct (generate_image_done w prompt negative_prompt scheduler_name
                  num_inference_steps seed guidance_scale width height
                  false hires_scale None r p s I Hreach)
        as (d & t & _ & _ & -> & Ht & Hno & _).
      cbn [fst snd]. rewrite events_since_evolve, resizes_run.
      split; [by apply Hno|]. left. eexists _, _.
      rewrite (calls_run _ _ _ _ _ _ _ _ _ _ _ Ht).
      unfold Vim2.upscaled. by rewrite result_bind_Ok.
    + destruct (generate_image_stops w prompt negative_prompt scheduler_name
                  num_inference_steps seed guidance_scale width height Hreach)
        as (e & s' & t & [Ht _] & ->).
      cbn [fst snd]. rewrite events_since_evolve.
      split; [by apply resizes_early|]. right.
      split; [by apply calls_early | done].
  - unfold Noobai.generate_and_display. rewrite bind_run.
    pose proof (calls_seed _ (seed_events_only w seed)) as Hcs.
    pose proof (resizes_seed _ (seed_events_only w seed)) as Hrs.
    destruct (Noobai.reach w seed) as [[r p]|] eqn:Hreach.
    + rewrite (noobai_generate_image_run w r p) by assumption. cbv zeta.
      destruct (lib_call p _ _) as [[img|e] g] eqn:Hcall; cbn [fst snd].
      * rewrite bind_run, ret_run, bind_run. unfold image_show.
        rewrite emit_run, ret_run, evolve_evolve. cbn [fst snd].
        rewrite events_since_evolve, !resizes_app, !calls_app, Hcs, Hrs.
        split; [done|]. split; [left; by eexists _, _|].
        intros img' [= <-]. by rewrite last_snoc.
      * rewrite events_since_evolve, !resizes_app, !calls_app, Hcs, Hrs.
        split; [done|]. split; [left; by eexists _, _|].
        intros img' [=].
    + destruct (noobai_generate_image_stops w prompt num_inference_steps seed
                  guidance_scale height width Hreach)
        as (e & g & t & -> & Ht & _).
      cbn [fst snd]. rewrite events_since_evolve.
      split; [by apply resizes_seed|].
      split; [right; split; [by apply calls_seed | done]|].
      intros img' [=].
Qed.

Lemma simple_upscale_size image width height scale img :
  (forall src sz filter r, lib_resize src sz filter = Ok r -> img_size r = sz) ->
  simple_upscale image width height scale = Ok img ->
  exists nw nh,
    scaled_dim width scale = Ok nw /\ scaled_dim height scale = Ok nh
    /\ img_size img = (nw, nh).
Proof.
  intros Hresize. unfold simple_upscale, result_bind.
  destruct (scaled_dim width scale) as [nw|]; [|done].
  destruct (scaled_dim height scale) as [nh|]; [|done].
  intros Hr. exists nw, nh. eauto.
Qed.

Lemma scaled_dim_int dim k : scaled_dim dim (PyInt k) = Ok (dim * k).
Proof. reflexivity. Qed.

Lemma scaled_dim_doubles dim :
  0 <= dim <= 8192 -> scaled_dim dim (PyFloat float_two) = Ok (2 * dim).
Proof.
  intros Hdim.
  assert (forallb (fun d => match scaled_dim d (PyFloat float_two) with
                            | Ok n => (n =? 2 * d)%Z
                            | Raise _ => false
                            end) (seqZ 0 8193) = true) as Hall
    by (vm_compute; reflexivity).
  rewrite forallb_forall in Hall.
  specialize (Hall dim). rewrite <- list_elem_of_In, elem_of_seqZ in Hall.
  destruct (scaled_dim dim (PyFloat float_two)) as [n|e].
  - f_equal. apply Z.eqb_eq, Hall. lia.
  - discriminate Hall. lia.
Qed.

(** C4: when the upscale is applied the result has the scaled dimensions.
    In Vim2 with [hires_fix=True] and no custom upscaler, a
    [generate_image] that gets an image from the pipeline asks for one
    resize of that image, to
    [(int(width * hires_scale), int(height * hires_scale))] computed from
    the requested [width] and [height], and returns what the resize gives;
    in Noobai, [hires_fix] returns what resizing its input to the size
    scaled from the input's own [image.size] gives.  Given that a resize
    returns an image of the size it was asked for, the returned image has
    exactly that size.  The scaled dimension is the exact product for an
    integer factor, and exactly the double for the default factor 2.0 on
    every dimension up to 8192. *)
Theorem hires_result_has_scaled_size
    w prompt negative_prompt scheduler_name num_inference_steps seed
    guidance_scale width height hires_scale image :
  (forall src sz filter r, lib_resize src sz filter = Ok r -> img_size r = sz) ->
  (let out := Vim2.generate_image prompt negative_prompt scheduler_name
                num_inference_steps seed guidance_scale width height
                true hires_scale None w in
   (forall r p s generated new_width new_height,
      Vim2.reach w scheduler_name seed = Some (r, p, s) ->
      (lib_call (with_scheduler p s)
         (Vim2.forwarded prompt negative_prompt num_inference_steps
            guidance_scale (Vim2.cuda_generator seed) width height)
         (rng w)).1 = Ok generated ->
      scaled_dim width hires_scale = Ok new_width ->
      scaled_dim height hires_scale = Ok new_height ->
      out.1 = lib_resize generated (new_width, new_height) LANCZOS
      /\ resizes (events_since w out.2)
         = [(generated, (new_width, new_height))])
   /\ (forall img, out.1 = Ok img ->
         exists new_width new_height,
           scaled_dim width hires_scale = Ok new_width
           /\ scaled_dim height hires_scale = Ok new_height
           /\ img_size img = (new_width, new_height)))
  /\ (let out := Noobai.hires_fix image hires_scale w in
      out.1 = simple_upscale image (img_size image).1 (img_size image).2
                hires_scale
      /\ (forall img, out.1 = Ok img ->
            exists new_width new_height,
              scaled_dim (img_size image).1 hires_scale = Ok new_width
              /\ scaled_dim (img_size image).2 hires_scale = Ok new_height
              /\ img_size img = (new_width, new_height)))
  /\ (forall dim k, scaled_dim dim (PyInt k) = Ok (dim * k))
  /\ (forall dim, 0 <= dim <= 8192 ->
        scaled_dim dim (PyFloat float_two) = Ok (2 * dim)).
Proof.
  intros Hresize. split; [|split; [|split]]; cbv zeta.
  - destruct (Vim2.reach w scheduler_name seed) as [[[r p] s]|] eqn:Hreach.
    + destruct (generate_image_done w prompt negative_prompt scheduler_name
                  num_inference_steps seed guidance_scale width height
                  true hires_scale None r p s I Hreach)
        as (d & t & _ & _ & -> & _ & _ & Hnone).
      cbn [fst snd]. rewrite events_since_evolve, resizes_run. split.
      { intros r' p' s' generated nw nh [= <- <- <-] Hgen Hnw Hnh.
        rewrite (Hnone eq_refl eq_refl), Hgen, Hnw, Hnh. cbn [result_bind].
        unfold Vim2.upscaled, simple_upscale. rewrite Hnw, Hnh.
        by cbn [result_bind]. }
      intros img. unfold result_bind, Vim2.upscaled.
      destruct (lib_call _ _ _).1 as [generated|]; [|done].
      by apply simple_upscale_size.
    + destruct (generate_image_stops w prompt negative_prompt scheduler_name
                  num_inference_steps seed guidance_scale width height Hreach)
        as (e & s' & t & [Ht _] & ->).
      cbn [fst]. split; [done|]. intros img [=].
  - destruct (hires_fix_run w image hires_scale) as (t & -> & _). cbn [fst].
    split; [done|]. intros img. by apply simple_upscale_size.
  - apply scaled_dim_int.
  - apply scaled_dim_doubles.
Qed.


Lemma same_outcome_refl {A} (r : result A) : same_outcome r r.
Proof. by destruct r. Qed.

Lemma with_scheduler_same p1 p2 s :
  same_but_scheduler p1 p2 -> with_scheduler p1 s = with_scheduler p2 s.
Proof.
  intros (Hc & Hw & Hd & Ht & Ht2). unfold with_scheduler.
  by rewrite Hc, Hw, Hd, Ht, Ht2.
Qed.

Lemma reach_None_iff w name seed :
  Vim2.reach w name seed = None <->
  (r ← g_pipe w; d ← g_SCHEDULERS w; s ← Vim2.pick d name; p ← store w !! r;
   Some (r, p, s)) = None \/ cuda_available w = false \/ ~ torch_seed seed.
Proof.
  unfold Vim2.reach.
  destruct (g_pipe w) as [r|]; simpl; [|by split; auto].
  destruct (g_SCHEDULERS w) as [d|]; simpl; [|by split; auto].
  destruct (Vim2.pick d name) as [s|]; simpl; [|by split; auto].
  destruct (store w !! r) as [p|]; simpl; [|by split; auto].
  destruct (cuda_available w); simpl; [|by split; auto].
  case_bool_decide; split; auto; by intros [|[|]].
Qed.

(** C8: generation is a function of its parameters.  Take two worlds with
    the same loaded pipeline; they may differ in everything a run
    overwrites (the pipeline's current scheduler in Vim2, all random
    streams) and in what was printed before.  Then [generate_image] on the
    same parameters ends alike in both: it returns equal images or raises
    in both.  What is assumed of the library is that a pipeline invocation
    is a function of the pipeline, its arguments and the random source it
    draws from: the explicit generator when one is passed (Vim2 passes one
    seeded from [seed]), else the stream of the pipeline's device (which
    Noobai's [set_seed] has just reseeded). *)
Theorem generate_image_deterministic
    w1 w2 r1 r2 p1 p2
    prompt negative_prompt scheduler_name num_inference_steps seed
    guidance_scale width height hires_fix hires_scale upscaler_func :
  (forall p a g1 g2,
     is_Some (generator a) -> (lib_call p a g1).1 = (lib_call p a g2).1) ->
  (forall p a g1 g2,
     generator a = None ->
     Noobai.device_stream p g1 = Noobai.device_stream p g2 ->
     (lib_call p a g1).1 = (lib_call p a g2).1) ->
  Vim2.upscaler_opt_ok upscaler_func ->
  cuda_available w1 = cuda_available w2 ->
  g_SCHEDULERS w1 = g_SCHEDULERS w2 ->
  g_pipe w1 = Some r1 -> store w1 !! r1 = Some p1 ->
  g_pipe w2 = Some r2 -> store w2 !! r2 = Some p2 ->
  same_but_scheduler p1 p2 ->
  same_outcome
    (Vim2.generate_image prompt negative_prompt scheduler_name
       num_inference_steps seed guidance_scale width height
       hires_fix hires_scale upscaler_func w1).1
    (Vim2.generate_image prompt negative_prompt scheduler_name
       num_inference_steps seed guidance_scale width height
       hires_fix hires_scale upscaler_func w2).1
  /\ (forall v1 v2 r1' r2' p,
        cuda_available v1 = cuda_available v2 ->
        g_pipe v1 = Some r1' -> store v1 !! r1' = Some p ->
        g_pipe v2 = Some r2' -> store v2 !! r2' = Some p ->
        device p = expected_device (cuda_available v1) ->
        (Noobai.generate_image prompt num_inference_steps seed guidance_scale
           height width v1).1
        = (Noobai.generate_image prompt num_inference_steps seed guidance_scale
             height width v2).1).
Proof.
  intros Hgen Hdev Hup Hcuda Htable Hpipe1 Hobj1 Hpipe2 Hobj2 Hsame. split.
  - destruct (Vim2.reach w1 scheduler_name seed) as [[[r p] s]|] eqn:Hreach1.
    + destruct (reach_Some _ _ _ _ _ _ Hreach1)
        as (Hc & Hp & Ho & d & Hd & Hpick).
      pose proof (reach_seed _ _ _ _ _ _ Hreach1) as Hseed.
      assert (r = r1 /\ p = p1) as [-> ->] by (split; congruence).
      assert (Vim2.reach w2 scheduler_name seed = Some (r2, p2, s)) as Hreach2.
      { unfold Vim2.reach. rewrite Hpipe2, <- Htable, Hd. simpl.
        rewrite Hpick. simpl. rewrite Hobj2. simpl.
        by rewrite <- Hcuda, Hc, bool_decide_eq_true_2. }
      destruct (generate_image_done w1 prompt negative_prompt scheduler_name
                  num_inference_steps seed guidance_scale width height
                  hires_fix hires_scale upscaler_func r1 p1 s Hup Hreach1)
        as (d1 & t1 & _ & _ & -> & _).
      destruct (generate_image_done w2 prompt negative_prompt scheduler_name
                  num_inference_steps seed guidance_scale width height
                  hires_fix hires_scale upscaler_func r2 p2 s Hup Hreach2)
        as (d2 & t2 & _ & _ & -> & _).
      cbn [fst]. rewrite (with_scheduler_same p1 p2 s Hsame).
      rewrite (Hgen (with_scheduler p2 s) _ (rng w1) (rng w2)) by by eexists.
      destruct (lib_call _ _ _).1 as [image|e]; [|done]. simpl.
      rewrite (upscaled_world _ _ _ _ _ _ w1 w2 Hup).
      apply same_outcome_refl.
    + assert (Vim2.reach w2 scheduler_name seed = None) as Hreach2.
      { apply reach_None_iff. apply reach_None_iff in Hreach1.
        rewrite <- Hcuda. destruct Hreach1 as [Hr|Hr]; [left|by right].
        rewrite Hpipe1 in Hr. rewrite Hpipe2, <- Htable. simpl in *.
        destruct (g_SCHEDULERS w1) as [d|]; simpl in *; [|done].
        destruct (Vim2.pick d scheduler_name); simpl in *; [|done].
        by rewrite Hobj1 in Hr. }
      destruct (generate_image_stops w1 prompt negative_prompt scheduler_name
                  num_inference_steps seed guidance_scale width height Hreach1)
        as (e1 & s1 & t1 & _ & ->).
      destruct (generate_image_stops w2 prompt negative_prompt scheduler_name
                  num_inference_steps seed guidance_scale width height Hreach2)
        as (e2 & s2 & t2 & _ & ->).
      done.
  - intros v1 v2 r1' r2' p Hcuda' Hp1 Ho1 Hp2 Ho2 Hdevice.
    destruct (decide (numpy_seed seed)) as [Hseed|Hseed].
    + rewrite (noobai_generate_image_run v1 r1' p),
        (noobai_generate_image_run v2 r2' p) by by apply noobai_reach_ready.
      cbn [fst]. apply Hdev; [done|].
      unfold Noobai.device_stream, Noobai.seeded. rewrite <- Hcuda', Hdevice.
      by destruct (cuda_available v1).
    + unfold Noobai.generate_image.
      by rewrite !bind_run, !set_seed_stops.
Qed.

(** C9, as the code has it: a scheduler name that is not one of the four
    keys is not an error of its own.  [set_scheduler] prints the warning,
    assigns the "euler" scheduler and returns; [generate_image] with such a
    name ends exactly as it does with "euler": the same image or the same
    exception, after the same pipeline call if there is one, and with the
    same objects left.  So it returns when the "euler" run returns, and not
    otherwise: on a GPU and with a seed torch takes it gets to the pipeline
    call with the "euler" scheduler and returns or raises as that call and
    the upscale do; without a GPU, or with a seed torch refuses, it raises
    before the pipeline is invoked. *)
Theorem unknown_scheduler_falls_back_to_euler
    w r p cfg scheduler_name :
  scheduler_name ∉ Vim2.documented_names ->
  g_SCHEDULERS w = Some (Vim2.scheduler_table cfg) ->
  g_pipe w = Some r ->
  store w !! r = Some p ->
  let euler := from_config "EulerDiscreteScheduler" cfg in
  Vim2.scheduler_table cfg !! "euler" = Some euler
  /\ (let out := Vim2.set_scheduler r scheduler_name w in
      out.1 = Ok tt
      /\ store out.2 !! r = Some (with_scheduler p euler)
      /\ events_since w out.2
         = [EvPrint [Lit ("Unknown scheduler '" ++ scheduler_name
                          ++ "'. Defaulting to 'euler'.")];
            EvSetScheduler r euler])
  /\ (forall prompt negative_prompt num_inference_steps seed guidance_scale
             width height hires_fix hires_scale upscaler_func,
        Vim2.upscaler_opt_ok upscaler_func ->
        let out := Vim2.generate_image prompt negative_prompt scheduler_name
                     num_inference_steps seed guidance_scale width height
                     hires_fix hires_scale upscaler_func w in
        let ref := Vim2.generate_image prompt negative_prompt "euler"
                     num_inference_steps seed guidance_scale width height
                     hires_fix hires_scale upscaler_func w in
        out.1 = ref.1
        /\ calls (events_since w out.2) = calls (events_since w ref.2)
        /\ store out.2 = store ref.2
        /\ (cuda_available w = true -> torch_seed seed ->
            exists args res,
              calls (events_since w out.2)
              = [(with_scheduler p euler, args, res)]
              /\ out.1 = result_bind res (fun image =>
                           Vim2.upscaled width height hires_fix hires_scale
                             upscaler_func image w))
        /\ (cuda_available w = false \/ ~ torch_seed seed ->
            out.1 = Raise (Vim2.generator_refusal w)
            /\ calls (events_since w out.2) = [])).
Proof.
  intros Hname Htable Hpipe Hobj euler.
  pose proof (chosen_unknown cfg _ Hname) as Hchosen.
  assert (Vim2.chosen cfg "euler" = euler) as Heuler.
  { unfold Vim2.chosen. by rewrite table_lookup. }
  assert (r < length (store w))%nat as Hlt by by eapply lookup_lt_Some.
  split; [by rewrite table_lookup|]. split.
  - cbv zeta.
    rewrite (set_scheduler_run w r p (Vim2.scheduler_table cfg) euler);
      [|done|by rewrite pick_table, Hchosen|done].
    cbn [fst snd]. rewrite store_evolve, events_since_evolve.
    split; [done|]. split; [by apply list_lookup_insert_eq|].
    unfold Vim2.selection. rewrite bool_decide_eq_false_2; [done|].
    by rewrite <- documented_dom.
  - intros prompt negative_prompt num_inference_steps seed guidance_scale
      width height hires_fix hires_scale upscaler_func Hup. cbv zeta.
    destruct (cuda_available w && bool_decide (torch_seed seed)) eqn:Hgo.
    + apply andb_true_iff in Hgo as [Hcuda Hseed].
      apply bool_decide_eq_true_1 in Hseed.
      assert (Vim2.ready w r p cfg) as Hready by done.
      pose proof (reach_ready _ _ _ _ scheduler_name seed Hready Hseed)
        as Hreach.
      pose proof (reach_ready _ _ _ _ "euler" seed Hready Hseed) as Hreach'.
      rewrite Hchosen in Hreach. rewrite Heuler in Hreach'.
      destruct (generate_image_done w prompt negative_prompt scheduler_name
                  num_inference_steps seed guidance_scale width height
                  hires_fix hires_scale upscaler_func r p _ Hup Hreach)
        as (d & t & _ & _ & -> & Ht & _).
      destruct (generate_image_done w prompt negative_prompt "euler"
                  num_inference_steps seed guidance_scale width height
                  hires_fix hires_scale upscaler_func r p _ Hup Hreach')
        as (d' & t' & _ & _ & -> & Ht' & _).
      cbn [fst snd]. rewrite !events_since_evolve, !store_evolve.
      rewrite (calls_run _ _ _ _ _ _ _ _ _ _ _ Ht),
        (calls_run _ _ _ _ _ _ _ _ _ _ _ Ht').
      do 3 (split; [done|]). split; [intros _ _; by eexists _, _|].
      intros [Hno|Hno]; [congruence|done].
    + rewrite (generate_image_no_generator w prompt negative_prompt
                 scheduler_name _ _ _ _ _ _ _ _ r p
                 (Vim2.scheduler_table cfg) euler);
        [|done|done|done|by rewrite pick_table, Hchosen|done].
      rewrite (generate_image_no_generator w prompt negative_prompt
                 "euler" _ _ _ _ _ _ _ _ r p
                 (Vim2.scheduler_table cfg) euler);
        [|done|done|done|by rewrite pick_table, Heuler|done].
      cbn [fst snd]. rewrite !events_since_evolve, !store_evolve, !calls_app.
      rewrite !(calls_early _ (early_banner _ _)),
        !(calls_early _ (early_selection_aux _ _ _ _)).
      do 3 (split; [done|]). split; [|done].
      intros Hcuda Hseed. rewrite Hcuda, bool_decide_eq_true_2 in Hgo by done.
      done.
Qed.

(** ** Loading *)

Lemma lookup_snoc_new {A} (l : list A) x :
  (l ++ [x])%list !! length l = Some x.
Proof. by apply list_lookup_middle. Qed.

Lemma insert_snoc_new {A} (l : list A) x y :
  <[length l := y]> (l ++ [x])%list = (l ++ [y])%list.
Proof. induction l as [|a l IH]; [done|]. simpl. by rewrite IH. Qed.

Lemma from_pretrained_run cls model_id opts w :
  from_pretrained cls model_id opts w =
    match lib_from_pretrained cls model_id opts with
    | Ok p0 => (Ok (length (store w)),
                evolve w (store w ++ [p0]) (rng w)
                  [EvFromPretrained cls model_id opts])
    | Raise e => (Raise e, evolve w (store w) (rng w)
                             [EvFromPretrained cls model_id opts])
    end.
Proof.
  unfold from_pretrained. rewrite bind_run, emit_run, bind_run, lift_run.
  by destruct (lib_from_pretrained cls model_id opts).
Qed.

Lemma modify_run r f w p :
  store w !! r = Some p ->
  modify r f w = (Ok tt, evolve w (<[r := f p]> (store w)) (rng w) []).
Proof.
  intros Hp. unfold modify. rewrite bind_run, (deref_run _ _ _ Hp).
  unfold update_world, evolve. by rewrite app_nil_r.
Qed.

Lemma pipe_to_run r dev w p :
  device_usable w dev = true ->
  store w !! r = Some p ->
  pipe_to r dev w =
    (Ok r, evolve w (<[r := with_device p dev]> (store w)) (rng w) [EvTo r dev]).
Proof.
  intros Hdev Hp. unfold pipe_to, require_device.
  rewrite bind_run, emit_run, bind_run.
  change (device_usable (evolve w (store w) (rng w) [EvTo r dev]) dev)
    with (device_usable w dev).
  rewrite Hdev, bind_run, (modify_run _ _ _ p) by exact Hp.
  rewrite ret_run, evolve_evolve, app_nil_r. reflexivity.
Qed.

Lemma pipe_to_stops r dev w :
  device_usable w dev = false ->
  pipe_to r dev w =
    (Raise (RuntimeError "device not available"),
     evolve w (store w) (rng w) [EvTo r dev]).
Proof.
  intros Hdev. unfold pipe_to, require_device.
  rewrite bind_run, emit_run, bind_run.
  change (device_usable (evolve w (store w) (rng w) [EvTo r dev]) dev)
    with (device_usable w dev).
  by rewrite Hdev.
Qed.

Lemma assign_max_length_run r attr n set w p :
  store w !! r = Some p ->
  Vim2.assign_max_length r attr n set w =
    (Ok tt, evolve w (<[r := set p {| model_max_length := n |}]> (store w))
              (rng w) [EvSetMaxLength r attr n]).
Proof.
  intros Hp. unfold Vim2.assign_max_length.
  rewrite bind_run, emit_run, (modify_run _ _ _ p) by exact Hp.
  rewrite evolve_evolve, app_nil_r. reflexivity.
Qed.

Lemma usable_cuda w : device_usable w "cuda" = cuda_available w.
Proof. reflexivity. Qed.

Lemma load_pipeline_run w model_id scheduler_choice p0 d s :
  lib_from_pretrained "StableDiffusionXLPipeline" model_id fp16_opts = Ok p0 ->
  cuda_available w = true ->
  g_SCHEDULERS w = Some d ->
  Vim2.pick d scheduler_choice = Some s ->
  Vim2.load_pipeline model_id scheduler_choice w =
    (Ok (length (store w)),
     evolve w (store w ++ [Vim2.loaded p0 s]) (rng w)
       (Vim2.load_events model_id d (length (store w)) scheduler_choice s)).
Proof.
  intros Hlib Hcuda Hd Hpick. unfold Vim2.load_pipeline.
  rewrite bind_run, print_run, bind_run, from_pretrained_run, Hlib.
  rewrite evolve_evolve, store_evolve, rng_evolve.
  rewrite bind_run, (pipe_to_run _ _ _ p0);
    [|by rewrite usable_cuda|by rewrite store_evolve, lookup_snoc_new].
  rewrite evolve_evolve, store_evolve, rng_evolve, insert_snoc_new.
  rewrite bind_run, (assign_max_length_run _ _ _ _ _ (with_device p0 "cuda"))
    by by rewrite store_evolve, lookup_snoc_new.
  rewrite evolve_evolve, store_evolve, rng_evolve, insert_snoc_new.
  rewrite bind_run, (assign_max_length_run _ _ _ _ _
                       (with_tokenizer (with_device p0 "cuda")
                          {| model_max_length := 1000000 |}))
    by by rewrite store_evolve, lookup_snoc_new.
  rewrite evolve_evolve, store_evolve, rng_evolve, insert_snoc_new.
  rewrite bind_run,
    (set_scheduler_run _ _
       (with_tokenizer_2
          (with_tokenizer (with_device p0 "cuda")
             {| model_max_length := 1000000 |})
          {| model_max_length := 1000000 |}) d s);
    [|done|done|by rewrite store_evolve, lookup_snoc_new].
  rewrite evolve_evolve, store_evolve, rng_evolve, insert_snoc_new.
  rewrite bind_run, print_run, ret_run, evolve_evolve, store_evolve, rng_evolve.
  unfold Vim2.load_events, Vim2.loaded. rewrite <- !app_assoc. reflexivity.
Qed.

Lemma setup_selection d r name s :
  forallb Vim2.setup_event (Vim2.selection d r name s) = true.
Proof. unfold Vim2.selection. by case_bool_decide. Qed.

Lemma setup_early t :
  forallb Vim2.early_event t = true -> forallb Vim2.setup_event t = true.
Proof.
  induction t as [|ev t IH]; [done|]. simpl. intros [Hev Ht]%andb_true_iff.
  rewrite IH by done. by destruct ev.
Qed.

Lemma load_pipeline_stops w model_id scheduler_choice :
  match lib_from_pretrained "StableDiffusionXLPipeline" model_id fp16_opts with
  | Ok _ => cuda_available w = false
            \/ (d ← g_SCHEDULERS w; Vim2.pick d scheduler_choice) = None
  | Raise _ => True
  end ->
  exists e s' t,
    Vim2.load_pipeline model_id scheduler_choice w
      = (Raise e, evolve w s' (rng w) t)
    /\ forallb Vim2.setup_event t = true.
Proof.
  intros Hwhy. unfold Vim2.load_pipeline.
  rewrite bind_run, print_run, bind_run, from_pretrained_run.
  destruct (lib_from_pretrained _ model_id fp16_opts) as [p0|e].
  2:{ rewrite evolve_evolve. by eexists _, _, _. }
  rewrite evolve_evolve, store_evolve, rng_evolve, bind_run.
  destruct (cuda_available w) eqn:Hcuda.
  - destruct Hwhy as [|Hnone]; [done|].
    rewrite (pipe_to_run _ _ _ p0);
      [|by rewrite usable_cuda|by rewrite store_evolve, lookup_snoc_new].
    rewrite evolve_evolve, store_evolve, rng_evolve, insert_snoc_new.
    rewrite bind_run, (assign_max_length_run _ _ _ _ _ (with_device p0 "cuda"))
      by by rewrite store_evolve, lookup_snoc_new.
    rewrite evolve_evolve, store_evolve, rng_evolve, insert_snoc_new.
    rewrite bind_run, (assign_max_length_run _ _ _ _ _
                         (with_tokenizer (with_device p0 "cuda")
                            {| model_max_length := 1000000 |}))
      by by rewrite store_evolve, lookup_snoc_new.
    rewrite evolve_evolve, store_evolve, rng_evolve, insert_snoc_new.
    rewrite bind_run.
    match goal with
    | |- context [Vim2.set_scheduler ?r ?n ?w0] =>
        destruct (set_scheduler_stops w0 r n) as (e & t & -> & Ht)
    end.
    { rewrite table_evolve.
      destruct (g_SCHEDULERS w) as [d|]; simpl in *; [|done].
      by rewrite Hnone. }
    rewrite evolve_evolve, store_evolve, rng_evolve.
    eexists _, _, _. split; [reflexivity|].
    rewrite forallb_app, (setup_early _ Ht). reflexivity.
  - rewrite pipe_to_stops by by rewrite usable_cuda.
    rewrite evolve_evolve, store_evolve, rng_evolve.
    by eexists _, _, _.
Qed.

Lemma load_pipeline_cases w model_id scheduler_choice :
  (exists p0 d s,
     lib_from_pretrained "StableDiffusionXLPipeline" model_id fp16_opts = Ok p0
     /\ cuda_available w = true
     /\ g_SCHEDULERS w = Some d /\ Vim2.pick d scheduler_choice = Some s
     /\ Vim2.load_pipeline model_id scheduler_choice w =
         (Ok (length (store w)),
          evolve w (store w ++ [Vim2.loaded p0 s]) (rng w)
            (Vim2.load_events model_id d (length (store w)) scheduler_choice s)))
  \/ (exists e s' t,
        Vim2.load_pipeline model_id scheduler_choice w
          = (Raise e, evolve w s' (rng w) t)
        /\ forallb Vim2.setup_event t = true).
Proof.
  destruct (lib_from_pretrained "StableDiffusionXLPipeline" model_id fp16_opts)
    as [p0|e0] eqn:Hlib.
  2:{ right. apply load_pipeline_stops. by rewrite Hlib. }
  destruct (cuda_available w) eqn:Hcuda.
  2:{ right. apply load_pipeline_stops. rewrite Hlib. by left. }
  destruct (d ← g_SCHEDULERS w; Vim2.pick d scheduler_choice) as [s|] eqn:Hsel.
  2:{ right. apply load_pipeline_stops. rewrite Hlib. by right. }
  destruct (g_SCHEDULERS w) as [d|] eqn:Hd; [|done]. simpl in Hsel.
  left. exists p0, d, s. do 4 (split; [done|]).
  by apply load_pipeline_run.
Qed.

(** C10: [load_pipeline] sets [model_max_length] of both tokenizers to
    1000000: every pipeline it returns has both at that value (and it
    returns one whenever the model loads, a GPU is there and the scheduler
    table is in place).  [generate_image] keeps it so: if the global
    pipeline has both limits lifted before a call, the pipeline that the
    call invokes has them lifted, and so has the global pipeline
    afterwards, ready for the next call. *)
Theorem load_pipeline_lifts_token_limits
    w model_id scheduler_choice :
  (let out := Vim2.load_pipeline model_id scheduler_choice w in
   (forall r, out.1 = Ok r ->
      exists p, store out.2 !! r = Some p /\ limits_lifted p)
   /\ (forall p0 d s,
         lib_from_pretrained "StableDiffusionXLPipeline" model_id fp16_opts
           = Ok p0 ->
         cuda_available w = true ->
         g_SCHEDULERS w = Some d ->
         Vim2.pick d scheduler_choice = Some s ->
         succeeds out.1 = true))
  /\ (forall r p prompt negative_prompt scheduler_name num_inference_steps
             seed guidance_scale width height hires_fix hires_scale
             upscaler_func,
        Vim2.upscaler_opt_ok upscaler_func ->
        g_pipe w = Some r -> store w !! r = Some p -> limits_lifted p ->
        let out := Vim2.generate_image prompt negative_prompt scheduler_name
                     num_inference_steps seed guidance_scale width height
                     hires_fix hires_scale upscaler_func w in
        (forall p' a res,
           (p', a, res) ∈ calls (events_since w out.2) -> limits_lifted p')
        /\ g_pipe out.2 = Some r
        /\ exists p', store out.2 !! r = Some p' /\ limits_lifted p').
Proof.
  split; cbv zeta.
  - split.
    + destruct (load_pipeline_cases w model_id scheduler_choice)
        as [(p0 & d & s & _ & _ & _ & _ & ->)|(e & s' & t & -> & _)];
        cbn [fst snd]; [|done].
      intros r [= <-]. rewrite store_evolve, lookup_snoc_new.
      eexists. split; [reflexivity|]. by split.
    + intros p0 d s Hlib Hcuda Hd Hpick.
      by rewrite (load_pipeline_run w model_id scheduler_choice p0 d s).
  - intros r p prompt negative_prompt scheduler_name num_inference_steps
      seed guidance_scale width height hires_fix hires_scale upscaler_func
      Hup Hpipe Hobj Hlim.
    assert (r < length (store w))%nat as Hlt by by eapply lookup_lt_Some.
    destruct (Vim2.reach w scheduler_name seed) as [[[r' p'] s]|] eqn:Hreach.
    + destruct (reach_Some _ _ _ _ _ _ Hreach) as (_ & Hp' & Ho' & _).
      assert (r' = r /\ p' = p) as [-> ->] by (split; congruence).
      destruct (generate_image_done w prompt negative_prompt scheduler_name
                  num_inference_steps seed guidance_scale width height
                  hires_fix hires_scale upscaler_func r p s Hup Hreach)
        as (d & t & _ & _ & -> & Ht & _).
      cbn [snd]. rewrite events_since_evolve, store_evolve.
      rewrite (calls_run _ _ _ _ _ _ _ _ _ _ _ Ht).
      split; [|split; [done|]].
      * intros p' a res [= -> _ _]%list_elem_of_singleton. exact Hlim.
      * eexists. split; [by apply list_lookup_insert_eq | exact Hlim].
    + destruct (generate_image_stops w prompt negative_prompt scheduler_name
                  num_inference_steps seed guidance_scale width height Hreach)
        as (e & s' & t & [Ht Hs'] & ->).
      cbn [snd]. rewrite events_since_evolve, store_evolve.
      rewrite (calls_early _ Ht).
      split; [by intros p' a res ?%elem_of_nil|]. split; [done|].
      destruct Hs' as [->|(r' & p' & s & Hp' & Ho' & ->)]; [by eexists|].
      assert (r' = r /\ p' = p) as [-> ->] by (split; congruence).
      eexists. split; [by apply list_lookup_insert_eq | exact Hlim].
Qed.

Lemma evolve_with_pipe w r s g t :
  evolve (with_pipe w r) s g t = with_pipe (evolve w s g t) r.
Proof. reflexivity. Qed.

Lemma with_pipe_twice w r r' : with_pipe (with_pipe w r) r' = with_pipe w r'.
Proof. reflexivity. Qed.

Lemma set_global_pipe_run r w : set_global_pipe r w = (Ok tt, with_pipe w r).
Proof. reflexivity. Qed.

Lemma usable_expected w :
  device_usable w (expected_device (cuda_available w)) = true.
Proof.
  unfold device_usable, expected_device.
  by destruct (cuda_available w).
Qed.

Lemma load_model_run w :
  let model_id := "Laxhar/noobai-XL-1.1" in
  let dev := expected_device (cuda_available w) in
  let r := length (store w) in
  Noobai.load_model w =
    match lib_from_pretrained "StableDiffusionPipeline" model_id no_opts with
    | Ok p0 =>
        (Ok dev,
         with_pipe
           (evolve w (store w ++ [with_device p0 dev]) (rng w)
              [EvCudaQuery;
               EvFromPretrained "StableDiffusionPipeline" model_id no_opts;
               EvTo r dev; EvPrint [Lit ("Model loaded on " ++ dev)]])
           r)
    | Raise e =>
        (Raise e,
         evolve w (store w) (rng w)
           [EvCudaQuery;
            EvFromPretrained "StableDiffusionPipeline" model_id no_opts])
    end.
Proof.
  cbv zeta. unfold Noobai.load_model, cuda_is_available, read_world.
  rewrite !bind_run, emit_run, cuda_evolve, bind_run, from_pretrained_run.
  fold (expected_device (cuda_available w)).
  destruct (lib_from_pretrained _ _ no_opts) as [p0|e].
  2:{ by rewrite evolve_evolve. }
  rewrite evolve_evolve, store_evolve, rng_evolve.
  rewrite bind_run, set_global_pipe_run, bind_run.
  rewrite (pipe_to_run _ _ _ p0);
    [|exact (usable_expected w)|apply lookup_snoc_new].
  change (store (with_pipe ?w0 _)) with (store w0).
  change (rng (with_pipe ?w0 _)) with (rng w0).
  rewrite evolve_with_pipe, evolve_evolve, store_evolve, rng_evolve,
    insert_snoc_new.
  rewrite bind_run, set_global_pipe_run, with_pipe_twice.
  rewrite bind_run, print_run, ret_run, evolve_with_pipe, evolve_evolve.
  reflexivity.
Qed.

(** C7, as the code has it: the Noobai notebook puts the pipeline on "cuda"
    when CUDA is available and on "cpu" otherwise, and does so whenever the
    model loads.  Vim2's [load_pipeline] moves the pipeline to "cuda"
    unconditionally: a pipeline it returns is on "cuda", and it returns one
    only when CUDA is available. *)
Theorem pipeline_device_after_loading w model_id scheduler_choice :
  (let out := Noobai.load_model w in
   (forall dev, out.1 = Ok dev ->
      dev = expected_device (cuda_available w)
      /\ pipeline_device out.2 = Some dev)
   /\ (forall p0,
         lib_from_pretrained "StableDiffusionPipeline" "Laxhar/noobai-XL-1.1"
           no_opts = Ok p0 ->
         succeeds out.1 = true))
  /\ (let out := Vim2.load_pipeline model_id scheduler_choice w in
      (forall r, out.1 = Ok r ->
         cuda_available w = true
         /\ exists p, store out.2 !! r = Some p /\ device p = "cuda")
      /\ (cuda_available w = false -> succeeds out.1 = false)).
Proof.
  split; cbv zeta.
  - rewrite load_model_run. cbv zeta.
    destruct (lib_from_pretrained _ _ no_opts) as [p0|e]; cbn [fst snd].
    + split; [|done]. intros dev [= <-]. split; [done|].
      unfold pipeline_device.
      change (g_pipe (with_pipe ?w0 ?r)) with (Some r).
      change (store (with_pipe ?w0 _)) with (store w0).
      rewrite store_evolve. simpl. by rewrite lookup_snoc_new.
    + split; [done|]. by intros p0 [=].
  - destruct (load_pipeline_cases w model_id scheduler_choice)
      as [(p0 & d & s & _ & Hcuda & _ & _ & ->)|(e & s' & t & -> & _)];
      cbn [fst snd].
    + split; [|by rewrite Hcuda]. intros r [= <-]. split; [done|].
      rewrite store_evolve, lookup_snoc_new. by eexists.
    + split; [done|]. done.
Qed.

(** ** The notebooks from top to bottom *)

Lemma evolve_with_SCHEDULERS w d s g t :
  evolve (with_SCHEDULERS w d) s g t = with_SCHEDULERS (evolve w s g t) d.
Proof. reflexivity. Qed.

Lemma check_cuda_run w :
  exists msg,
    Vim2.check_cuda w
    = (Ok tt, evolve w (store w) (rng w) [EvCudaQuery; EvPrint msg]).
Proof.
  unfold Vim2.check_cuda, cuda_is_available, read_world, cuda_get_device_name.
  rewrite !bind_run, emit_run, cuda_evolve.
  destruct (cuda_available w) eqn:Hc.
  - change (negb true) with false. cbv beta iota.
    rewrite bind_run, cuda_evolve, Hc, print_run, evolve_evolve. by eexists.
  - change (negb false) with true. cbv beta iota.
    rewrite print_run, evolve_evolve. by eexists.
Qed.

Lemma create_scheduler_dict_run w :
  Vim2.create_scheduler_dict w =
    match lib_from_pretrained "StableDiffusionXLPipeline" Vim2.MODEL_ID
            fp16_opts with
    | Ok p0 =>
        (Ok (Vim2.scheduler_table (sched_config (scheduler p0))),
         evolve w (store w ++ [p0]) (rng w)
           [EvFromPretrained "StableDiffusionXLPipeline" Vim2.MODEL_ID
              fp16_opts])
    | Raise e =>
        (Raise e,
         evolve w (store w) (rng w)
           [EvFromPretrained "StableDiffusionXLPipeline" Vim2.MODEL_ID
              fp16_opts])
    end.
Proof.
  unfold Vim2.create_scheduler_dict.
  rewrite bind_run, from_pretrained_run.
  destruct (lib_from_pretrained _ _ fp16_opts) as [p0|e]; [|done].
  rewrite bind_run, (deref_run _ _ p0) by apply lookup_snoc_new.
  reflexivity.
Qed.

Lemma setup_stages_selection d r name s :
  staged (Vim2.selection d r name s) = [StSampler].
Proof. unfold Vim2.selection. by case_bool_decide. Qed.

Lemma setup_cases w :
  let out := Vim2.setup w in
  let new := events_since w out.2 in
  forallb Vim2.setup_event new = true
  /\ (succeeds out.1 = true ->
      cuda_available w = true
      /\ staged new = [StDevice; StLoad; StLoad; StDevice; StSampler]
      /\ exists p0,
          lib_from_pretrained "StableDiffusionXLPipeline" Vim2.MODEL_ID
            fp16_opts = Ok p0
          /\ Vim2.ready out.2 (S (length (store w)))
               (Vim2.loaded p0
                  (from_config "EulerDiscreteScheduler"
                     (sched_config (scheduler p0))))
               (sched_config (scheduler p0))).
Proof.
  cbv zeta. unfold Vim2.setup.
  destruct (check_cuda_run w) as (msg & Hcheck).
  rewrite bind_run, Hcheck, bind_run, create_scheduler_dict_run.
  rewrite evolve_evolve, store_evolve, rng_evolve.
  destruct (lib_from_pretrained _ _ fp16_opts) as [p0|e0] eqn:Hlib.
  2:{ cbn [fst snd]. rewrite ?evolve_evolve, events_since_evolve. done. }
  rewrite ?evolve_evolve, ?store_evolve, ?rng_evolve.
  rewrite bind_run. unfold set_global_SCHEDULERS, update_world.
  rewrite bind_run.
  set (cfg := sched_config (scheduler p0)).
  set (w1 := with_SCHEDULERS _ _).
  destruct (load_pipeline_cases w1 Vim2.MODEL_ID "euler")
    as [(p1 & d & s & Hlib1 & Hcuda & Hd & Hpick & ->)
       |(e & s' & t & -> & Ht)].
  - assert (p1 = p0) as -> by congruence.
    assert (d = Vim2.scheduler_table cfg) as -> by (subst w1; simpl in Hd; congruence).
    assert (s = from_config "EulerDiscreteScheduler" cfg) as ->.
    { unfold Vim2.pick in Hpick. rewrite table_lookup in Hpick.
      simpl in Hpick. congruence. }
    rewrite bind_run, set_global_pipe_run, print_run.
    cbn [fst snd]. subst w1.
    change (store (with_SCHEDULERS ?w0 _)) with (store w0).
    change (rng (with_SCHEDULERS ?w0 _)) with (rng w0).
    rewrite !evolve_with_pipe, !evolve_with_SCHEDULERS, !evolve_evolve,
      !store_evolve, !rng_evolve.
    unfold events_since.
    change (trace (with_pipe ?w0 _)) with (trace w0).
    change (trace (with_SCHEDULERS ?w0 _)) with (trace w0).
    rewrite trace_evolve, drop_app_length.
    change (cuda_available (with_SCHEDULERS ?w0 _)) with (cuda_available w0) in Hcuda.
    rewrite cuda_evolve in Hcuda.
    split.
    { unfold Vim2.load_events. rewrite !forallb_app, setup_selection. done. }
    intros _. split; [done|]. split.
    { unfold Vim2.load_events. rewrite !staged_app, setup_stages_selection.
      done. }
    exists p0. split; [done|].
    rewrite !length_app. simpl length. rewrite Nat.add_1_r.
    split; try done.
    change (((store w ++ [p0])
             ++ [Vim2.loaded p0 (from_config "EulerDiscreteScheduler" cfg)])%list
            !! S (length (store w))
            = Some (Vim2.loaded p0 (from_config "EulerDiscreteScheduler" cfg))).
    replace (S (length (store w))) with (length (store w ++ [p0])%list)
      by (rewrite length_app; simpl; lia).
    apply lookup_snoc_new.
  - cbn [fst snd]. subst w1.
    rewrite !evolve_with_SCHEDULERS, !evolve_evolve.
    unfold events_since.
    change (trace (with_SCHEDULERS ?w0 _)) with (trace w0).
    rewrite trace_evolve, drop_app_length.
    split; [|done]. rewrite forallb_app, Ht. done.
Qed.

Lemma events_since_with_pipe w w' r :
  events_since w (with_pipe w' r) = events_since w w'.
Proof. reflexivity. Qed.

Lemma seed_events_stages w seed : staged (Noobai.seed_events w seed) = [StDevice].
Proof. unfold Noobai.seed_events. by destruct (cuda_available w). Qed.

Lemma notebook_cases w prompt steps seed gs height width apply_hires scale :
  let out := Noobai.notebook prompt steps seed gs height width apply_hires
               scale w in
  let new := events_since w out.2 in
  (StSampler ∉ staged new)
  /\ (succeeds out.1 = true ->
      staged new
      = ([StDevice; StLoad; StDevice; StDevice; StDenoise]
         ++ (if apply_hires then [StResize] else [])
         ++ [StOutput; StOutput])%list).
Proof.
  cbv zeta. unfold Noobai.notebook.
  rewrite bind_run, load_model_run. cbv zeta.
  destruct (lib_from_pretrained _ _ no_opts) as [p0|e0].
  2:{ cbn [fst snd]. rewrite events_since_evolve. split; [|done].
      by apply (bool_decide_unpack _). }
  set (dev := expected_device (cuda_available w)).
  set (r := length (store w)).
  rewrite bind_run. unfold Noobai.generate_and_display. rewrite bind_run.
  destruct (decide (numpy_seed seed)) as [Hseed|Hseed].
  2:{ unfold Noobai.generate_image. rewrite bind_run, set_seed_stops by done.
      cbn [fst snd]. change (store (with_pipe ?w0 _)) with (store w0).
      rewrite evolve_with_pipe, evolve_evolve, events_since_with_pipe,
        events_since_evolve.
      split; [|done]. by apply (bool_decide_unpack _). }
  rewrite (noobai_generate_image_run _ r (with_device p0 dev));
    [|apply noobai_reach_ready; [done|reflexivity|apply lookup_snoc_new]].
  cbv zeta.
  change (store (with_pipe ?w0 _)) with (store w0).
  rewrite evolve_with_pipe, evolve_evolve, store_evolve.
  destruct (lib_call _ _ _) as [[image|e] g]; cbn [fst snd].
  2:{ rewrite events_since_with_pipe, events_since_evolve.
      rewrite !staged_app, seed_events_stages. split; [|done].
      by apply (bool_decide_unpack _). }
  rewrite bind_run.
  destruct apply_hires.
  - match goal with
    | |- context [Noobai.hires_fix image scale ?w0] =>
        destruct (hires_fix_run w0 image scale) as (t & -> & Ht)
    end.
    change (store (with_pipe ?w0 _)) with (store w0).
    change (rng (with_pipe ?w0 _)) with (rng w0).
    rewrite evolve_with_pipe, evolve_evolve, store_evolve, rng_evolve.
    destruct (simple_upscale image _ _ scale) as [img|e] eqn:Hup.
    + destruct Ht as [[_ [=]]|[sz ->]].
      unfold image_show, Noobai.save_image, image_save.
      rewrite bind_run, emit_run, ret_run, bind_run, bind_run, emit_run,
        print_run, ret_run.
      cbn [fst snd].
      rewrite !evolve_with_pipe, !evolve_evolve, events_since_with_pipe,
        events_since_evolve.
      rewrite !staged_app, seed_events_stages.
      split; [by apply (bool_decide_unpack _) | done].
    + cbn [fst snd].
      rewrite events_since_with_pipe, events_since_evolve.
      rewrite !staged_app, seed_events_stages. split; [|done].
      destruct Ht as [[-> _]|[sz ->]]; by apply (bool_decide_unpack _).
  - unfold image_show, Noobai.save_image, image_save.
    rewrite ret_run, bind_run, emit_run, ret_run, bind_run, bind_run, emit_run,
      print_run, ret_run.
    cbn [fst snd].
    rewrite !evolve_with_pipe, !evolve_evolve, events_since_with_pipe,
      events_since_evolve.
    rewrite !staged_app, seed_events_stages.
    split; [by apply (bool_decide_unpack _) | done].
Qed.

Lemma staged_early t :
  forallb Vim2.early_event t = true ->
  exists k, staged t = replicate k StSampler.
Proof.
  induction t as [|ev t IH]; [by exists 0%nat|].
  simpl. intros [Hev Ht]%andb_true_iff. destruct (IH Ht) as [k Hk].
  destruct ev; try done; simpl; rewrite ?Hk; [by exists k | by exists (S k)].
Qed.

Lemma staged_upscale t :
  forallb Vim2.upscale_event t = true ->
  exists n, staged t = replicate n StResize.
Proof.
  induction t as [|ev t IH]; [by exists 0%nat|].
  simpl. intros [Hev Ht]%andb_true_iff. destruct (IH Ht) as [n Hn].
  destruct ev; try done; simpl; rewrite ?Hn; [by exists n | by exists (S n)].
Qed.

Lemma staged_setup t :
  forallb Vim2.setup_event t = true ->
  (StDenoise ∉ staged t) /\ (StResize ∉ staged t) /\ (StOutput ∉ staged t).
Proof.
  induction t as [|ev t IH]; [repeat split; apply not_elem_of_nil|].
  simpl. intros [Hev Ht]%andb_true_iff. destruct (IH Ht) as (H1 & H2 & H3).
  destruct ev; try done; simpl; rewrite ?not_elem_of_cons; by repeat split.
Qed.

(** C6, as the code has it.  Within Vim2's [generate_image] the sampler is
    set before the pipeline is invoked and resizing comes only after the
    invocation: the staged events of a call are sampler selection, then
    denoising, then resizes, or the call raised at or before the sampler
    selection.  Vim2's setup queries the device, loads the weights and
    selects a sampler, in this order of first entry; it never denoises,
    resizes, saves or displays, and neither does [generate_image] save or
    display.  A run of the Noobai notebook never selects a sampler; when it
    succeeds it enters, in this order: device, weights, denoising, the
    resize if enabled, output. *)
Theorem stage_order_of_the_notebooks
    w prompt negative_prompt scheduler_name num_inference_steps seed
    guidance_scale width height hires_fix hires_scale upscaler_func :
  Vim2.upscaler_opt_ok upscaler_func ->
  (let out := Vim2.generate_image prompt negative_prompt scheduler_name
                num_inference_steps seed guidance_scale width height
                hires_fix hires_scale upscaler_func w in
   let new := events_since w out.2 in
   (exists k, staged new = replicate k StSampler /\ succeeds out.1 = false)
   \/ (exists n, staged new
                 = ([StSampler; StDenoise] ++ replicate n StResize)%list))
  /\ (let out := Vim2.setup w in
      let new := events_since w out.2 in
      (StDenoise ∉ staged new) /\ (StResize ∉ staged new)
      /\ (StOutput ∉ staged new)
      /\ (succeeds out.1 = true -> stages new = [StDevice; StLoad; StSampler]))
  /\ (let out := Noobai.notebook prompt num_inference_steps seed
                   guidance_scale height width hires_fix hires_scale w in
      let new := events_since w out.2 in
      (StSampler ∉ staged new)
      /\ (succeeds out.1 = true ->
          stages new
          = ([StDevice; StLoad; StDenoise]
             ++ (if hires_fix then [StResize] else []) ++ [StOutput])%list)).
Proof.
  intros Hup. split; [|split]; cbv zeta.
  - destruct (Vim2.reach w scheduler_name seed) as [[[r p] s]|] eqn:Hreach.
    + destruct (generate_image_done w prompt negative_prompt scheduler_name
                  num_inference_steps seed guidance_scale width height
                  hires_fix hires_scale upscaler_func r p s Hup Hreach)
        as (d & t & _ & _ & -> & Ht & _).
      cbn [snd]. rewrite events_since_evolve. right.
      destruct (staged_upscale _ Ht) as [n Hn]. exists n.
      rewrite !staged_app, setup_stages_selection, Hn.
      destruct (staged_early _ (early_banner prompt negative_prompt))
        as [k Hk].
      assert (staged (Vim2.banner prompt negative_prompt) = []) as ->.
      { unfold Vim2.banner. by destruct (truthy negative_prompt). }
      reflexivity.
    + destruct (generate_image_stops w prompt negative_prompt scheduler_name
                  num_inference_steps seed guidance_scale width height Hreach)
        as (e & s' & t & [Ht _] & ->).
      cbn [fst snd]. rewrite events_since_evolve. left.
      destruct (staged_early _ Ht) as [k Hk]. by exists k.
  - destruct (setup_cases w) as [Hall Hok]. cbv zeta in Hall, Hok.
    destruct (staged_setup _ Hall) as (H1 & H2 & H3).
    do 3 (split; [done|]). intros Hs.
    destruct (Hok Hs) as (_ & Hst & _). unfold stages, staged in *.
    by rewrite Hst.
  - destruct (notebook_cases w prompt num_inference_steps seed guidance_scale
                height width hires_fix hires_scale) as [Hno Hok].
    cbv zeta in Hno, Hok. split; [done|]. intros Hs.
    unfold stages, staged in *. rewrite (Hok Hs). by destruct hires_fix.
Qed.
End Claims.

(** * Further properties of the notebooks' code *)

Section Extras.
Context `{Library}.

Lemma same_state_evolve w t : same_state w (evolve w (store w) (rng w) t).
Proof. by repeat split. Qed.


(** X2: [check_cuda] only reports.  It never raises and leaves the store,
    the globals and the random streams as they were; it asks torch once and
    prints one line, the warning when CUDA is unavailable and the GPU's name
    when it is. *)
Theorem check_cuda_only_reports w :
  let out := Vim2.check_cuda w in
  out.1 = Ok tt
  /\ same_state w out.2
  /\ events_since w out.2
     = [EvCudaQuery;
        EvPrint [Lit (if cuda_available w then
                        "CUDA is available. GPU name: " ++ gpu_name w
                      else "WARNING: CUDA is not available. Please switch to a GPU runtime for best performance.")]].
Proof.
  cbv zeta.
  unfold Vim2.check_cuda, cuda_is_available, read_world, cuda_get_device_name.
  rewrite !bind_run, emit_run, cuda_evolve.
  destruct (cuda_available w) eqn:Hc.
  - change (negb true) with false. cbv beta iota.
    rewrite bind_run, cuda_evolve, Hc, print_run, evolve_evolve.
    cbn [fst snd]. rewrite events_since_evolve.
    split; [done|]. split; [|done].
    repeat split; try done.
  - change (negb false) with true. cbv beta iota.
    rewrite print_run, evolve_evolve. cbn [fst snd].
    rewrite events_since_evolve. split; [done|]. split; [|done].
    by repeat split.
Qed.

(** X3: on seeds numpy accepts, [set_seed] returns and touches only the
    random streams.  Afterwards the streams of [random], numpy and torch are
    the ones freshly seeded with [seed], whatever they were before; the
    CUDA stream is reseeded when CUDA is available and left as it was
    otherwise.  Seeding again therefore overrides: [set_seed(s1)] followed
    by [set_seed(s2)] leaves the streams that [set_seed(s2)] alone
    leaves. *)
Theorem set_seed_overrides w s1 s2 :
  numpy_seed s1 -> numpy_seed s2 ->
  let out := Noobai.set_seed s2 w in
  out.1 = Ok tt
  /\ store out.2 = store w /\ g_pipe out.2 = g_pipe w
  /\ g_SCHEDULERS out.2 = g_SCHEDULERS w
  /\ py_random (rng out.2) = stream_seed s2
  /\ np_random (rng out.2) = stream_seed s2
  /\ torch_cpu (rng out.2) = stream_seed s2
  /\ torch_cuda (rng out.2)
     = (if cuda_available w then stream_seed s2 else torch_cuda (rng w))
  /\ rng (Noobai.set_seed s2 (Noobai.set_seed s1 w).2).2 = rng out.2.
Proof.
  intros Hs1 Hs2. cbv zeta. rewrite !set_seed_run by done. cbn [fst snd].
  rewrite !rng_evolve. do 7 (split; [done|]). split; [done|].
  unfold Noobai.seeded. rewrite cuda_evolve, rng_evolve. cbn [torch_cuda].
  by destruct (cuda_available w).
Qed.

(** X4: what [set_scheduler] does when it cannot select.  With the global
    [SCHEDULERS] undefined it raises [NameError] and changes nothing.  With
    a name that is not a key of a dictionary that has no "euler" key either,
    it prints the warning and then raises [KeyError] for "euler"; no
    scheduler is assigned and the pipeline objects are as before. *)
Theorem set_scheduler_cannot_select w r scheduler_name :
  let out := Vim2.set_scheduler r scheduler_name w in
  (g_SCHEDULERS w = None ->
   out = (Raise (NameError "SCHEDULERS"), w))
  /\ (forall d, g_SCHEDULERS w = Some d ->
        d !! scheduler_name = None -> d !! "euler" = None ->
        out.1 = Raise (KeyError "euler")
        /\ same_state w out.2
        /\ events_since w out.2 = [Vim2.unknown_warning scheduler_name]).
Proof.
  cbv zeta. unfold Vim2.set_scheduler, global_SCHEDULERS. split.
  - intros Hd. rewrite bind_run, Hd. reflexivity.
  - intros d Hd Hname Heuler. rewrite bind_run, Hd.
    rewrite bool_decide_eq_false_2 by by apply not_elem_of_dom.
    rewrite bind_run, print_run, bind_run. unfold subscript. rewrite Heuler.
    unfold raise. cbn [fst snd]. rewrite events_since_evolve.
    split; [done|]. split; [apply same_state_evolve | done].
Qed.

(** X5: the last selection wins.  With the scheduler table of
    [create_scheduler_dict] in place, selecting one name and then another
    leaves every pipeline object exactly as selecting the second name alone
    does, for any two names, known or not; selecting the same name twice is
    the same as once. *)
Theorem set_scheduler_last_wins w r p cfg n1 n2 :
  g_SCHEDULERS w = Some (Vim2.scheduler_table cfg) ->
  store w !! r = Some p ->
  let first := Vim2.set_scheduler r n1 w in
  let both := Vim2.set_scheduler r n2 first.2 in
  let only := Vim2.set_scheduler r n2 w in
  first.1 = Ok tt /\ both.1 = Ok tt /\ only.1 = Ok tt
  /\ store both.2 = store only.2
  /\ store both.2 !! r = Some (with_scheduler p (Vim2.chosen cfg n2))
  /\ (n1 = n2 -> store both.2 = store first.2).
Proof.
  intros Htable Hobj. cbv zeta.
  assert (r < length (store w))%nat as Hlt by by eapply lookup_lt_Some.
  rewrite (set_scheduler_run w r p (Vim2.scheduler_table cfg)
             (Vim2.chosen cfg n1)); [|done|apply pick_table|done].
  rewrite (set_scheduler_run w r p (Vim2.scheduler_table cfg)
             (Vim2.chosen cfg n2)); [|done|apply pick_table|done].
  cbn [fst snd].
  rewrite (set_scheduler_run _ r (with_scheduler p (Vim2.chosen cfg n1))
             (Vim2.scheduler_table cfg) (Vim2.chosen cfg n2));
    [|done|apply pick_table
     |by rewrite store_evolve; apply list_lookup_insert_eq].
  cbn [fst snd]. rewrite !store_evolve, list_insert_insert_eq.
  do 3 (split; [done|]). split; [done|].
  split; [by apply list_lookup_insert_eq|]. by intros ->.
Qed.

(** X6: called before the pipeline cell has run, Vim2's [generate_image]
    raises [NameError] for [pipe].  By then it has printed its banner and
    nothing else has happened: no scheduler is selected, no generator is
    made, the pipeline is not invoked. *)
Theorem generate_image_before_setup
    w prompt negative_prompt scheduler_name num_inference_steps seed
    guidance_scale width height hires_fix hires_scale upscaler_func :
  g_pipe w = None ->
  let out := Vim2.generate_image prompt negative_prompt scheduler_name
               num_inference_steps seed guidance_scale width height
               hires_fix hires_scale upscaler_func w in
  out.1 = Raise (NameError "pipe")
  /\ same_state w out.2
  /\ events_since w out.2 = Vim2.banner prompt negative_prompt.
Proof.
  intros Hpipe. cbv zeta. unfold Vim2.generate_image.
  rewrite bind_run, print_run, bind_run, banner_step, bind_run.
  unfold global_pipe. rewrite pipe_evolve, Hpipe. cbn [fst snd].
  rewrite events_since_evolve.
  split; [done|]. split; [apply same_state_evolve | done].
Qed.

(** X7: on a runtime without CUDA, Vim2's [generate_image] raises when it
    makes the "cuda" generator, before the pipeline is invoked.  The
    scheduler selection has already happened by then and stays: the global
    pipeline is left with the scheduler chosen for [scheduler_name]. *)
Theorem generate_image_without_gpu
    w r p cfg prompt negative_prompt scheduler_name num_inference_steps seed
    guidance_scale width height hires_fix hires_scale upscaler_func :
  cuda_available w = false ->
  g_SCHEDULERS w = Some (Vim2.scheduler_table cfg) ->
  g_pipe w = Some r ->
  store w !! r = Some p ->
  let out := Vim2.generate_image prompt negative_prompt scheduler_name
               num_inference_steps seed guidance_scale width height
               hires_fix hires_scale upscaler_func w in
  out.1 = Raise (RuntimeError "device not available")
  /\ calls (events_since w out.2) = []
  /\ staged (events_since w out.2) = [StSampler]
  /\ store out.2 !! r
     = Some (with_scheduler p (Vim2.chosen cfg scheduler_name))
  /\ rng out.2 = rng w.
Proof.
  intros Hcuda Htable Hpipe Hobj. cbv zeta. unfold Vim2.generate_image.
  assert (r < length (store w))%nat as Hlt by by eapply lookup_lt_Some.
  rewrite bind_run, print_run, bind_run, banner_step, bind_run.
  rewrite (global_pipe_run _ r) by exact Hpipe. rewrite bind_run.
  rewrite (set_scheduler_run _ r p (Vim2.scheduler_table cfg)
             (Vim2.chosen cfg scheduler_name));
    [|done|apply pick_table|done].
  rewrite ?evolve_evolve, ?store_evolve, ?rng_evolve.
  rewrite bind_run, Generator_manual_seed_stops by exact Hcuda.
  cbn [fst snd]. rewrite events_since_evolve, store_evolve, rng_evolve.
  split; [done|]. split.
  { rewrite calls_app. by rewrite (calls_early _ (early_banner _ _)),
      (calls_early _ (early_selection _ _ _ _)). }
  split.
  { rewrite staged_app, setup_stages_selection.
    assert (staged (Vim2.banner prompt negative_prompt) = []) as ->; [|done].
    unfold Vim2.banner. by destruct (truthy negative_prompt). }
  split; [by apply list_lookup_insert_eq | done].
Qed.

(** X8: what Vim2's [generate_image] leaves alone, given an upscaler that
    only prints and resizes.  It never rebinds [pipe] or [SCHEDULERS] and
    never allocates; every pipeline object other than the one behind [pipe]
    is untouched, and that one changes at most in its scheduler. *)
Theorem generate_image_frame
    w prompt negative_prompt scheduler_name num_inference_steps seed
    guidance_scale width height hires_fix hires_scale upscaler_func :
  Vim2.upscaler_opt_ok upscaler_func ->
  let out := Vim2.generate_image prompt negative_prompt scheduler_name
               num_inference_steps seed guidance_scale width height
               hires_fix hires_scale upscaler_func w in
  g_pipe out.2 = g_pipe w
  /\ g_SCHEDULERS out.2 = g_SCHEDULERS w
  /\ length (store out.2) = length (store w)
  /\ (forall r', g_pipe w <> Some r' -> store out.2 !! r' = store w !! r')
  /\ (forall r p, g_pipe w = Some r -> store w !! r = Some p ->
        exists p', store out.2 !! r = Some p' /\ same_but_scheduler p p').
Proof.
  intros Hup. cbv zeta.
  assert (forall s' : list Pipeline,
            s' = store w
            \/ (exists r p s, g_pipe w = Some r /\ store w !! r = Some p
                  /\ s' = <[r := with_scheduler p s]> (store w)) ->
            length s' = length (store w)
            /\ (forall r', g_pipe w <> Some r' -> s' !! r' = store w !! r')
            /\ (forall r p, g_pipe w = Some r -> store w !! r = Some p ->
                  exists p', s' !! r = Some p' /\ same_but_scheduler p p'))
    as Hframe.
  { intros s' [->|(r & p & s & Hp & Ho & ->)].
    - split; [done|]. split; [done|]. intros r p _ Ho. exists p.
      split; [done|]. by repeat split.
    - split; [by rewrite length_insert|]. split.
      + intros r' Hr'. apply list_lookup_insert_ne. congruence.
      + intros r0 p0 Hp0 Ho0.
        assert (r0 = r) as -> by congruence.
        assert (p0 = p) as -> by congruence.
        eexists. split; [|apply same_but_scheduler_with].
        apply list_lookup_insert_eq. by eapply lookup_lt_Some. }
  destruct (Vim2.reach w scheduler_name seed) as [[[r p] s]|] eqn:Hreach.
  - destruct (reach_Some _ _ _ _ _ _ Hreach) as (_ & Hp & Ho & _).
    destruct (generate_image_done w prompt negative_prompt scheduler_name
                num_inference_steps seed guidance_scale width height
                hires_fix hires_scale upscaler_func r p s Hup Hreach)
      as (d & t & _ & _ & -> & _).
    cbn [snd]. rewrite store_evolve. do 2 (split; [done|]).
    apply Hframe. right. by exists r, p, s.
  - destruct (generate_image_stops w prompt negative_prompt scheduler_name
                num_inference_steps seed guidance_scale width height Hreach)
      as (e & s' & t & [_ Hs'] & ->).
    cbn [snd]. rewrite store_evolve. do 2 (split; [done|]).
    by apply Hframe.
Qed.

(** X9: Noobai's [generate_image] invokes the pipeline as it was loaded: it
    changes no pipeline object and no global, and the pipeline it invokes is
    the one stored behind [pipe].  The seeding comes first, so a call made
    before the model cell, with a seed numpy accepts, raises [NameError]
    for [pipe] with all streams already reseeded. *)
Theorem noobai_generate_image_frame
    w prompt steps seed guidance_scale height width :
  let out := Noobai.generate_image prompt steps seed guidance_scale
               height width w in
  store out.2 = store w
  /\ g_pipe out.2 = g_pipe w
  /\ g_SCHEDULERS out.2 = g_SCHEDULERS w
  /\ (forall p a res, (p, a, res) ∈ calls (events_since w out.2) ->
        exists r, g_pipe w = Some r /\ store w !! r = Some p)
  /\ (numpy_seed seed -> g_pipe w = None ->
      out.1 = Raise (NameError "pipe")
      /\ calls (events_since w out.2) = []
      /\ rng out.2 = Noobai.seeded w seed).
Proof.
  cbv zeta.
  destruct (Noobai.reach w seed) as [[r p]|] eqn:Hreach.
  - destruct (noobai_reach_Some _ _ _ _ Hreach) as (Hseed & Hpipe & Hobj).
    rewrite (noobai_generate_image_run w r p) by assumption.
    cbn [fst snd]. rewrite store_evolve, events_since_evolve.
    do 3 (split; [done|]). split.
    + intros p' a res.
      rewrite calls_app, (calls_seed _ (seed_events_only w seed)).
      intros [= -> _ _]%list_elem_of_singleton. by exists r.
    + intros _ Hnone. congruence.
  - destruct (noobai_generate_image_stops w prompt steps seed
                guidance_scale height width Hreach)
      as (e & g & t & -> & Ht & Hgood & _ & Hname).
    cbn [fst snd].
    rewrite store_evolve, events_since_evolve, rng_evolve, (calls_seed _ Ht).
    do 3 (split; [done|]). split; [by intros p' a res ?%elem_of_nil|].
    intros Hseed Hnone. destruct (Hgood Hseed) as [-> _].
    by rewrite (Hname Hseed Hnone).
Qed.


Lemma shows_app t1 t2 : shows (t1 ++ t2) = (shows t1 ++ shows t2)%list.
Proof. apply omap_app. Qed.

Lemma saves_app t1 t2 : saves (t1 ++ t2) = (saves t1 ++ saves t2)%list.
Proof. apply omap_app. Qed.

Lemma seed_events_quiet w seed :
  shows (Noobai.seed_events w seed) = []
  /\ saves (Noobai.seed_events w seed) = [].
Proof. unfold Noobai.seed_events. by destruct (cuda_available w). Qed.

(** X11: the Noobai notebook shows and saves once, the image it ends with,
    and only when everything before succeeded.  On success the run ends
    with showing the image, saving that same image to
    "generated_image.png" and printing the path, in this order; when
    loading, generation or the resize raises, nothing is shown or saved. *)
Theorem notebook_shows_then_saves
    w prompt steps seed guidance_scale height width apply_hires scale :
  let out := Noobai.notebook prompt steps seed guidance_scale height width
               apply_hires scale w in
  let new := events_since w out.2 in
  match out.1 with
  | Ok img =>
      shows new = [img]
      /\ saves new = [(img, "generated_image.png")]
      /\ exists before,
          new = (before
                 ++ [EvShow img; EvSave img "generated_image.png";
                     EvPrint [Lit "Image saved to generated_image.png"]])%list
  | Raise _ => shows new = [] /\ saves new = []
  end.
Proof.
  cbv zeta. unfold Noobai.notebook.
  rewrite bind_run, load_model_run. cbv zeta.
  destruct (lib_from_pretrained _ _ no_opts) as [p0|e0].
  2:{ cbn [fst snd]. by rewrite events_since_evolve. }
  set (dev := expected_device (cuda_available w)).
  set (r := length (store w)).
  rewrite bind_run. unfold Noobai.generate_and_display. rewrite bind_run.
  destruct (decide (numpy_seed seed)) as [Hseed|Hseed].
  2:{ unfold Noobai.generate_image. rewrite bind_run, set_seed_stops by done.
      cbn [fst snd]. change (store (with_pipe ?w0 _)) with (store w0).
      rewrite evolve_with_pipe, evolve_evolve, events_since_with_pipe,
        events_since_evolve.
      by split. }
  rewrite (noobai_generate_image_run _ r (with_device p0 dev));
    [|apply noobai_reach_ready; [done|reflexivity|apply lookup_snoc_new]].
  cbv zeta.
  change (store (with_pipe ?w0 _)) with (store w0).
  rewrite evolve_with_pipe, evolve_evolve, store_evolve.
  destruct (seed_events_quiet
              (with_pipe
                 (evolve w (store w ++ [with_device p0 dev]) (rng w)
                    [EvCudaQuery;
                     EvFromPretrained "StableDiffusionPipeline"
                       "Laxhar/noobai-XL-1.1" no_opts;
                     EvTo r dev; EvPrint [Lit ("Model loaded on " ++ dev)]])
                 r) seed) as [Hsh Hsa].
  destruct (lib_call _ _ _) as [[image|e] g]; cbn [fst snd].
  2:{ rewrite events_since_with_pipe, events_since_evolve.
      by rewrite !shows_app, !saves_app, Hsh, Hsa. }
  rewrite bind_run.
  destruct apply_hires.
  - match goal with
    | |- context [Noobai.hires_fix image scale ?w0] =>
        destruct (hires_fix_run w0 image scale) as (t & -> & Ht)
    end.
    change (store (with_pipe ?w0 _)) with (store w0).
    change (rng (with_pipe ?w0 _)) with (rng w0).
    rewrite evolve_with_pipe, evolve_evolve, store_evolve, rng_evolve.
    destruct (simple_upscale image _ _ scale) as [img|e] eqn:Hup.
    + destruct Ht as [[_ [=]]|[sz ->]].
      unfold image_show, Noobai.save_image, image_save.
      rewrite bind_run, emit_run, ret_run, bind_run, bind_run, emit_run,
        print_run, ret_run.
      cbn [fst snd].
      rewrite !evolve_with_pipe, !evolve_evolve, events_since_with_pipe,
        events_since_evolve.
      rewrite !shows_app, !saves_app, Hsh, Hsa.
      split; [done|]. split; [done|].
      eexists. reflexivity.
    + cbn [fst snd].
      rewrite events_since_with_pipe, events_since_evolve.
      rewrite !shows_app, !saves_app, Hsh, Hsa.
      by destruct Ht as [[-> _]|[sz ->]].
  - unfold image_show, Noobai.save_image, image_save.
    rewrite ret_run, bind_run, emit_run, ret_run, bind_run, bind_run, emit_run,
      print_run, ret_run.
    cbn [fst snd].
    rewrite !evolve_with_pipe, !evolve_evolve, events_since_with_pipe,
      events_since_evolve.
    rewrite !shows_app, !saves_app, Hsh, Hsa.
    split; [done|]. split; [done|].
    eexists. reflexivity.
Qed.

Lemma notebook_result
    w prompt steps seed guidance_scale height width apply_hires scale :
  (Noobai.notebook prompt steps seed guidance_scale height width
     apply_hires scale w).1
  = result_bind
      (lib_from_pretrained "StableDiffusionPipeline" "Laxhar/noobai-XL-1.1"
         no_opts)
      (fun p0 =>
         if bool_decide (numpy_seed seed) then
           result_bind
             (lib_call (with_device p0 (expected_device (cuda_available w)))
                (Noobai.forwarded prompt steps guidance_scale height width)
                (Noobai.seeded w seed)).1
             (fun image =>
                if apply_hires then
                  simple_upscale image (img_size image).1 (img_size image).2
                    scale
                else Ok image)
         else Raise numpy_refusal).
Proof.
  unfold Noobai.notebook.
  rewrite bind_run, load_model_run. cbv zeta.
  destruct (lib_from_pretrained _ _ no_opts) as [p0|e0]; [|done].
  set (dev := expected_device (cuda_available w)).
  set (r := length (store w)).
  rewrite bind_run. unfold Noobai.generate_and_display. rewrite bind_run.
  cbn [result_bind]. case_bool_decide as Hseed.
  2:{ unfold Noobai.generate_image.
      by rewrite bind_run, set_seed_stops by done. }
  rewrite (noobai_generate_image_run _ r (with_device p0 dev));
    [|apply noobai_reach_ready; [done|reflexivity|apply lookup_snoc_new]].
  cbv zeta. unfold result_bind.
  change (Noobai.seeded (with_pipe ?w0 _) seed) with (Noobai.seeded w seed).
  destruct (lib_call _ _ _) as [[image|e] g]; cbn [fst snd]; [|done].
  rewrite bind_run.
  destruct apply_hires.
  - match goal with
    | |- context [Noobai.hires_fix image scale ?w0] =>
        destruct (hires_fix_run w0 image scale) as (t & -> & Ht)
    end.
    destruct (simple_upscale image _ _ scale) as [img|e]; [|done].
    unfold image_show, Noobai.save_image, image_save.
    by rewrite bind_run, emit_run, ret_run, bind_run, bind_run, emit_run,
      print_run, ret_run.
  - unfold image_show, Noobai.save_image, image_save.
    by rewrite ret_run, bind_run, emit_run, ret_run, bind_run, bind_run,
      emit_run, print_run, ret_run.
Qed.

(** X12: the size of the image the Noobai notebook ends with.  The
    notebook scales the generated image's own size: when it returns, the
    pipeline has returned an image, and with [apply_hires] the final image
    has size [(int(w * scale), int(h * scale))] for the width [w] and
    height [h] of that image, while without it the final image is that
    image.  Hence, whenever the pipeline's image has the requested width
    and height, the final size is the one scaled from the requested size,
    or the requested size.  Assumed of the library: a resize returns an
    image of the size it is given. *)
Theorem notebook_final_size
    w prompt steps seed guidance_scale height width apply_hires scale img :
  (forall src sz filter r, lib_resize src sz filter = Ok r -> img_size r = sz) ->
  (Noobai.notebook prompt steps seed guidance_scale height width
     apply_hires scale w).1 = Ok img ->
  exists p0 generated,
    lib_from_pretrained "StableDiffusionPipeline" "Laxhar/noobai-XL-1.1"
      no_opts = Ok p0
    /\ (lib_call (with_device p0 (expected_device (cuda_available w)))
          (Noobai.forwarded prompt steps guidance_scale height width)
          (Noobai.seeded w seed)).1 = Ok generated
    /\ (if apply_hires then
          exists new_width new_height,
            scaled_dim (img_size generated).1 scale = Ok new_width
            /\ scaled_dim (img_size generated).2 scale = Ok new_height
            /\ img_size img = (new_width, new_height)
        else img = generated)
    /\ (img_size generated = (width, height) ->
        if apply_hires then
          exists new_width new_height,
            scaled_dim width scale = Ok new_width
            /\ scaled_dim height scale = Ok new_height
            /\ img_size img = (new_width, new_height)
        else img_size img = (width, height)).
Proof.
  intros Hresize. rewrite notebook_result. unfold result_bind.
  destruct (lib_from_pretrained _ _ no_opts) as [p0|e0]; [|done].
  case_bool_decide; [|done].
  destruct (lib_call _ _ _).1 as [generated|e] eqn:Hgen; [|done].
  intros Hend. exists p0, generated. do 2 (split; [done|]).
  destruct apply_hires.
  - pose proof (simple_upscale_size generated _ _ scale img Hresize Hend)
      as Hown.
    split; [exact Hown|]. intros Hsize. by rewrite Hsize in Hown.
  - injection Hend as <-. by split.
Qed.

Lemma loads_app t1 t2 : loads (t1 ++ t2) = (loads t1 ++ loads t2)%list.
Proof. apply omap_app. Qed.

Lemma loads_selection d r name s : loads (Vim2.selection d r name s) = [].
Proof. unfold Vim2.selection. by case_bool_decide. Qed.

(** X13: what Vim2's setup cells amount to.  They succeed exactly when CUDA
    is available and the model loads.  They then have loaded the model
    twice with the same arguments (once only to read the scheduler
    configuration), bound [SCHEDULERS] to the four-entry table and [pipe]
    to a pipeline that is on "cuda", has both token limits lifted and uses
    the "euler" scheduler. *)
Theorem setup_result w :
  let out := Vim2.setup w in
  let new := events_since w out.2 in
  let load := lib_from_pretrained "StableDiffusionXLPipeline" Vim2.MODEL_ID
                fp16_opts in
  (succeeds out.1 = true <->
   cuda_available w = true /\ succeeds load = true)
  /\ (succeeds out.1 = true ->
      exists p0 r p,
        load = Ok p0
        /\ g_SCHEDULERS out.2
           = Some (Vim2.scheduler_table (sched_config (scheduler p0)))
        /\ g_pipe out.2 = Some r /\ store out.2 !! r = Some p
        /\ device p = "cuda" /\ limits_lifted p
        /\ scheduler p = from_config "EulerDiscreteScheduler"
                           (sched_config (scheduler p0))
        /\ loads new
           = [("StableDiffusionXLPipeline", Vim2.MODEL_ID, fp16_opts);
              ("StableDiffusionXLPipeline", Vim2.MODEL_ID, fp16_opts)]).
Proof.
  cbv zeta. unfold Vim2.setup.
  destruct (check_cuda_run w) as (msg & Hcheck).
  rewrite bind_run, Hcheck, bind_run, create_scheduler_dict_run.
  rewrite ?evolve_evolve, ?store_evolve, ?rng_evolve.
  destruct (lib_from_pretrained _ _ fp16_opts) as [p0|e0] eqn:Hlib.
  2:{ cbn [fst snd succeeds]. split; [|done]. split; [done|]. by intros [_ ?]. }
  rewrite ?evolve_evolve, ?store_evolve, ?rng_evolve.
  rewrite bind_run. unfold set_global_SCHEDULERS, update_world.
  rewrite bind_run.
  set (cfg := sched_config (scheduler p0)).
  set (w1 := with_SCHEDULERS _ _).
  destruct (cuda_available w) eqn:Hcuda.
  - rewrite (load_pipeline_run w1 Vim2.MODEL_ID "euler" p0
               (Vim2.scheduler_table cfg)
               (from_config "EulerDiscreteScheduler" cfg));
      [|done|done|done|by unfold Vim2.pick; rewrite table_lookup].
    rewrite bind_run, set_global_pipe_run, print_run.
    cbn [fst snd succeeds]. subst w1.
    change (store (with_SCHEDULERS ?w0 _)) with (store w0).
    change (rng (with_SCHEDULERS ?w0 _)) with (rng w0).
    rewrite !evolve_with_pipe, !evolve_with_SCHEDULERS, !evolve_evolve,
      !store_evolve, !rng_evolve.
    split; [done|]. intros _.
    exists p0, (S (length (store w))),
      (Vim2.loaded p0 (from_config "EulerDiscreteScheduler" cfg)).
    split; [done|]. split; [done|].
    split. { cbn. by rewrite length_app, Nat.add_1_r. }
    split.
    { change (((store w ++ [p0])
               ++ [Vim2.loaded p0 (from_config "EulerDiscreteScheduler" cfg)])%list
              !! S (length (store w))
              = Some (Vim2.loaded p0
                        (from_config "EulerDiscreteScheduler" cfg))).
      replace (S (length (store w))) with (length (store w ++ [p0])%list)
        by (rewrite length_app; simpl; lia).
      apply lookup_snoc_new. }
    split; [done|]. split; [by split|]. split; [done|].
    unfold events_since.
    change (trace (with_pipe ?w0 _)) with (trace w0).
    change (trace (with_SCHEDULERS ?w0 _)) with (trace w0).
    rewrite trace_evolve, drop_app_length.
    unfold Vim2.load_events. rewrite !loads_app, loads_selection.
    rewrite length_app, Nat.add_1_r. reflexivity.
  - destruct (load_pipeline_stops w1 Vim2.MODEL_ID "euler")
      as (e & s' & t & -> & _).
    { rewrite Hlib. by left. }
    cbn [fst snd succeeds]. split; [|done]. split; [done|]. by intros [? _].
Qed.

(** X14: [load_pipeline] with a [scheduler_choice] that is not one of the
    four names does what it does with "euler": it ends alike, and when it
    succeeds it returns the same reference to the same pipeline objects. *)
Theorem load_pipeline_unknown_choice w cfg model_id scheduler_choice :
  scheduler_choice ∉ Vim2.documented_names ->
  g_SCHEDULERS w = Some (Vim2.scheduler_table cfg) ->
  let out := Vim2.load_pipeline model_id scheduler_choice w in
  let ref := Vim2.load_pipeline model_id "euler" w in
  same_outcome out.1 ref.1
  /\ (succeeds ref.1 = true -> out.1 = ref.1 /\ store out.2 = store ref.2).
Proof.
  intros Hname Htable. cbv zeta.
  pose proof (chosen_unknown cfg _ Hname) as Hchosen.
  destruct (lib_from_pretrained "StableDiffusionXLPipeline" model_id fp16_opts)
    as [p0|e0] eqn:Hlib.
  - destruct (cuda_available w) eqn:Hcuda.
    + rewrite (load_pipeline_run w model_id scheduler_choice p0
                 (Vim2.scheduler_table cfg)
                 (from_config "EulerDiscreteScheduler" cfg));
        [|done|done|done|by rewrite pick_table, Hchosen].
      rewrite (load_pipeline_run w model_id "euler" p0
                 (Vim2.scheduler_table cfg)
                 (from_config "EulerDiscreteScheduler" cfg));
        [|done|done|done|by unfold Vim2.pick; rewrite table_lookup].
      done.
    + destruct (load_pipeline_stops w model_id scheduler_choice)
        as (e & s' & t & -> & _); [rewrite Hlib; by left|].
      destruct (load_pipeline_stops w model_id "euler")
        as (e' & s'' & t' & -> & _); [rewrite Hlib; by left|].
      done.
  - destruct (load_pipeline_stops w model_id scheduler_choice)
      as (e & s' & t & -> & _); [by rewrite Hlib|].
    destruct (load_pipeline_stops w model_id "euler")
      as (e' & s'' & t' & -> & _); [by rewrite Hlib|].
    done.
Qed.

Lemma scaled_dim_not_finite d scale :
  not_finite scale = true -> succeeds (scaled_dim d scale) = false.
Proof.
  destruct scale as [k|f]; [done|].
  unfold scaled_dim, py_mul, float_of_int, result_bind.
  destruct f; try done; intros _;
    destruct (binary_normalize prec emax d 0 false) as [| | |[] ? ?]; done.
Qed.

Lemma simple_upscale_not_finite image width height scale :
  not_finite scale = true ->
  succeeds (simple_upscale image width height scale) = false.
Proof.
  intros Hs. unfold simple_upscale, result_bind.
  pose proof (scaled_dim_not_finite width scale Hs).
  by destruct (scaled_dim width scale).
Qed.

(** X15: a scale factor that is NaN or an infinity is found out only at the
    resize.  Noobai's [hires_fix] then raises without asking for a resize
    and without changing anything.  Vim2's [generate_image] with
    [hires_fix=True] and no custom upscaler raises too and asks for no
    resize; when it has what it needs to get to the pipeline, it has made
    its pipeline call as usual by then: the generation is done and lost. *)
Theorem not_finite_scale_raises_before_resize
    w image prompt negative_prompt scheduler_name num_inference_steps seed
    guidance_scale width height hires_scale :
  not_finite hires_scale = true ->
  (let out := Noobai.hires_fix image hires_scale w in
   succeeds out.1 = false /\ out.2 = w)
  /\ (let out := Vim2.generate_image prompt negative_prompt scheduler_name
                   num_inference_steps seed guidance_scale width height
                   true hires_scale None w in
      succeeds out.1 = false
      /\ resizes (events_since w out.2) = []
      /\ (forall r p s,
            Vim2.reach w scheduler_name seed = Some (r, p, s) ->
            exists args res,
              calls (events_since w out.2)
              = [(with_scheduler p s, args, res)])).
Proof.
  intros Hs. split; cbv zeta.
  - unfold Noobai.hires_fix. destruct (img_size image) as [iw ih].
    cbv beta iota. rewrite bind_run, lift_run.
    pose proof (scaled_dim_not_finite iw hires_scale Hs) as Hbad.
    by destruct (scaled_dim iw hires_scale).
  - pose proof (scaled_dim_not_finite width hires_scale Hs) as Hbad.
    destruct (Vim2.reach w scheduler_name seed) as [[[r p] s]|] eqn:Hreach.
    + destruct (generate_image_done w prompt negative_prompt scheduler_name
                  num_inference_steps seed guidance_scale width height
                  true hires_scale None r p s I Hreach)
        as (d & t & _ & _ & -> & Ht & _ & Hnone).
      cbn [fst snd]. rewrite events_since_evolve, resizes_run.
      split.
      { unfold result_bind, Vim2.upscaled.
        destruct (lib_call _ _ _).1; [|done].
        apply simple_upscale_not_finite, Hs. }
      split.
      { rewrite (Hnone eq_refl eq_refl).
        destruct (lib_call _ _ _).1; [|done].
        by destruct (scaled_dim width hires_scale). }
      intros r' p' s' [= <- <- <-]. eexists _, _. by apply calls_run.
    + destruct (generate_image_stops w prompt negative_prompt scheduler_name
                  num_inference_steps seed guidance_scale width height Hreach)
        as (e & s' & t & [Ht _] & ->).
      cbn [fst snd]. rewrite events_since_evolve.
      split; [done|]. split; [by apply resizes_early | done].
Qed.

(** X16: with an integer factor the size asked of the resize is the exact
    product, and the notebooks check nothing about it.  Noobai's
    [hires_fix] with factor [k] asks for [(image.width * k,
    image.height * k)] and returns what the resize returns, for every
    integer [k], zero and negative ones included; Vim2's [generate_image]
    with [hires_fix=True], no custom upscaler and an integer [hires_scale],
    once it got an image from the pipeline, asks for [(width * k,
    height * k)] of the requested size. *)
Theorem integer_scale_resize_request
    w image k prompt negative_prompt scheduler_name num_inference_steps seed
    guidance_scale width height :
  (let out := Noobai.hires_fix image (PyInt k) w in
   let size := ((img_size image).1 * k, (img_size image).2 * k) in
   out.1 = lib_resize image size LANCZOS
   /\ events_since w out.2 = [EvResize image size LANCZOS]
   /\ same_state w out.2)
  /\ (let out := Vim2.generate_image prompt negative_prompt scheduler_name
                   num_inference_steps seed guidance_scale width height
                   true (PyInt k) None w in
      forall r p s generated,
        Vim2.reach w scheduler_name seed = Some (r, p, s) ->
        (lib_call (with_scheduler p s)
           (Vim2.forwarded prompt negative_prompt num_inference_steps
              guidance_scale (Vim2.cuda_generator seed) width height)
           (rng w)).1 = Ok generated ->
        out.1 = lib_resize generated (width * k, height * k) LANCZOS
        /\ resizes (events_since w out.2)
           = [(generated, (width * k, height * k))]).
Proof.
  split; cbv zeta.
  - unfold Noobai.hires_fix, image_resize.
    destruct (img_size image) as [iw ih]. cbv beta iota.
    change ((iw, ih).1) with iw. change ((iw, ih).2) with ih.
    change (scaled_dim iw (PyInt k)) with (Ok (iw * k) : result Z).
    change (scaled_dim ih (PyInt k)) with (Ok (ih * k) : result Z).
    rewrite bind_run, lift_run. cbv beta iota.
    rewrite bind_run, lift_run. cbv beta iota.
    rewrite bind_run, emit_run, lift_run.
    cbn [fst snd]. rewrite events_since_evolve.
    split; [done|]. split; [done|]. apply same_state_evolve.
  - intros r p s generated Hreach Hgen.
    destruct (generate_image_done w prompt negative_prompt scheduler_name
                num_inference_steps seed guidance_scale width height
                true (PyInt k) None r p s I Hreach)
      as (d & t & _ & _ & -> & _ & _ & Hnone).
    cbn [fst snd]. rewrite events_since_evolve, resizes_run.
    rewrite (Hnone eq_refl eq_refl), Hgen. cbn [result_bind].
    by unfold Vim2.upscaled, simple_upscale.
Qed.
End Extras.

(** * The claims on the symbolic library

    The symbolic library meets what the theorems above assume of a library,
    so each of them applies to it; the runs below are evaluated on it. *)

Import Sym.

Lemma sym_resize_size (src : Sym.image) (sz : Z * Z) (filter : resample)
    (r : Sym.image) :
  Sym.resize src sz filter = Ok r -> Sym.size r = sz.
Proof.
  unfold Sym.resize. destruct (_ && _)%bool; [|discriminate].
  by intros [= <-].
Qed.

(** A pipeline call returns an image of the size it was asked for, unless
    it was asked for a width or height of 0. *)
Lemma sym_call_size (p : Pipeline) (a : CallArgs) (g : RngState)
    (img : Sym.image) :
  (Sym.call p a g).1 = Ok img -> width a <> 0 -> height a <> 0 ->
  Sym.size img = requested_size a.
Proof.
  intros Hcall Hw Hh.
  assert (Sym.effective (width a) = width a) as Hew.
  { unfold Sym.effective. by destruct (Z.eqb_spec (width a) 0). }
  assert (Sym.effective (height a) = height a) as Heh.
  { unfold Sym.effective. by destruct (Z.eqb_spec (height a) 0). }
  revert Hcall. unfold Sym.call. cbv zeta.
  repeat (destruct (negb _); [discriminate|]).
  destruct (generator a); [|destruct (String.eqb _ _)];
    intros [= <-]; unfold Sym.size, requested_size; by rewrite Hew, Heh.
Qed.

Lemma sym_call_generator (p : Pipeline) (a : CallArgs) (g1 g2 : RngState) :
  is_Some (generator a) -> (Sym.call p a g1).1 = (Sym.call p a g2).1.
Proof.
  intros [gen Hgen]. unfold Sym.call. cbv zeta. rewrite Hgen.
  by repeat (destruct (negb _); [done|]).
Qed.

Lemma sym_call_device_stream (p : Pipeline) (a : CallArgs)
    (g1 g2 : RngState) :
  generator a = None ->
  Noobai.device_stream p g1 = Noobai.device_stream p g2 ->
  (Sym.call p a g1).1 = (Sym.call p a g2).1.
Proof.
  intros Hgen. unfold Sym.call, Noobai.device_stream. cbv zeta. rewrite Hgen.
  repeat (destruct (negb _); [done|]).
  destruct (String.eqb _ _); cbn [fst]; by intros ->.
Qed.

Lemma generate_image_forwards_parameters_witness :
  Vim2.upscaler_opt_ok (Some Vim2.example_upscaler_func)
  /\ (let prompt := "A futuristic city skyline at sunset, ultrarealistic" in
      let negative_prompt := Some "blurry, low quality" in
      let guidance_scale := PyFloat (float_of_ratio 8 1) in
      (let w := vim2_world_restored in
       let out := Vim2.generate_image prompt negative_prompt "euler_ancestral"
                    25 42 guidance_scale 512 512 true (PyInt 2)
                    (Some Vim2.example_upscaler_func) w in
       let p := with_scheduler vim2_pipeline_restored
                  (from_config "EulerAncestralDiscreteScheduler"
                     "Laxhar/noobai-XL-1.1") in
       let args := {| prompt := prompt; negative_prompt := negative_prompt;
                      num_inference_steps := 25;
                      guidance_scale := guidance_scale;
                      generator := Some (Vim2.cuda_generator 42);
                      width := 512; height := 512 |} in
       calls (events_since w out.2)
       = [(p, args, Ok (Generated p args (42, 0%nat)))])
      /\ (let w := noobai_world in
          let out := Noobai.generate_image prompt 25 42 guidance_scale
                       512 512 w in
          let p := noobai_pipeline in
          let args := {| prompt := prompt; negative_prompt := None;
                         num_inference_steps := 25;
                         guidance_scale := guidance_scale;
                         generator := None;
                         width := 512; height := 512 |} in
          calls (events_since w out.2)
          = [(p, args, Ok (Generated p args (42, 0%nat)))])).
Proof.
  split; [exact example_upscaler_ok|].
  destruct (generate_image_forwards_parameters vim2_world_restored
              "A futuristic city skyline at sunset, ultrarealistic"
              (Some "blurry, low quality") "euler_ancestral" 25 42
              (PyFloat (float_of_ratio 8 1)) 512 512 true (PyInt 2)
              (Some Vim2.example_upscaler_func) example_upscaler_ok)
    as [HV _].
  destruct (generate_image_forwards_parameters noobai_world
              "A futuristic city skyline at sunset, ultrarealistic"
              (Some "blurry, low quality") "euler_ancestral" 25 42
              (PyFloat (float_of_ratio 8 1)) 512 512 true (PyInt 2)
              (Some Vim2.example_upscaler_func) example_upscaler_ok)
    as [_ HN].
  cbv zeta in HV, HN |- *.
  assert (Vim2.reach vim2_world_restored "euler_ancestral" 42
          = Some (1%nat, vim2_pipeline_restored,
                  from_config "EulerAncestralDiscreteScheduler"
                    "Laxhar/noobai-XL-1.1")) as Hr1
    by (vm_compute; reflexivity).
  assert (Noobai.reach noobai_world 42 = Some (0%nat, noobai_pipeline)) as Hr2
    by (vm_compute; reflexivity).
  rewrite Hr1 in HV. rewrite Hr2 in HN. split.
  - rewrite HV. vm_compute. reflexivity.
  - rewrite HN. vm_compute. reflexivity.
Defined.

Lemma set_scheduler_selects_documented_witness :
  ("dpm" ∈ Vim2.documented_names)
  /\ g_SCHEDULERS vim2_world = Some (Vim2.scheduler_table "Laxhar/noobai-XL-1.1")
  /\ store vim2_world !! 1%nat = Some vim2_pipeline
  /\ (let w := vim2_world in
      let r := 1%nat in
      let p := vim2_pipeline in
      let cfg := "Laxhar/noobai-XL-1.1" in
      let scheduler_name := "dpm" in
      exists s,
        Vim2.scheduler_table cfg !! scheduler_name = Some s
        /\ (let out := Vim2.set_scheduler r scheduler_name w in
            out.1 = Ok tt
            /\ (exists p', store out.2 !! r = Some p' /\ scheduler p' = s
                           /\ same_but_scheduler p p')
            /\ (forall r', r' <> r -> store out.2 !! r' = store w !! r')
            /\ g_pipe out.2 = g_pipe w
            /\ g_SCHEDULERS out.2 = g_SCHEDULERS w
            /\ rng out.2 = rng w
            /\ events_since w out.2 = [EvSetScheduler r s])
        /\ (forall prompt negative_prompt num_inference_steps seed
                   guidance_scale width height hires_fix hires_scale
                   upscaler_func,
              Vim2.upscaler_opt_ok upscaler_func ->
              g_pipe w = Some r ->
              let out := Vim2.generate_image prompt negative_prompt
                           scheduler_name num_inference_steps seed
                           guidance_scale width height hires_fix hires_scale
                           upscaler_func w in
              (exists p', store out.2 !! r = Some p'
                          /\ scheduler p' = s /\ same_but_scheduler p p')
              /\ (cuda_available w = true ->
                  torch_seed seed ->
                  exists p' args res,
                    calls (events_since w out.2) = [(p', args, res)]
                    /\ store out.2 !! r = Some p'
                    /\ scheduler p' = s /\ same_but_scheduler p p')))
  /\ (Vim2.set_scheduler 1%nat "dpm" vim2_world).1 = Ok tt
  /\ store (Vim2.set_scheduler 1%nat "dpm" vim2_world).2 !! 1%nat
     = Some (with_scheduler vim2_pipeline
               (from_config "DPMSolverMultistepScheduler"
                  "Laxhar/noobai-XL-1.1")).
Proof.
  assert ("dpm" ∈ Vim2.documented_names) as Hname.
  { apply (bool_decide_unpack _). vm_compute. exact I. }
  assert (g_SCHEDULERS vim2_world
          = Some (Vim2.scheduler_table "Laxhar/noobai-XL-1.1")) as Htable.
  { vm_compute. reflexivity. }
  assert (store vim2_world !! 1%nat = Some vim2_pipeline) as Hobj.
  { vm_compute. reflexivity. }
  do 3 (split; [assumption|]).
  split.
  { exact (set_scheduler_selects_documented vim2_world 1%nat vim2_pipeline
             "Laxhar/noobai-XL-1.1" "dpm" Hname Htable Hobj). }
  split; vm_compute; reflexivity.
Defined.

Lemma hires_result_has_scaled_size_witness :
  (forall src sz filter r, lib_resize src sz filter = Ok r -> img_size r = sz)
  /\ (let w := vim2_world_restored in
      let prompt := "A futuristic city skyline at sunset, ultrarealistic" in
      let negative_prompt := Some "blurry, low quality" in
      let guidance_scale := PyFloat (float_of_ratio 8 1) in
      let hires_scale := PyFloat float_two in
      let image := Resized (Generated vim2_pipeline_restored
                              (Noobai.forwarded prompt 25 guidance_scale 512 768)
                              (42, 0%nat)) (300, 200) in
      (let out := Vim2.generate_image prompt negative_prompt "euler_ancestral"
                    25 42 guidance_scale 768 512 true hires_scale None w in
       exists img, out.1 = Ok img /\ img_size img = (1536, 1024))
      /\ (let out := Noobai.hires_fix image hires_scale w in
          exists img, out.1 = Ok img /\ img_size img = (600, 400))).
Proof.
  split; [exact sym_resize_size|]. cbv zeta.
  destruct (hires_result_has_scaled_size vim2_world_restored
              "A futuristic city skyline at sunset, ultrarealistic"
              (Some "blurry, low quality") "euler_ancestral" 25 42
              (PyFloat (float_of_ratio 8 1)) 768 512 (PyFloat float_two)
              (Resized (Generated vim2_pipeline_restored
                          (Noobai.forwarded
                             "A futuristic city skyline at sunset, ultrarealistic"
                             25 (PyFloat (float_of_ratio 8 1)) 512 768)
                          (42, 0%nat)) (300, 200))
              sym_resize_size)
    as ((_ & HV) & (_ & HN) & _ & Hdouble).
  cbv zeta in HV, HN. split.
  - match goal with
    | |- exists img, ?out = Ok img /\ _ =>
        assert (exists img, out = Ok img) as [img Himg]
          by (vm_compute; by eexists)
    end.
    exists img. split; [exact Himg|].
    destruct (HV img Himg) as (nw & nh & Hnw & Hnh & ->).
    rewrite Hdouble in Hnw by lia. rewrite Hdouble in Hnh by lia.
    injection Hnw as <-. injection Hnh as <-. reflexivity.
  - match goal with
    | |- exists img, ?out = Ok img /\ _ =>
        assert (exists img, out = Ok img) as [img Himg]
          by (vm_compute; by eexists)
    end.
    exists img. split; [exact Himg|].
    destruct (HN img Himg) as (nw & nh & Hnw & Hnh & ->).
    cbn in Hnw, Hnh.
    rewrite Hdouble in Hnw by lia. rewrite Hdouble in Hnh by lia.
    injection Hnw as <-. injection Hnh as <-. reflexivity.
Defined.


Lemma generate_image_deterministic_witness :
  (forall p a g1 g2,
     is_Some (generator a) -> (lib_call p a g1).1 = (lib_call p a g2).1)
  /\ (forall p a g1 g2,
        generator a = None ->
        Noobai.device_stream p g1 = Noobai.device_stream p g2 ->
        (lib_call p a g1).1 = (lib_call p a g2).1)
  /\ Vim2.upscaler_opt_ok (Some Vim2.example_upscaler_func)
  /\ cuda_available vim2_world_restored = cuda_available vim2_world_later
  /\ g_SCHEDULERS vim2_world_restored = g_SCHEDULERS vim2_world_later
  /\ g_pipe vim2_world_restored = Some 1%nat
  /\ store vim2_world_restored !! 1%nat = Some vim2_pipeline_restored
  /\ g_pipe vim2_world_later = Some 1%nat
  /\ store vim2_world_later !! 1%nat
     = Some (with_scheduler vim2_pipeline_restored
               (from_config "DDIMScheduler" "Laxhar/noobai-XL-1.1"))
  /\ same_but_scheduler vim2_pipeline_restored
       (with_scheduler vim2_pipeline_restored
          (from_config "DDIMScheduler" "Laxhar/noobai-XL-1.1"))
  /\ (let prompt := "A futuristic city skyline at sunset, ultrarealistic" in
      let negative_prompt := Some "blurry, low quality" in
      let guidance_scale := PyFloat (float_of_ratio 8 1) in
      let upscaler_func := Some Vim2.example_upscaler_func in
      same_outcome
        (Vim2.generate_image prompt negative_prompt "euler_ancestral"
           25 42 guidance_scale 512 512 true (PyInt 2) upscaler_func
           vim2_world_restored).1
        (Vim2.generate_image prompt negative_prompt "euler_ancestral"
           25 42 guidance_scale 512 512 true (PyInt 2) upscaler_func
           vim2_world_later).1
      /\ (forall v1 v2 r1' r2' p,
            cuda_available v1 = cuda_available v2 ->
            g_pipe v1 = Some r1' -> store v1 !! r1' = Some p ->
            g_pipe v2 = Some r2' -> store v2 !! r2' = Some p ->
            device p = expected_device (cuda_available v1) ->
            (Noobai.generate_image prompt 25 42 guidance_scale 512 512 v1).1
            = (Noobai.generate_image prompt 25 42 guidance_scale 512 512
                 v2).1))
  /\ (exists img,
        (Vim2.generate_image
           "A futuristic city skyline at sunset, ultrarealistic"
           (Some "blurry, low quality") "euler_ancestral" 25 42
           (PyFloat (float_of_ratio 8 1)) 512 512 true (PyInt 2)
           (Some Vim2.example_upscaler_func) vim2_world_restored).1 = Ok img
        /\ (Vim2.generate_image
              "A futuristic city skyline at sunset, ultrarealistic"
              (Some "blurry, low quality") "euler_ancestral" 25 42
              (PyFloat (float_of_ratio 8 1)) 512 512 true (PyInt 2)
              (Some Vim2.example_upscaler_func) vim2_world_later).1 = Ok img).
Proof.
  assert (cuda_available vim2_world_restored
          = cuda_available vim2_world_later) as Hc
    by (vm_compute; reflexivity).
  assert (g_SCHEDULERS vim2_world_restored = g_SCHEDULERS vim2_world_later)
    as Ht by (vm_compute; reflexivity).
  assert (g_pipe vim2_world_restored = Some 1%nat) as Hp1
    by (vm_compute; reflexivity).
  assert (store vim2_world_restored !! 1%nat = Some vim2_pipeline_restored)
    as Ho1 by (vm_compute; reflexivity).
  assert (g_pipe vim2_world_later = Some 1%nat) as Hp2
    by (vm_compute; reflexivity).
  assert (store vim2_world_later !! 1%nat
          = Some (with_scheduler vim2_pipeline_restored
                    (from_config "DDIMScheduler" "Laxhar/noobai-XL-1.1")))
    as Ho2 by (vm_compute; reflexivity).
  assert (same_but_scheduler vim2_pipeline_restored
            (with_scheduler vim2_pipeline_restored
               (from_config "DDIMScheduler" "Laxhar/noobai-XL-1.1"))) as Hs
    by (repeat split).
  split; [exact sym_call_generator|].
  split; [exact sym_call_device_stream|].
  split; [exact example_upscaler_ok|].
  do 7 (split; [assumption|]).
  split; [|vm_compute; by eexists].
  exact (generate_image_deterministic vim2_world_restored vim2_world_later
           1%nat 1%nat vim2_pipeline_restored
           (with_scheduler vim2_pipeline_restored
              (from_config "DDIMScheduler" "Laxhar/noobai-XL-1.1"))
           "A futuristic city skyline at sunset, ultrarealistic"
           (Some "blurry, low quality") "euler_ancestral" 25 42
           (PyFloat (float_of_ratio 8 1)) 512 512 true (PyInt 2)
           (Some Vim2.example_upscaler_func)
           sym_call_generator sym_call_device_stream example_upscaler_ok
           Hc Ht Hp1 Ho1 Hp2 Ho2 Hs).
Defined.

Lemma unknown_scheduler_falls_back_to_euler_witness :
  ("karras" ∉ Vim2.documented_names)
  /\ g_SCHEDULERS vim2_world_restored
     = Some (Vim2.scheduler_table "Laxhar/noobai-XL-1.1")
  /\ g_pipe vim2_world_restored = Some 1%nat
  /\ store vim2_world_restored !! 1%nat = Some vim2_pipeline_restored
  /\ (let w := vim2_world_restored in
      let r := 1%nat in
      let p := vim2_pipeline_restored in
      let cfg := "Laxhar/noobai-XL-1.1" in
      let scheduler_name := "karras" in
      let euler := from_config "EulerDiscreteScheduler" cfg in
      Vim2.scheduler_table cfg !! "euler" = Some euler
      /\ (let out := Vim2.set_scheduler r scheduler_name w in
          out.1 = Ok tt
          /\ store out.2 !! r = Some (with_scheduler p euler)
          /\ events_since w out.2
             = [EvPrint [Lit ("Unknown scheduler '" ++ scheduler_name
                              ++ "'. Defaulting to 'euler'.")];
                EvSetScheduler r euler])
      /\ (forall prompt negative_prompt num_inference_steps seed
                 guidance_scale width height hires_fix hires_scale
                 upscaler_func,
            Vim2.upscaler_opt_ok upscaler_func ->
            let out := Vim2.generate_image prompt negative_prompt
                         scheduler_name num_inference_steps seed
                         guidance_scale width height hires_fix hires_scale
                         upscaler_func w in
            let ref := Vim2.generate_image prompt negative_prompt "euler"
                         num_inference_steps seed guidance_scale width height
                         hires_fix hires_scale upscaler_func w in
            out.1 = ref.1
            /\ calls (events_since w out.2) = calls (events_since w ref.2)
            /\ store out.2 = store ref.2
            /\ (cuda_available w = true -> torch_seed seed ->
                exists args res,
                  calls (events_since w out.2)
                  = [(with_scheduler p euler, args, res)]
                  /\ out.1 = result_bind res (fun image =>
                               Vim2.upscaled width height hires_fix
                                 hires_scale upscaler_func image w))
            /\ (cuda_available w = false \/ ~ torch_seed seed ->
                out.1 = Raise (Vim2.generator_refusal w)
                /\ calls (events_since w out.2) = [])))
  /\ (exists img,
        (Vim2.generate_image "a lighthouse in a storm" None "karras" 20 7
           (PyInt 6) 512 512 false (PyInt 2) None vim2_world_restored).1
        = Ok img
        /\ (Vim2.generate_image "a lighthouse in a storm" None "euler" 20 7
              (PyInt 6) 512 512 false (PyInt 2) None vim2_world_restored).1
           = Ok img).
Proof.
  assert ("karras" ∉ Vim2.documented_names) as Hname.
  { apply (bool_decide_unpack _). vm_compute. exact I. }
  assert (g_SCHEDULERS vim2_world_restored
          = Some (Vim2.scheduler_table "Laxhar/noobai-XL-1.1")) as Htable
    by (vm_compute; reflexivity).
  assert (g_pipe vim2_world_restored = Some 1%nat) as Hpipe
    by (vm_compute; reflexivity).
  assert (store vim2_world_restored !! 1%nat = Some vim2_pipeline_restored)
    as Hobj by (vm_compute; reflexivity).
  do 4 (split; [assumption|]).
  split.
  { exact (unknown_scheduler_falls_back_to_euler vim2_world_restored 1%nat
             vim2_pipeline_restored "Laxhar/noobai-XL-1.1" "karras"
             Hname Htable Hpipe Hobj). }
  vm_compute. by eexists.
Defined.

(** C9 as the claim states it fails: an unknown scheduler name does not
    make [generate_image] succeed.  In the world the notebook's own setup
    leaves, the call with the name "karras" gets to the pipeline, which
    raises on the lifted token limit; a seed of 2^64 is refused by torch
    before the pipeline is invoked; on a runtime without a GPU no generator
    can be made. *)
Lemma unknown_scheduler_counterexample :
  ("karras" ∉ Vim2.documented_names)
  /\ succeeds
       (Vim2.generate_image "a lighthouse in a storm" None "karras" 20 7
          (PyInt 6) 512 512 false (PyInt 2) None vim2_world).1 = false
  /\ (Vim2.generate_image "a lighthouse in a storm" None "karras" 20 (2 ^ 64)
        (PyInt 6) 512 512 false (PyInt 2) None vim2_world).1
     = Raise torch_refusal
  /\ (Vim2.generate_image "a lighthouse in a storm" None "karras" 20 7
        (PyInt 6) 512 512 false (PyInt 2) None vim2_world_without_gpu).1
     = Raise (RuntimeError "device not available").
Proof.
  split; [apply (bool_decide_unpack _); vm_compute; exact I|].
  vm_compute. by repeat split.
Qed.

Lemma stage_order_of_the_notebooks_witness :
  Vim2.upscaler_opt_ok None
  /\ (let w := vim2_world in
      let prompt := "A futuristic cityscape at sunset with flying cars" in
      let guidance_scale := PyFloat (float_of_ratio 15 2) in
      let hires_scale := PyFloat float_two in
      (let out := Vim2.generate_image prompt None "euler" 50 42
                    guidance_scale 512 512 true hires_scale None w in
       let new := events_since w out.2 in
       (exists k, staged new = replicate k StSampler
                  /\ succeeds out.1 = false)
       \/ (exists n, staged new
                     = ([StSampler; StDenoise] ++ replicate n StResize)%list))
      /\ (let out := Vim2.setup w in
          let new := events_since w out.2 in
          (StDenoise ∉ staged new) /\ (StResize ∉ staged new)
          /\ (StOutput ∉ staged new)
          /\ (succeeds out.1 = true ->
              stages new = [StDevice; StLoad; StSampler]))
      /\ (let out := Noobai.notebook prompt 50 42 guidance_scale 512 512
                       true hires_scale w in
          let new := events_since w out.2 in
          (StSampler ∉ staged new)
          /\ (succeeds out.1 = true ->
              stages new
              = ([StDevice; StLoad; StDenoise]
                 ++ (if true then [StResize] else []) ++ [StOutput])%list))).
Proof.
  split; [exact I|].
  exact (stage_order_of_the_notebooks vim2_world
           "A futuristic cityscape at sunset with flying cars" None "euler"
           50 42 (PyFloat (float_of_ratio 15 2)) 512 512 true
           (PyFloat float_two) None I).
Defined.

(** C6 as the spec states it fails on both notebooks.  The Noobai notebook,
    run on its own inputs, succeeds without ever selecting a sampler.  Vim2,
    set up and asked for the image of its usage example, stops in the
    pipeline call, on the lifted token limit; with the limits put back it
    succeeds; either way it never saves or displays. *)
Lemma linear_pipeline_counterexample :
  (let run := Noobai.notebook
                "A futuristic cityscape at sunset with flying cars" 50 42
                (PyFloat (float_of_ratio 15 2)) 512 512 true
                (PyFloat float_two) (boot true) in
   succeeds run.1 = true
   /\ stages (trace run.2)
      = [StDevice; StLoad; StDenoise; StResize; StOutput]
   /\ follows_linear_pipeline (trace run.2) = false)
  /\ (let run := Vim2.generate_image
                   "A futuristic city skyline at sunset, ultrarealistic"
                   (Some "blurry, low quality") "euler_ancestral" 25 42
                   (PyFloat (float_of_ratio 8 1)) 512 512 true (PyInt 2)
                   (Some Vim2.example_upscaler_func) vim2_world in
      succeeds run.1 = false
      /\ stages (trace run.2) = [StDevice; StLoad; StSampler; StDenoise]
      /\ follows_linear_pipeline (trace run.2) = false)
  /\ (let run := Vim2.generate_image
                   "A futuristic city skyline at sunset, ultrarealistic"
                   (Some "blurry, low quality") "euler_ancestral" 25 42
                   (PyFloat (float_of_ratio 8 1)) 512 512 true (PyInt 2)
                   (Some Vim2.example_upscaler_func) vim2_world_restored in
      succeeds run.1 = true
      /\ stages (trace run.2)
         = [StDevice; StLoad; StSampler; StDenoise; StResize]
      /\ follows_linear_pipeline (trace run.2) = false).
Proof. vm_compute. repeat split. Qed.

(** C7 as the spec states it fails on Vim2: without CUDA its setup raises
    while moving the pipeline to "cuda", and no pipeline ends up on "cpu";
    the Noobai notebook does what the claim says. *)
Lemma pipeline_device_counterexample :
  (Vim2.setup (boot false)).1 = Raise (RuntimeError "device not available")
  /\ pipeline_device (Vim2.setup (boot false)).2 <> Some (expected_device false)
  /\ pipeline_device (Vim2.setup (boot true)).2 = Some (expected_device true)
  /\ pipeline_device (Noobai.load_model (boot false)).2
     = Some (expected_device false)
  /\ pipeline_device (Noobai.load_model (boot true)).2
     = Some (expected_device true).
Proof. vm_compute. repeat split. discriminate. Qed.

(** ** Runs on the symbolic library *)

Example scaled_dim_float : scaled_dim 512 (PyFloat float_two) = Ok 1024.
Proof. vm_compute. reflexivity. Qed.

Example scaled_dim_truncates :
  scaled_dim 7 (PyFloat (float_of_ratio 2 3)) = Ok 4
  /\ scaled_dim (-7) (PyFloat (float_of_ratio 2 3)) = Ok (-4).
Proof. vm_compute. by split. Qed.

Example scaled_dim_overflow :
  scaled_dim (2 ^ 1024) (PyFloat float_two)
  = Raise (OverflowError "int too large to convert to float").
Proof. vm_compute. reflexivity. Qed.

Example vim2_setup_needs_gpu :
  succeeds (Vim2.setup (boot true)).1 = true
  /\ succeeds (Vim2.setup (boot false)).1 = false.
Proof. vm_compute. by split. Qed.

Example vim2_lifted_limits_stop_the_call :
  (Vim2.generate_image "a lighthouse in a storm" None "euler" 20 7
     (PyInt 6) 512 512 false (PyInt 2) None vim2_world).1
  = Raise (RuntimeError "sequence longer than the encoder's positions")
  /\ succeeds
       (Vim2.generate_image "a lighthouse in a storm" None "euler" 20 7
          (PyInt 6) 512 512 false (PyInt 2) None vim2_world_restored).1
     = true.
Proof. vm_compute. by split. Qed.

Example vim2_size_must_divide_by_8 :
  (Vim2.generate_image "a lighthouse in a storm" None "euler" 20 7
     (PyInt 6) 500 500 true (PyInt 2) None vim2_world_restored).1
  = Raise (ValueError "height and width have to be divisible by 8").
Proof. vm_compute. reflexivity. Qed.

Example vim2_same_image_again :
  exists img,
    (Vim2.generate_image "a lighthouse in a storm" None "ddim" 20 7
       (PyInt 6) 512 512 true (PyInt 2) None vim2_world_restored).1 = Ok img
    /\ (Vim2.generate_image "a lighthouse in a storm" None "ddim" 20 7
          (PyInt 6) 512 512 true (PyInt 2) None
          (Vim2.generate_image "a castle" None "dpm" 30 11 (PyInt 6)
             768 768 false (PyInt 2) None vim2_world_restored).2).1 = Ok img.
Proof. vm_compute. by eexists. Qed.

Example noobai_reseeds :
  rng noobai_world <> rng noobai_world_later
  /\ (Noobai.generate_image "a lighthouse in a storm" 20 7 (PyInt 6) 512 512
        noobai_world).1
     = (Noobai.generate_image "a lighthouse in a storm" 20 7 (PyInt 6) 512 512
          noobai_world_later).1.
Proof. vm_compute. split; [discriminate | reflexivity]. Qed.

Example seed_refused :
  (Noobai.generate_image "a lighthouse in a storm" 20 (-1) (PyInt 6) 512 512
     noobai_world).1 = Raise numpy_refusal
  /\ succeeds
       (Vim2.generate_image "a lighthouse in a storm" None "euler" 20 (-1)
          (PyInt 6) 512 512 false (PyInt 2) None vim2_world_restored).1
     = true
  /\ (Vim2.generate_image "a lighthouse in a storm" None "euler" 20 (2 ^ 64)
        (PyInt 6) 512 512 false (PyInt 2) None vim2_world_restored).1
     = Raise torch_refusal.
Proof. vm_compute. by repeat split. Qed.

Example default_size_when_asked_for_0 :
  exists img,
    (Noobai.generate_image "a lighthouse in a storm" 20 7 (PyInt 6) 0 0
       noobai_world).1 = Ok img
    /\ img_size img = (1024, 1024).
Proof. vm_compute. by eexists. Qed.

(** ** The further properties on the symbolic library *)

Lemma set_seed_overrides_witness :
  numpy_seed 1 /\ numpy_seed 42
  /\ (let w := noobai_world_later in
      let out := Noobai.set_seed 42 w in
      out.1 = Ok tt
      /\ store out.2 = store w /\ g_pipe out.2 = g_pipe w
      /\ g_SCHEDULERS out.2 = g_SCHEDULERS w
      /\ py_random (rng out.2) = stream_seed 42
      /\ np_random (rng out.2) = stream_seed 42
      /\ torch_cpu (rng out.2) = stream_seed 42
      /\ torch_cuda (rng out.2)
         = (if cuda_available w then stream_seed 42 else torch_cuda (rng w))
      /\ rng (Noobai.set_seed 42 (Noobai.set_seed 1 w).2).2 = rng out.2).
Proof.
  assert (numpy_seed 1) as H1 by (unfold numpy_seed; lia).
  assert (numpy_seed 42) as H42 by (unfold numpy_seed; lia).
  do 2 (split; [assumption|]).
  exact (set_seed_overrides noobai_world_later 1 42 H1 H42).
Defined.

Lemma set_scheduler_last_wins_witness :
  g_SCHEDULERS vim2_world = Some (Vim2.scheduler_table "Laxhar/noobai-XL-1.1")
  /\ store vim2_world !! 1%nat = Some vim2_pipeline
  /\ (let w := vim2_world in
      let r := 1%nat in
      let p := vim2_pipeline in
      let cfg := "Laxhar/noobai-XL-1.1" in
      let n1 := "dpm" in
      let n2 := "karras" in
      let first := Vim2.set_scheduler r n1 w in
      let both := Vim2.set_scheduler r n2 first.2 in
      let only := Vim2.set_scheduler r n2 w in
      first.1 = Ok tt /\ both.1 = Ok tt /\ only.1 = Ok tt
      /\ store both.2 = store only.2
      /\ store both.2 !! r = Some (with_scheduler p (Vim2.chosen cfg n2))
      /\ (n1 = n2 -> store both.2 = store first.2)).
Proof.
  assert (g_SCHEDULERS vim2_world
          = Some (Vim2.scheduler_table "Laxhar/noobai-XL-1.1")) as Htable
    by (vm_compute; reflexivity).
  assert (store vim2_world !! 1%nat = Some vim2_pipeline) as Hobj
    by (vm_compute; reflexivity).
  do 2 (split; [assumption|]).
  exact (set_scheduler_last_wins vim2_world 1%nat vim2_pipeline
           "Laxhar/noobai-XL-1.1" "dpm" "karras" Htable Hobj).
Defined.

Lemma generate_image_before_setup_witness :
  g_pipe (boot true) = None
  /\ (let w := boot true in
      let prompt := "A futuristic city skyline at sunset, ultrarealistic" in
      let negative_prompt := Some "blurry, low quality" in
      let out := Vim2.generate_image prompt negative_prompt "euler_ancestral"
                   25 42 (PyFloat (float_of_ratio 8 1)) 512 512 true
                   (PyInt 2) (Some Vim2.example_upscaler_func) w in
      out.1 = Raise (NameError "pipe")
      /\ same_state w out.2
      /\ events_since w out.2 = Vim2.banner prompt negative_prompt).
Proof.
  split; [reflexivity|].
  exact (generate_image_before_setup (boot true)
           "A futuristic city skyline at sunset, ultrarealistic"
           (Some "blurry, low quality") "euler_ancestral" 25 42
           (PyFloat (float_of_ratio 8 1)) 512 512 true (PyInt 2)
           (Some Vim2.example_upscaler_func) eq_refl).
Defined.

Lemma generate_image_without_gpu_witness :
  cuda_available vim2_world_without_gpu = false
  /\ g_SCHEDULERS vim2_world_without_gpu
     = Some (Vim2.scheduler_table "Laxhar/noobai-XL-1.1")
  /\ g_pipe vim2_world_without_gpu = Some 1%nat
  /\ store vim2_world_without_gpu !! 1%nat = Some vim2_pipeline
  /\ (let w := vim2_world_without_gpu in
      let r := 1%nat in
      let p := vim2_pipeline in
      let cfg := "Laxhar/noobai-XL-1.1" in
      let scheduler_name := "ddim" in
      let out := Vim2.generate_image "a lighthouse in a storm" None
                   scheduler_name 20 7 (PyInt 6) 512 512 false (PyInt 2)
                   None w in
      out.1 = Raise (RuntimeError "device not available")
      /\ calls (events_since w out.2) = []
      /\ staged (events_since w out.2) = [StSampler]
      /\ store out.2 !! r
         = Some (with_scheduler p (Vim2.chosen cfg scheduler_name))
      /\ rng out.2 = rng w).
Proof.
  assert (cuda_available vim2_world_without_gpu = false) as Hcuda
    by reflexivity.
  assert (g_SCHEDULERS vim2_world_without_gpu
          = Some (Vim2.scheduler_table "Laxhar/noobai-XL-1.1")) as Htable
    by (vm_compute; reflexivity).
  assert (g_pipe vim2_world_without_gpu = Some 1%nat) as Hpipe
    by (vm_compute; reflexivity).
  assert (store vim2_world_without_gpu !! 1%nat = Some vim2_pipeline) as Hobj
    by (vm_compute; reflexivity).
  do 4 (split; [assumption|]).
  exact (generate_image_without_gpu vim2_world_without_gpu 1%nat
           vim2_pipeline "Laxhar/noobai-XL-1.1" "a lighthouse in a storm"
           None "ddim" 20 7 (PyInt 6) 512 512 false (PyInt 2) None
           Hcuda Htable Hpipe Hobj).
Defined.

Lemma generate_image_frame_witness :
  Vim2.upscaler_opt_ok (Some Vim2.example_upscaler_func)
  /\ (let w := vim2_world in
      let out := Vim2.generate_image
                   "A futuristic city skyline at sunset, ultrarealistic"
                   (Some "blurry, low quality") "euler_ancestral" 25 42
                   (PyFloat (float_of_ratio 8 1)) 512 512 true (PyInt 2)
                   (Some Vim2.example_upscaler_func) w in
      g_pipe out.2 = g_pipe w
      /\ g_SCHEDULERS out.2 = g_SCHEDULERS w
      /\ length (store out.2) = length (store w)
      /\ (forall r', g_pipe w <> Some r' -> store out.2 !! r' = store w !! r')
      /\ (forall r p, g_pipe w = Some r -> store w !! r = Some p ->
            exists p', store out.2 !! r = Some p' /\ same_but_scheduler p p')).
Proof.
  split; [exact example_upscaler_ok|].
  exact (generate_image_frame vim2_world
           "A futuristic city skyline at sunset, ultrarealistic"
           (Some "blurry, low quality") "euler_ancestral" 25 42
           (PyFloat (float_of_ratio 8 1)) 512 512 true (PyInt 2)
           (Some Vim2.example_upscaler_func) example_upscaler_ok).
Defined.

Lemma notebook_final_size_witness :
  (forall src sz filter r, lib_resize src sz filter = Ok r -> img_size r = sz)
  /\ (let w := boot true in
      let prompt := "A futuristic cityscape at sunset with flying cars" in
      let guidance_scale := PyFloat (float_of_ratio 15 2) in
      let scale := PyFloat float_two in
      let p := {| pipe_class := "StableDiffusionPipeline";
                  weights := "Laxhar/noobai-XL-1.1"; device := "cuda";
                  tokenizer := {| model_max_length := 77 |};
                  tokenizer_2 := {| model_max_length := 77 |};
                  scheduler := from_config "EulerDiscreteScheduler"
                                 "Laxhar/noobai-XL-1.1" |} in
      let generated := Generated p
                         (Noobai.forwarded prompt 50 guidance_scale 512 768)
                         (42, 0%nat) in
      let img := Resized generated (1536, 1024) in
      (Noobai.notebook prompt 50 42 guidance_scale 512 768 true scale w).1
      = Ok img
      /\ img_size generated = (768, 512)
      /\ img_size img = (1536, 1024)).
Proof.
  split; [exact sym_resize_size|]. cbv zeta.
  match goal with
  | |- ?run = Ok ?img /\ _ =>
      assert (run = Ok img) as Hrun by (vm_compute; reflexivity)
  end.
  split; [exact Hrun|]. split; [reflexivity|].
  destruct (notebook_final_size (boot true)
              "A futuristic cityscape at sunset with flying cars" 50 42
              (PyFloat (float_of_ratio 15 2)) 512 768 true (PyFloat float_two)
              _ sym_resize_size Hrun)
    as (p0 & generated & Hload & Hcall & _ & Hsize).
  injection Hload as <-.
  assert (generated
          = Generated
              {| pipe_class := "StableDiffusionPipeline";
                 weights := "Laxhar/noobai-XL-1.1"; device := "cuda";
                 tokenizer := {| model_max_length := 77 |};
                 tokenizer_2 := {| model_max_length := 77 |};
                 scheduler := from_config "EulerDiscreteScheduler"
                                "Laxhar/noobai-XL-1.1" |}
              (Noobai.forwarded
                 "A futuristic cityscape at sunset with flying cars" 50
                 (PyFloat (float_of_ratio 15 2)) 512 768)
              (42, 0%nat)) as ->.
  { vm_compute in Hcall. by injection Hcall as <-. }
  destruct (Hsize eq_refl) as (nw & nh & Hnw & Hnh & ->).
  vm_compute in Hnw, Hnh. by injection Hnw as <-; injection Hnh as <-.
Defined.

Lemma load_pipeline_unknown_choice_witness :
  ("karras" ∉ Vim2.documented_names)
  /\ g_SCHEDULERS vim2_world = Some (Vim2.scheduler_table "Laxhar/noobai-XL-1.1")
  /\ (let w := vim2_world in
      let out := Vim2.load_pipeline Vim2.MODEL_ID "karras" w in
      let ref := Vim2.load_pipeline Vim2.MODEL_ID "euler" w in
      same_outcome out.1 ref.1
      /\ (succeeds ref.1 = true ->
          out.1 = ref.1 /\ store out.2 = store ref.2)).
Proof.
  assert ("karras" ∉ Vim2.documented_names) as Hname.
  { apply (bool_decide_unpack _). vm_compute. exact I. }
  assert (g_SCHEDULERS vim2_world
          = Some (Vim2.scheduler_table "Laxhar/noobai-XL-1.1")) as Htable
    by (vm_compute; reflexivity).
  do 2 (split; [assumption|]).
  exact (load_pipeline_unknown_choice vim2_world "Laxhar/noobai-XL-1.1"
           Vim2.MODEL_ID "karras" Hname Htable).
Defined.

Lemma not_finite_scale_raises_before_resize_witness :
  not_finite (PyFloat S754_nan) = true
  /\ (let w := vim2_world_restored in
      let hires_scale := PyFloat S754_nan in
      let image := Generated vim2_pipeline_restored
                     (Noobai.forwarded "a lighthouse in a storm" 20 (PyInt 6)
                        512 512) (7, 0%nat) in
      (let out := Noobai.hires_fix image hires_scale w in
       succeeds out.1 = false /\ out.2 = w)
      /\ (let out := Vim2.generate_image "a lighthouse in a storm" None
                       "euler" 20 7 (PyInt 6) 512 512 true hires_scale
                       None w in
          succeeds out.1 = false
          /\ resizes (events_since w out.2) = []
          /\ (forall r p s, Vim2.reach w "euler" 7 = Some (r, p, s) ->
                exists args res,
                  calls (events_since w out.2)
                  = [(with_scheduler p s, args, res)])))
  /\ (exists p args img,
        calls (events_since vim2_world_restored
                 (Vim2.generate_image "a lighthouse in a storm" None
                    "euler" 20 7 (PyInt 6) 512 512 true (PyFloat S754_nan)
                    None vim2_world_restored).2)
        = [(p, args, Ok img)]).
Proof.
  split; [reflexivity|]. split.
  - exact (not_finite_scale_raises_before_resize vim2_world_restored
             (Generated vim2_pipeline_restored
                (Noobai.forwarded "a lighthouse in a storm" 20 (PyInt 6)
                   512 512) (7, 0%nat))
             "a lighthouse in a storm" None "euler" 20 7 (PyInt 6) 512 512
             (PyFloat S754_nan) eq_refl).
  - vm_compute. by eexists _, _, _.
Defined.
